(** * Dimplex controller: authentication, token life cycle and API client

    A shallow embedding of [dimplex_controller/auth.py] (class [AuthManager])
    and of [dimplex_controller/client.py] (class [DimplexControl]), with the
    constants of [const.py], the exception classes of [exceptions.py] and
    the parts of [models.py] that the client reads and writes, followed by
    their properties.

    Conventions of the embedding.
    - A Python [str] is a Rocq [string]; a character is one [ascii].  Text
      outside ASCII is outside the model.
    - Python objects that travel through the code untyped (values taken out
      of a decoded JSON document, the stored tokens) are [pyval]s.
    - Instants and durations ([time.time()], [expires_in], [expires_at]) are
      integers, in seconds.  The rounding of binary floating point is not
      modelled.
    - A coroutine is a function of the [World]: the object's fields, the
      clock, the HTTP session, the logger and the file system.  Awaiting is
      sequencing; a raised exception is an [outcome], and the world it
      leaves behind is kept.  The client lives in an [Env]: the world of its
      [AuthManager], the API at the far end, and its own logger.
    - Of the libraries, [urlencode], the one regular expression, the
      format of [strptime] and [resp.json()] of aiohttp are written out;
      [json], [urlparse] and [parse_qs], BeautifulSoup, [repr] and the
      validation of pydantic are parameters.  The modules [Json] and
      [Urllib] hold a codec and a parser to instantiate the first of them
      with. *)

From Stdlib Require Import ZArith List String Ascii Bool Lia.
From Stdlib Require Import DecimalString DecimalPos DecimalZ.
From stdpp Require Import gmap strings.
Import ListNotations.

Open Scope string_scope.
Open Scope Z_scope.

Set Warnings "-register-all".

(** ** Python values and built-ins *)

Inductive pyval : Type :=
| PNone
| PBool (b : bool)
| PNum (n : Z)
| PStr (s : string)
| PList (items : list pyval)
| PDict (fields : list (string * pyval)).

(** Truth value testing: [None], [False], zero and empty containers and
    strings are false. *)
Definition truthy (v : pyval) : bool :=
  match v with
  | PNone => false
  | PBool b => b
  | PNum n => negb (n =? 0)%Z
  | PStr s => negb (s =? "")%string
  | PList l => match l with [] => false | _ => true end
  | PDict d => match d with [] => false | _ => true end
  end.

(** [v is not None]. *)
Definition is_not_None (v : pyval) : bool :=
  match v with PNone => false | _ => true end.

(** Numbers as arithmetic sees them: [bool] is a subtype of [int]. *)
Definition as_number (v : pyval) : option Z :=
  match v with
  | PNum n => Some n
  | PBool b => Some (if b then 1 else 0)
  | _ => None
  end.

(** A [dict] keeps its items in insertion order; a key occurs once. *)
Fixpoint dict_lookup (d : list (string * pyval)) (k : string) : option pyval :=
  match d with
  | [] => None
  | (k', v) :: rest => if (k' =? k)%string then Some v else dict_lookup rest k
  end.

(** [d.get(k, default)]. *)
Definition dict_get (d : list (string * pyval)) (k : string) (default : pyval)
  : pyval :=
  match dict_lookup d k with Some v => v | None => default end.

(** [d[k] = v]: replaces the value in place, or appends the new key. *)
Fixpoint dict_set (d : list (string * pyval)) (k : string) (v : pyval)
  : list (string * pyval) :=
  match d with
  | [] => [(k, v)]
  | (k', v') :: rest =>
      if (k' =? k)%string then (k', v) :: rest else (k', v') :: dict_set rest k v
  end.

(** [d.update(other)]. *)
Definition dict_update (d other : list (string * pyval)) : list (string * pyval) :=
  fold_left (fun acc kv => dict_set acc (fst kv) (snd kv)) other d.

(** Decimal rendering of an integer, as [str(n)] and [f"{n}"] give it. *)
Definition dec (n : Z) : string := NilZero.string_of_int (Z.to_int n).

(** *** [str] methods *)

(** [s.startswith(p)]. *)
Definition startswith (s p : string) : bool := String.prefix p s.

(** [needle in hay]. *)
Fixpoint contains (needle hay : string) : bool :=
  String.prefix needle hay ||
  match hay with
  | EmptyString => false
  | String _ rest => contains needle rest
  end.

(** [s.split(sep)[0]]: the text before the first occurrence of [sep], the
    whole of [s] when [sep] does not occur. *)
Fixpoint before_first (sep s : string) : string :=
  match s with
  | EmptyString => EmptyString
  | String c rest =>
      if String.prefix sep s then EmptyString else String c (before_first sep rest)
  end.

(** [s.split(sep, 1)[1]] when [sep] occurs in [s]. *)
Fixpoint after_first (sep s : string) : option string :=
  if String.prefix sep s then Some (String.substring (String.length sep) (String.length s) s)
  else match s with
       | EmptyString => None
       | String _ rest => after_first sep rest
       end.

(** [s[:n]]. *)
Definition slice_to (n : nat) (s : string) : string := String.substring 0 n s.

(** *** [urllib.parse] *)

(** The characters [quote_plus] leaves alone: letters, digits and [_.-~]. *)
Definition unreserved (c : ascii) : bool :=
  let n := nat_of_ascii c in
  ((48 <=? n) && (n <=? 57) || (65 <=? n) && (n <=? 90)
   || (97 <=? n) && (n <=? 122))%nat
  || contains (String c "") "_.-~".

Definition hex_upper (n : nat) : ascii :=
  if (n <? 10)%nat then ascii_of_nat (48 + n) else ascii_of_nat (55 + n).

(** [quote_plus(s)]. *)
Fixpoint quote_plus (s : string) : string :=
  match s with
  | EmptyString => EmptyString
  | String c rest =>
      if Ascii.eqb c " " then String "+" (quote_plus rest)
      else if unreserved c then String c (quote_plus rest)
      else let n := nat_of_ascii c in
           String "%" (String (hex_upper (n / 16)) (String (hex_upper (n mod 16))
                                                      (quote_plus rest)))
  end.

Fixpoint join (sep : string) (l : list string) : string :=
  match l with
  | [] => ""
  | [x] => x
  | x :: rest => x ++ sep ++ join sep rest
  end.

(** The value of a hexadecimal digit, either case. *)
Definition hex_value (c : ascii) : option nat :=
  let n := nat_of_ascii c in
  if ((48 <=? n) && (n <=? 57))%nat then Some (n - 48)%nat
  else if ((65 <=? n) && (n <=? 70))%nat then Some (n - 55)%nat
  else if ((97 <=? n) && (n <=? 102))%nat then Some (n - 87)%nat
  else None.

(** [unquote(s)] on text whose escapes stay within ASCII: every [%XX] with
    two hexadecimal digits becomes the character of that code; any other
    [%] stays.  (From [%80] on the library reads the escaped bytes as UTF-8
    and gives text outside ASCII; here such an escape gives the character
    with the code of the byte, as [quote_plus] above escapes it.) *)
Fixpoint unquote (s : string) : string :=
  match s with
  | EmptyString => EmptyString
  | String c rest =>
      match rest with
      | String h (String l rest') =>
          match Ascii.eqb c "%", hex_value h, hex_value l with
          | true, Some a, Some b =>
              String (ascii_of_nat (16 * a + b)) (unquote rest')
          | _, _, _ => String c (unquote rest)
          end
      | _ => String c (unquote rest)
      end
  end.

(** [s.replace("+", " ")]. *)
Fixpoint plus_to_space (s : string) : string :=
  match s with
  | EmptyString => EmptyString
  | String c rest =>
      String (if Ascii.eqb c "+" then " "%char else c) (plus_to_space rest)
  end.

(** [s.split(c)] for a one-character separator. *)
Fixpoint split_on (c : ascii) (s : string) : list string :=
  match s with
  | EmptyString => [EmptyString]
  | String a rest =>
      match split_on c rest with
      | [] => [EmptyString]
      | h :: t => if Ascii.eqb a c then EmptyString :: h :: t else String a h :: t
      end
  end.

(** [parse_qsl(qs)] with its defaults: fields are separated by [&]; a field
    without [=] or with an empty value is dropped; names and values have
    [+] turned into a space and are unquoted. *)
Definition parse_field (name_value : string) : list (string * string) :=
  match after_first "=" name_value with
  | None => []
  | Some value =>
      if (String.length value =? 0)%nat then []
      else [(unquote (plus_to_space (before_first "=" name_value)),
             unquote (plus_to_space value))]
  end.

Definition parse_qsl (qs : string) : list (string * string) :=
  flat_map parse_field (split_on "&" qs).

(** Tab, carriage return and line feed, which [urlsplit] deletes. *)
Definition unsafe_url_char (c : ascii) : bool :=
  let n := nat_of_ascii c in ((n =? 9) || (n =? 10) || (n =? 13))%nat.

Fixpoint remove_unsafe (s : string) : string :=
  match s with
  | EmptyString => EmptyString
  | String c rest =>
      if unsafe_url_char c then remove_unsafe rest else String c (remove_unsafe rest)
  end.

(** The query [urlsplit] cuts out of a URL: the fragment is cut at the
    first [#], and the query is what follows the first [?] of what remains.
    (The scheme and the network location never hold either character.)
    This is [urlparse(url).query] for the URLs that [urlparse] accepts; it
    refuses some, raising [ValueError], before it comes to the query. *)
Definition url_query (url : string) : string :=
  match after_first "?" (before_first "#" (remove_unsafe url)) with
  | Some q => q
  | None => ""
  end.

(** ** Constants ([const.py]) *)

Definition HTTP_OK : Z := 200.
Definition AUTH_URL : string :=
  "https://gdhvb2c.b2clogin.com/tfp/gdhvb2c.onmicrosoft.com/B2C_1A_DimplexControlSignupSignin/oauth2/v2.0".
Definition CLIENT_ID : string := "6c983ca3-506e-4933-8993-0e18e6a24bbd".
Definition SCOPE : string :=
  "https://gdhvb2c.onmicrosoft.com/Mobile/read offline_access openid profile".
Definition REDIRECT_URI : string :=
  "msal6c983ca3-506e-4933-8993-0e18e6a24bbd://auth/".

(** ** Exceptions ([exceptions.py] and the libraries') *)

Inductive exn : Type :=
| DimplexAuthError (msg : string)   (* exceptions.DimplexAuthError *)
| ClientError                       (* aiohttp.ClientError: the transport failed *)
| JSONDecodeError                   (* json.JSONDecodeError; a body that is not JSON *)
| AttributeError                    (* [.get] on an object that is not a dict *)
| TypeError                         (* arithmetic on an object that is not a number *)
| OSError                           (* [open] failed *)
| ValueError                        (* [urlparse] on a URL it refuses *)
| IndexError.                       (* [l[0]] on an empty list *)

Inductive outcome (A : Type) : Type :=
| Ok (a : A)
| Raise (e : exn).
Arguments Ok {A} a.
Arguments Raise {A} e.

(** ** The world an [AuthManager] lives in *)

(** The object's fields [_access_token], [_refresh_token], [_expires_at]. *)
Record TokenState : Type := {
  _access_token : pyval;
  _refresh_token : pyval;
  _expires_at : Z;
}.

(** What the session is asked to send. *)
Inductive Request : Type :=
| GET (url : string) (allow_redirects : bool)
| POST (url : string) (data : list (string * pyval))
       (headers : list (string * pyval)).

(** What the code reads of a response: [resp.status], [await resp.text()],
    [resp.headers.get("Location")] and [str(resp.url)]. *)
Record Response : Type := {
  status : Z;
  text : string;
  location : option string;
  url : string;
}.

(** The session either delivers a response or raises [aiohttp.ClientError]. *)
Inductive Reply : Type :=
| Answer (r : Response)
| Fails.

(** The far end of the session, scripted: what each coming request is
    answered with, and what the clock shows when the answer is in. *)
Record Exchange : Type := {
  arrives_at : Z;
  reply : Reply;
}.

Inductive Level : Type := DEBUG | INFO | ERROR.

(** A record handed to [_LOGGER]: level, message and [%s] arguments. *)
Inductive LogArg : Type :=
| ArgStr (s : string)
| ArgExc (e : exn).

Record LogRecord : Type := {
  level : Level;
  message : string;
  args : list LogArg;
}.

(** What a path names: a file that opens and reads as text, a directory, or
    an entry that exists but that [open] refuses. *)
Inductive Node : Type :=
| RegularFile (content : string)
| Directory
| Denied.

Record World : Type := {
  tokens : TokenState;
  now : Z;
  pending : list Exchange;
  sent : list Request;
  logged : list LogRecord;
  files : gmap string Node;
}.

Definition set_tokens (t : TokenState) (w : World) : World :=
  {| tokens := t; now := now w; pending := pending w; sent := sent w;
     logged := logged w; files := files w |}.

Definition set_files (f : gmap string Node) (w : World) : World :=
  {| tokens := tokens w; now := now w; pending := pending w; sent := sent w;
     logged := logged w; files := f |}.

Definition add_log (r : LogRecord) (w : World) : World :=
  {| tokens := tokens w; now := now w; pending := pending w; sent := sent w;
     logged := (logged w ++ [r])%list; files := files w |}.

(** The request goes out; the next scripted exchange, if any, comes in. *)
Definition exchange (q : Request) (w : World) : World :=
  {| tokens := tokens w;
     now := match pending w with [] => now w | x :: _ => arrives_at x end;
     pending := tl (pending w);
     sent := (sent w ++ [q])%list;
     logged := logged w; files := files w |}.

(** *** Computations *)

Definition M (A : Type) : Type := World -> outcome A * World.

Definition ret {A} (a : A) : M A := fun w => (Ok a, w).

Definition raise {A} (e : exn) : M A := fun w => (Raise e, w).

Definition bind {A B} (m : M A) (k : A -> M B) : M B :=
  fun w => match m w with
           | (Ok a, w') => k a w'
           | (Raise e, w') => (Raise e, w')
           end.

(** [try: m  except <handled>: h]. *)
Definition try_except {A} (m : M A) (handler : exn -> option (M A)) : M A :=
  fun w => match m w with
           | (Ok a, w') => (Ok a, w')
           | (Raise e, w') =>
               match handler e with
               | Some h => h w'
               | None => (Raise e, w')
               end
           end.

Declare Scope py_scope.
Delimit Scope py_scope with py.
Notation "'let*' x ':=' m 'in' k" := (bind m (fun x => k))
  (at level 10, x name, m at level 100, k at level 200) : py_scope.
Notation "m ';;' k" := (bind m (fun _ => k))
  (at level 100, k at level 200, right associativity) : py_scope.
Open Scope py_scope.

(** [time.time()]. *)
Definition time_time : M Z := fun w => (Ok (now w), w).

(** [self._session.get(..)] / [self._session.post(..)], awaited.  With no
    exchange left in the script the transport fails. *)
Definition http (q : Request) : M Response :=
  fun w => match pending w with
           | {| reply := Answer r |} :: _ => (Ok r, exchange q w)
           | _ => (Raise ClientError, exchange q w)
           end.

Definition log (l : Level) (msg : string) (a : list LogArg) : M unit :=
  fun w => (Ok tt, add_log {| level := l; message := msg; args := a |} w).

Definition get_self : M TokenState := fun w => (Ok (tokens w), w).

Definition put_self (t : TokenState) : M unit := fun w => (Ok tt, set_tokens t w).

(** [v.get(k, default)] on an arbitrary object. *)
Definition py_get (v : pyval) (k : string) (default : pyval) : M pyval :=
  match v with
  | PDict d => ret (dict_get d k default)
  | _ => raise AttributeError
  end.

(** *** [re] *)

(** What [\s] matches among the ASCII characters. *)
Definition is_space (c : ascii) : bool :=
  let n := nat_of_ascii c in
  ((9 <=? n) && (n <=? 13) || (28 <=? n) && (n <=? 32))%nat.

Fixpoint skip_spaces (s : string) : string :=
  match s with
  | EmptyString => EmptyString
  | String c rest => if is_space c then skip_spaces rest else s
  end.

(** [s[n:]]. *)
Definition slice_from (n : nat) (s : string) : string :=
  String.substring n (String.length s) s.

(** The pattern [SETTINGS\s*=\s*({.*?});] matched at the head of [s], with
    [.] matching every character: group 1 runs from the brace to the first
    closing brace that a semicolon follows. *)
Definition settings_at (s : string) : option string :=
  if String.prefix "SETTINGS" s then
    match skip_spaces (slice_from 8 s) with
    | String "=" r1 =>
        match skip_spaces r1 with
        | String "{" r2 =>
            if contains "};" r2
            then Some (String "{" (before_first "};" r2 ++ "}"))
            else None
        | _ => None
        end
    | _ => None
    end
  else None.

(** [re.search(r"SETTINGS\s*=\s*({.*?});", html, re.DOTALL | re.MULTILINE)],
    giving [match.group(1)] of the leftmost match. *)
Fixpoint re_search_settings (html : string) : option string :=
  match settings_at html with
  | Some g => Some g
  | None =>
      match html with
      | EmptyString => None
      | String _ rest => re_search_settings rest
      end
  end.

(** [urlencode(params)] on string values. *)
Definition urlencode (params : list (string * string)) : string :=
  join "&" (map (fun kv => quote_plus (fst kv) ++ "=" ++ quote_plus (snd kv)) params).

(** ** [AuthManager] *)

Definition token_url : string := AUTH_URL ++ "/token".

Definition authorize_params : list (string * string) :=
  [("client_id", CLIENT_ID); ("response_type", "code");
   ("redirect_uri", REDIRECT_URI); ("scope", SCOPE);
   ("response_mode", "query")].

(** [f"{AUTH_URL}/authorize?{urlencode(params)}"], which [get_login_url]
    returns and [headless_login] builds again as its [start_url]. *)
Definition authorize_url : string :=
  AUTH_URL ++ "/authorize?" ++ urlencode authorize_params.

Definition get_login_url : string := authorize_url.

Definition POLICY : string := "B2C_1A_DimplexControlSignupSignin".

Definition DEFAULT_BASE_URL : string :=
  "https://gdhvb2c.b2clogin.com/gdhvb2c.onmicrosoft.com/B2C_1A_DimplexControlSignupSignin".

(** [resp.status in (302, 303, 301)]. *)
Definition is_redirect (s : Z) : bool :=
  ((s =? 302) || (s =? 303) || (s =? 301))%Z.

(** [v != "200"]. *)
Definition differs_from_200 (v : pyval) : bool :=
  match v with
  | PStr s => negb (s =? "200")%string
  | _ => true
  end.

(** [query.get(k, default)] on the dict that [parse_qs] returns. *)
Fixpoint query_get (query : list (string * list string)) (k : string)
         (default : list string) : list string :=
  match query with
  | [] => default
  | (k', values) :: rest =>
      if (k' =? k)%string then values else query_get rest k default
  end.

(** [location.startswith(REDIRECT_URI) or "code=" in location]. *)
Definition carries_code (loc : string) : bool :=
  startswith loc REDIRECT_URI || contains "code=" loc.

(** Access to the file system. *)

(** [os.path.exists(path)]. *)
Definition path_exists (path : string) : M bool :=
  fun w => (Ok (bool_decide (is_Some (files w !! path))), w).

(** [open(path, "r")] and reading it whole. *)
Definition read_file (path : string) : M string :=
  fun w => match files w !! path with
           | Some (RegularFile c) => (Ok c, w)
           | _ => (Raise OSError, w)
           end.

(** [open(path, "w")] and writing [content]: the file is created or
    replaced. *)
Definition write_file (path content : string) : M unit :=
  fun w => match files w !! path with
           | Some Directory | Some Denied => (Raise OSError, w)
           | _ => (Ok tt, set_files (<[path := RegularFile content]> (files w)) w)
           end.

Section AuthManager.

(** The libraries the module calls, beyond those modelled above. *)

(** [json.loads]: the decoded document, [None] when the text is not JSON. *)
Variable json_loads : string -> option pyval.

(** [json.dumps(v, indent=2)]. *)
Variable json_dumps : pyval -> string.

(** [repr] of a list or a dict. *)
Variable py_repr : pyval -> string.

(** BeautifulSoup: the [name] attribute (if any) and the [value] attribute
    (default [""]) of every [input] of the form with id
    [localAccountForm] or, failing that, of the first form; no form, no
    inputs. *)
Variable soup_form_inputs : string -> list (option string * string).

(** [urlparse(url).query]: the query of a URL, [None] when [urlparse]
    refuses the URL and raises [ValueError] (as it does for a host with an
    unmatched bracket). *)
Variable urlparse_query : string -> option string.

(** [parse_qs(qs)]: the names in a query string, each with the list of its
    values. *)
Variable parse_qs : string -> list (string * list string).

(** [str(v)], also what an f-string makes of [v]. *)
Definition py_str (v : pyval) : string :=
  match v with
  | PNone => "None"
  | PBool true => "True"
  | PBool false => "False"
  | PNum n => dec n
  | PStr s => s
  | PList _ | PDict _ => py_repr v
  end.

Definition loads (s : string) : M pyval :=
  match json_loads s with
  | Some v => ret v
  | None => raise JSONDecodeError
  end.

(** [await resp.json()]: the body, decoded.  (The other refusals of
    aiohttp, of a body that is empty or is not declared as JSON, are not
    told apart from a body that is not JSON.) *)
Definition resp_json (resp : Response) : M pyval := loads (text resp).

Definition is_authenticated : M bool :=
  let* self := get_self in
  if is_not_None (_access_token self) then
    let* t := time_time in
    ret (t <? _expires_at self)
  else ret false.

Definition _update_tokens (data : pyval) : M unit :=
  let* a := py_get data "access_token" PNone in
  let* self := get_self in
  put_self {| _access_token := a; _refresh_token := _refresh_token self;
              _expires_at := _expires_at self |} ;;
  let* r := py_get data "refresh_token" PNone in
  let* self := get_self in
  put_self {| _access_token := _access_token self; _refresh_token := r;
              _expires_at := _expires_at self |} ;;
  let* expires_in := py_get data "expires_in" (PNum 3600) in
  let* t := time_time in
  match as_number expires_in with
  | None => raise TypeError
  | Some n =>
      let* self := get_self in
      put_self {| _access_token := _access_token self;
                  _refresh_token := _refresh_token self;
                  _expires_at := t + n - 60 |}
  end.

Definition refresh_tokens : M unit :=
  log DEBUG "Refreshing access token" [] ;;
  let* self := get_self in
  let payload :=
    [("client_id", PStr CLIENT_ID); ("grant_type", PStr "refresh_token");
     ("refresh_token", _refresh_token self); ("scope", PStr SCOPE);
     ("client_info", PStr "1")] in
  let* resp := http (POST token_url payload []) in
  if negb (status resp =? HTTP_OK) then
    let body := text resp in
    log ERROR "Failed to refresh token: %s" [ArgStr body] ;;
    raise (DimplexAuthError
             ("Failed to refresh token: " ++ dec (status resp) ++ " - " ++ body))
  else
    let* data := resp_json resp in
    _update_tokens data.

Definition get_access_token : M pyval :=
  let* self := get_self in
  if negb (truthy (_refresh_token self)) then
    raise (DimplexAuthError
             "No refresh token available. User must authenticate first.")
  else
    let* authenticated := is_authenticated in
    if authenticated then
      let* self := get_self in ret (_access_token self)
    else
      refresh_tokens ;;
      let* self := get_self in ret (_access_token self).

Definition exchange_code (code : string) : M unit :=
  let payload :=
    [("client_id", PStr CLIENT_ID); ("grant_type", PStr "authorization_code");
     ("code", PStr code); ("redirect_uri", PStr REDIRECT_URI);
     ("scope", PStr SCOPE)] in
  log INFO ("Exchanging code for tokens at " ++ AUTH_URL ++ "/token") [] ;;
  log INFO ("Payload: client_id=" ++ CLIENT_ID ++ ", redirect_uri="
            ++ REDIRECT_URI ++ ", code=" ++ slice_to 10 code ++ "...") [] ;;
  let* resp := http (POST token_url payload []) in
  log INFO ("Token exchange response status: " ++ dec (status resp)) [] ;;
  if negb (status resp =? HTTP_OK) then
    let body := text resp in
    log ERROR ("Token exchange failed: " ++ body) [] ;;
    raise (DimplexAuthError ("Failed to exchange code: " ++ body))
  else
    let* data := resp_json resp in
    _update_tokens data.

(** *** [headless_login] *)

(** The hidden fields of the login form: [form_data[name] = value] for
    every input that has a name. *)
Definition collect_inputs (inputs : list (option string * string))
  : list (string * pyval) :=
  fold_left
    (fun form_data input =>
       match fst input with
       | Some name =>
           if (name =? "")%string then form_data
           else dict_set form_data name (PStr (snd input))
       | None => form_data
       end)
    inputs [].

(** [parse_qs(urlparse(location).query).get("code", [""])[0]], with the
    exceptions of [urlparse] and of the indexing. *)
Definition query_code (location : string) : outcome string :=
  match urlparse_query location with
  | None => Raise ValueError
  | Some query =>
      match query_get (parse_qs query) "code" [""] with
      | [] => Raise IndexError
      | code :: _ => Ok code
      end
  end.

Definition code_of (location : string) : M string :=
  fun w => (query_code location, w).

(** The loop [for _ in range(10)] that follows the redirects by hand,
    [hops] rounds of it; the result is the local [code]. *)
Fixpoint follow_redirects (hops : nat) (current_url : string)
  : M (option string) :=
  match hops with
  | O => ret None
  | S hops' =>
      let* resp := http (GET current_url false) in
      if is_redirect (status resp) then
        match location resp with
        | None => ret None
        | Some loc =>
            if (loc =? "")%string then ret None
            else if carries_code loc then
              log DEBUG ("Found redirect with code: " ++ loc) [] ;;
              let* code := code_of loc in
              ret (Some code)
            else follow_redirects hops' loc
        end
      else ret None
  end.

(** Step 5, from the manual following of redirects on. *)
Definition capture_code_and_exchange (start_url : string) : M unit :=
  let* code := follow_redirects 10 start_url in
  match code with
  | Some c =>
      if (c =? "")%string then
        raise (DimplexAuthError
                 "Failed to obtain auth code after successful login. Redirect URI might have changed.")
      else
        log DEBUG ("Got code: " ++ slice_to 10 c ++ "...") [] ;;
        exchange_code c
  | None =>
      raise (DimplexAuthError
               "Failed to obtain auth code after successful login. Redirect URI might have changed.")
  end.

(** Step 4, once the credentials have been posted: the reading of the
    answer. *)
Definition check_login_response (resp : Response) : M unit :=
  let resp_text := text resp in
  log DEBUG ("Login response status: " ++ dec (status resp)) [] ;;
  let* resp_json :=
    try_except
      (let* v := loads resp_text in
       log DEBUG ("Login response JSON: " ++ py_str v) [] ;;
       ret v)
      (fun e =>
         match e with
         | JSONDecodeError =>
             Some (log DEBUG ("Login response Text: " ++ resp_text) [] ;;
                   raise (DimplexAuthError
                            ("Login response was not valid JSON: "
                             ++ slice_to 100 resp_text)))
         | _ => None
         end) in
  let* st := py_get resp_json "status" PNone in
  if differs_from_200 st then
    let* status := py_get resp_json "status" PNone in
    let* m := py_get resp_json "message" PNone in
    let* message :=
      if truthy m then ret m
      else py_get resp_json "reason" (PStr "Unknown reason") in
    raise (DimplexAuthError
             ("Login failed: " ++ py_str status ++ " - " ++ py_str message))
  else ret tt.

Definition headless_login (email password : pyval) : M unit :=
  (* 1. Get the login page *)
  let start_url := authorize_url in
  log DEBUG ("Fetching login page: " ++ start_url) [] ;;
  let* resp := http (GET start_url true) in
  let html := text resp in
  let final_url := url resp in
  (* 2. Extract SETTINGS and CSRF *)
  match re_search_settings html with
  | None => raise (DimplexAuthError "Could not find SETTINGS in login page")
  | Some group =>
      let* settings :=
        try_except (loads group)
          (fun e =>
             match e with
             | JSONDecodeError =>
                 Some (raise (DimplexAuthError
                                "Failed to parse SETTINGS JSON from login page"))
             | _ => None
             end) in
      let* csrf_token := py_get settings "csrf" PNone in
      let* trans_id := py_get settings "transId" PNone in
      if negb (truthy csrf_token) || negb (truthy trans_id) then
        raise (DimplexAuthError "Missing csrf or transId in login page SETTINGS")
      else
        (* 3. Construct SelfAsserted URL *)
        let base_url :=
          if contains "/oauth2/v2.0/authorize" final_url
          then before_first "/oauth2/v2.0/authorize" final_url
          else DEFAULT_BASE_URL in
        let post_url := base_url ++ "/SelfAsserted" in
        let post_url_with_params :=
          post_url ++ "?" ++ urlencode [("tx", py_str trans_id); ("p", POLICY)] in
        (* 4. Submit Credentials *)
        let form_data :=
          dict_update (collect_inputs (soup_form_inputs html))
            [("request_type", PStr "RESPONSE"); ("email", email);
             ("password", password)] in
        let headers :=
          [("X-CSRF-TOKEN", csrf_token);
           ("X-Requested-With", PStr "XMLHttpRequest");
           ("Content-Type",
             PStr "application/x-www-form-urlencoded; charset=UTF-8");
           ("Origin", PStr "https://gdhvb2c.b2clogin.com");
           ("Referer", PStr final_url)] in
        log DEBUG ("Submitting credentials to " ++ post_url_with_params) [] ;;
        let* resp := http (POST post_url_with_params form_data headers) in
        check_login_response resp ;;
        (* 5. Follow the 'Confirmed' step to get the actual code *)
        log DEBUG "Credentials accepted. Fetching authorize URL again to get code." [] ;;
        try_except (http (GET start_url true) ;; ret tt)
          (fun _ => Some (ret tt)) ;;
        capture_code_and_exchange start_url
  end.

(** *** Persistence *)

Definition save_tokens (file_path : string) : M unit :=
  let* self := get_self in
  let data :=
    PDict [("access_token", _access_token self);
           ("refresh_token", _refresh_token self);
           ("expires_at", PNum (_expires_at self))] in
  write_file file_path (json_dumps data) ;;
  log INFO "Tokens saved to %s" [ArgStr file_path].

(** The result is the decoded document, [PNone] when there is none. *)
Definition load_tokens (file_path : string) : M pyval :=
  let* found := path_exists file_path in
  if negb found then ret PNone
  else
    try_except
      (let* content := read_file file_path in loads content)
      (fun e =>
         Some (log ERROR "Failed to load tokens from %s: %s"
                 [ArgStr file_path; ArgExc e] ;;
               ret PNone)).

End AuthManager.

(** ** A JSON codec to run the model with

    The [json] module restricted to the documents of this model (integers
    for numbers, characters below 256), written after its documentation:
    [dumps] is [json.dumps(v, indent=2)], [loads] is [json.loads]. *)

Module Json.

Definition dq : ascii := ascii_of_nat 34.
Definition backslash : ascii := ascii_of_nat 92.
Definition nl : string := String (ascii_of_nat 10) "".

Definition hex_lower (n : nat) : ascii :=
  if (n <? 10)%nat then ascii_of_nat (48 + n) else ascii_of_nat (87 + n).

Definition escape_char (c : ascii) : string :=
  let n := nat_of_ascii c in
  if (n =? 34)%nat then String backslash (String dq "")
  else if (n =? 92)%nat then String backslash (String backslash "")
  else if (n =? 10)%nat then String backslash "n"
  else if (n =? 13)%nat then String backslash "r"
  else if (n =? 9)%nat then String backslash "t"
  else if (n =? 8)%nat then String backslash "b"
  else if (n =? 12)%nat then String backslash "f"
  else if ((32 <=? n) && (n <=? 126))%nat then String c ""
  else String backslash
         ("u00" ++ String (hex_lower (n / 16)) (String (hex_lower (n mod 16)) "")).

Fixpoint escape (s : string) : string :=
  match s with
  | EmptyString => EmptyString
  | String c rest => escape_char c ++ escape rest
  end.

Definition quote (s : string) : string :=
  String dq (escape s ++ String dq "").

Fixpoint indent (depth : nat) : string :=
  match depth with
  | O => ""
  | S d => "  " ++ indent d
  end.

Fixpoint dumps_at (depth : nat) (v : pyval) : string :=
  match v with
  | PNone => "null"
  | PBool true => "true"
  | PBool false => "false"
  | PNum n => dec n
  | PStr s => quote s
  | PList [] => "[]"
  | PList items =>
      "[" ++ nl
      ++ join ("," ++ nl)
           (map (fun x => indent (S depth) ++ dumps_at (S depth) x) items)
      ++ nl ++ indent depth ++ "]"
  | PDict [] => "{}"
  | PDict fields =>
      "{" ++ nl
      ++ join ("," ++ nl)
           (map (fun kv : string * pyval =>
                   let (k, x) := kv in
                   indent (S depth) ++ quote k ++ ": " ++ dumps_at (S depth) x)
              fields)
      ++ nl ++ indent depth ++ "}"
  end.

Definition dumps (v : pyval) : string := dumps_at 0 v.

(** Reading. *)

Definition is_ws (c : ascii) : bool :=
  let n := nat_of_ascii c in ((n =? 32) || (n =? 9) || (n =? 10) || (n =? 13))%nat.

Fixpoint skip_ws (s : string) : string :=
  match s with
  | EmptyString => EmptyString
  | String c rest => if is_ws c then skip_ws rest else s
  end.

(** The characters of an integer literal: the digits and the sign. *)
Definition is_number_char (c : ascii) : bool :=
  let n := nat_of_ascii c in ((48 <=? n) && (n <=? 57) || (n =? 45))%nat.

(** The longest run of such characters at the head of [s], and the
    rest. *)
Fixpoint span_number (s : string) : string * string :=
  match s with
  | EmptyString => (EmptyString, EmptyString)
  | String c rest =>
      if is_number_char c then
        let (lit, rest') := span_number rest in (String c lit, rest')
      else (EmptyString, s)
  end.

(** An integer literal: the decimal rendering of an integer, without
    leading zeros, or [-0].  (With a fraction or an exponent the number is
    a float, which the documents of this model do not hold: it is not
    read.) *)
Definition read_number (s : string) : option (pyval * string) :=
  let (lit, rest) := span_number s in
  match rest with
  | String "." _ | String "e" _ | String "E" _ => None
  | _ =>
      match NilZero.int_of_string lit with
      | Some d =>
          let n := Z.of_int d in
          if (dec n =? lit)%string || (lit =? "-0")%string
          then Some (PNum n, rest)
          else None
      | None => None
      end
  end.

(** The inside of a string literal, up to and including the closing
    quote. *)
Fixpoint read_string (s : string) : option (string * string) :=
  match s with
  | EmptyString => None
  | String c rest =>
      if Ascii.eqb c dq then Some (EmptyString, rest)
      else if Ascii.eqb c backslash then
        match rest with
        | String "u" (String a (String b (String h (String l rest')))) =>
            match hex_value a, hex_value b, hex_value h, hex_value l with
            | Some 0%nat, Some 0%nat, Some x, Some y =>
                match read_string rest' with
                | Some (t, r) => Some (String (ascii_of_nat (16 * x + y)) t, r)
                | None => None
                end
            | _, _, _, _ => None
            end
        | String e rest' =>
            let plain (x : ascii) :=
              match read_string rest' with
              | Some (t, r) => Some (String x t, r)
              | None => None
              end in
            if Ascii.eqb e dq then plain dq
            else if Ascii.eqb e backslash then plain backslash
            else if Ascii.eqb e "/" then plain "/"%char
            else if Ascii.eqb e "n" then plain (ascii_of_nat 10)
            else if Ascii.eqb e "r" then plain (ascii_of_nat 13)
            else if Ascii.eqb e "t" then plain (ascii_of_nat 9)
            else if Ascii.eqb e "b" then plain (ascii_of_nat 8)
            else if Ascii.eqb e "f" then plain (ascii_of_nat 12)
            else None
        | EmptyString => None
        end
      else if (nat_of_ascii c <? 32)%nat then None
      else
        match read_string rest with
        | Some (t, r) => Some (String c t, r)
        | None => None
        end
  end.

Fixpoint read_value (fuel : nat) (s : string) : option (pyval * string) :=
  match fuel with
  | O => None
  | S fuel' =>
      match skip_ws s with
      | EmptyString => None
      | String c rest as s' =>
          if Ascii.eqb c dq then
            match read_string rest with
            | Some (t, r) => Some (PStr t, r)
            | None => None
            end
          else if Ascii.eqb c "[" then
            match skip_ws rest with
            | String "]" r => Some (PList [], r)
            | _ =>
                match read_items fuel' rest with
                | Some (items, r) => Some (PList items, r)
                | None => None
                end
            end
          else if Ascii.eqb c "{" then
            match skip_ws rest with
            | String "}" r => Some (PDict [], r)
            | _ =>
                match read_members fuel' [] rest with
                | Some (fields, r) => Some (PDict fields, r)
                | None => None
                end
            end
          else if String.prefix "null" s' then Some (PNone, slice_from 4 s')
          else if String.prefix "true" s' then Some (PBool true, slice_from 4 s')
          else if String.prefix "false" s' then Some (PBool false, slice_from 5 s')
          else read_number s'
      end
  end
with read_items (fuel : nat) (s : string) : option (list pyval * string) :=
  match fuel with
  | O => None
  | S fuel' =>
      match read_value fuel' s with
      | Some (v, r) =>
          match skip_ws r with
          | String "," r' =>
              match read_items fuel' r' with
              | Some (vs, r'') => Some (v :: vs, r'')
              | None => None
              end
          | String "]" r' => Some ([v], r')
          | _ => None
          end
      | None => None
      end
  end
with read_members (fuel : nat) (acc : list (string * pyval)) (s : string)
  : option (list (string * pyval) * string) :=
  match fuel with
  | O => None
  | S fuel' =>
      match skip_ws s with
      | String c rest =>
          if Ascii.eqb c dq then
            match read_string rest with
            | Some (k, r) =>
                match skip_ws r with
                | String ":" r' =>
                    match read_value fuel' r' with
                    | Some (v, r'') =>
                        match skip_ws r'' with
                        | String "," r3 => read_members fuel' (dict_set acc k v) r3
                        | String "}" r3 => Some (dict_set acc k v, r3)
                        | _ => None
                        end
                    | None => None
                    end
                | _ => None
                end
            | None => None
            end
          else None
      | EmptyString => None
      end
  end.

Definition loads (s : string) : option pyval :=
  match read_value (S (String.length s)) s with
  | Some (v, rest) =>
      match skip_ws rest with
      | EmptyString => Some v
      | _ => None
      end
  | None => None
  end.

End Json.

(** The document [save_tokens] writes for tokens [a], [r] and expiry [e]. *)
Definition token_blob (a r : pyval) (e : Z) : pyval :=
  PDict [("access_token", a); ("refresh_token", r); ("expires_at", PNum e)].

(** A token as the type [Optional[str]] has it. *)
Definition text_or_none (v : pyval) : bool :=
  match v with
  | PNone | PStr _ => true
  | _ => false
  end.

Fixpoint all_chars (p : ascii -> bool) (s : string) : bool :=
  match s with
  | EmptyString => true
  | String c rest => p c && all_chars p rest
  end.

(** What may follow an integer literal: nothing, or a character that is
    neither part of a literal nor the start of a fraction or exponent. *)
Definition ends_literal (rest : string) : bool :=
  match rest with
  | EmptyString => true
  | String c _ =>
      negb (Json.is_number_char c)
      && negb (Ascii.eqb c "." || Ascii.eqb c "e" || Ascii.eqb c "E")
  end.

(** ** [urlparse] and [parse_qs] to run the model with

    The two functions of [urllib.parse] on the URLs of the examples: text
    whose escapes stay within ASCII and hosts without a pair of brackets
    (recent versions of the library check what such a pair encloses as an
    IP literal; that check is not written here).  [urlsplit] strips
    control characters and spaces off the front, deletes tabs and line
    ends, takes off the scheme, and refuses a network location that holds
    one bracket without the other. *)

Module Urllib.

Definition is_letter (c : ascii) : bool :=
  let n := nat_of_ascii c in
  ((65 <=? n) && (n <=? 90) || (97 <=? n) && (n <=? 122))%nat.

(** The characters of a scheme: letters, digits and [+-.]. *)
Definition scheme_char (c : ascii) : bool :=
  let n := nat_of_ascii c in
  is_letter c || ((48 <=? n) && (n <=? 57))%nat || contains (String c "") "+-.".

(** [url.lstrip(_WHATWG_C0_CONTROL_OR_SPACE)]. *)
Fixpoint lstrip_c0 (url : string) : string :=
  match url with
  | EmptyString => EmptyString
  | String c rest => if (nat_of_ascii c <=? 32)%nat then lstrip_c0 rest else url
  end.

(** What follows the scheme and its colon; the whole of [url] when it
    starts with no scheme. *)
Definition after_scheme (url : string) : string :=
  match url, after_first ":" url with
  | String c _, Some rest =>
      if is_letter c && all_chars scheme_char (before_first ":" url)
      then rest else url
  | _, _ => url
  end.

(** [_splitnetloc]: the network location ends at the first of [/?#]. *)
Fixpoint up_to_delimiter (s : string) : string :=
  match s with
  | EmptyString => EmptyString
  | String c rest =>
      if contains (String c "") "/?#" then EmptyString
      else String c (up_to_delimiter rest)
  end.

(** The network location: what follows [//] after the scheme. *)
Definition netloc (url : string) : string :=
  match after_scheme (remove_unsafe (lstrip_c0 url)) with
  | String "/" (String "/" rest) => up_to_delimiter rest
  | _ => ""
  end.

Definition urlparse_query (url : string) : option string :=
  if xorb (contains "[" (netloc url)) (contains "]" (netloc url)) then None
  else Some (url_query url).

(** [parse_qs] files the pairs of [parse_qsl] under their names, the
    values of a name in the order they come. *)
Fixpoint add_value (query : list (string * list string)) (name value : string)
  : list (string * list string) :=
  match query with
  | [] => [(name, [value])]
  | (k, values) :: rest =>
      if (k =? name)%string then (k, (values ++ [value])%list) :: rest
      else (k, values) :: add_value rest name value
  end.

Definition parse_qs (qs : string) : list (string * list string) :=
  fold_left (fun query nv => add_value query (fst nv) (snd nv)) (parse_qsl qs) [].

End Urllib.

(** A login page without a form, and a [repr] for runs that print no
    container. *)
Definition no_form_inputs : string -> list (option string * string) :=
  fun _ => [].
Definition repr_any : pyval -> string := fun _ => "<object>".

(** ** Requests and example worlds *)

(** The request [refresh_tokens] posts for a given state. *)
Definition refresh_request (t : TokenState) : Request :=
  POST token_url
    [("client_id", PStr CLIENT_ID); ("grant_type", PStr "refresh_token");
     ("refresh_token", _refresh_token t); ("scope", PStr SCOPE);
     ("client_info", PStr "1")] [].

(** The request [exchange_code code] posts. *)
Definition exchange_request (code : string) : Request :=
  POST token_url
    [("client_id", PStr CLIENT_ID); ("grant_type", PStr "authorization_code");
     ("code", PStr code); ("redirect_uri", PStr REDIRECT_URI);
     ("scope", PStr SCOPE)] [].

(** A response of the token endpoint. *)
Definition token_response (st : Z) (body : string) : Response :=
  {| status := st; text := body; location := None; url := token_url |}.

(** A redirect to [loc]. *)
Definition redirect_to (loc : string) : Response :=
  {| status := 302; text := ""; location := Some loc; url := "" |}.

Definition answer (t : Z) (r : Response) : Exchange :=
  {| arrives_at := t; reply := Answer r |}.

(** The hops of a redirect chain, as the loop of [headless_login] sorts
    them.  A plain hop is a redirect to a location without the marks of the
    authorization code: the loop goes on from there. *)
Definition plain_hop (r : Response) : bool :=
  is_redirect (status r)
  && match location r with
     | Some loc => negb (loc =? "")%string && negb (carries_code loc)
     | None => false
     end.

(** A dead end stops the loop without a code: no redirect, a redirect
    without a location, or one whose location has the marks of the code
    while [parse_qs] finds no value, or an empty one, under [code] in its
    query. *)
Definition dead_end (urlparse_query : string -> option string)
           (parse_qs : string -> list (string * list string)) (r : Response)
  : bool :=
  negb (is_redirect (status r))
  || match location r with
     | Some loc =>
         (loc =? "")%string
         || (carries_code loc
             && match query_code urlparse_query parse_qs loc with
                | Ok code => (code =? "")%string
                | Raise _ => false
                end)
     | None => true
     end.

Definition target (r : Response) : string :=
  match location r with Some loc => loc | None => "" end.

(** The script that answers with the responses of [chain], each at its
    time. *)
Definition script_of (chain : list (Z * Response)) : list Exchange :=
  map (fun x => answer (fst x) (snd x)) chain.

(** Where the loop stands after the hops of [chain], started at [u]. *)
Fixpoint last_url (u : string) (chain : list (Z * Response)) : string :=
  match chain with
  | [] => u
  | hop :: chain' => last_url (target (snd hop)) chain'
  end.

(** The requests of the loop started at [u] on the hops of [chain] and the
    response after them: a GET of [u], then of the target of each hop. *)
Fixpoint hops_from (u : string) (chain : list (Z * Response)) : list Request :=
  match chain with
  | [] => [GET u false]
  | hop :: chain' => GET u false :: hops_from (target (snd hop)) chain'
  end.

(** The script has no answer for the next request: it has run out, or the
    transport fails there. *)
Definition no_answer (script : list Exchange) : bool :=
  match script with
  | {| reply := Answer _ |} :: _ => false
  | _ => true
  end.

Definition NO_CODE : string :=
  "Failed to obtain auth code after successful login. Redirect URI might have changed.".

(** A login page from which step 2 gets its [csrf] and [transId]. *)
Definition good_page (json_loads : string -> option pyval) (page : Response)
  : Prop :=
  exists group settings,
    re_search_settings (text page) = Some group
    /\ json_loads group = Some (PDict settings)
    /\ truthy (dict_get settings "csrf" PNone) = true
    /\ truthy (dict_get settings "transId" PNone) = true.




(** [m] never writes the object's fields. *)
Definition keeps_tokens {A} (m : M A) : Prop :=
  forall w out w', m w = (out, w') -> tokens w' = tokens w.

(** [m] has not written the object's fields when it raises
    [DimplexAuthError]. *)
Definition keeps_tokens_on_auth_error {A} (m : M A) : Prop :=
  forall w msg w', m w = (Raise (DimplexAuthError msg), w') ->
                   tokens w' = tokens w.


(** A fresh world at time 1000, with the given object state and script. *)
Definition world_of (t : TokenState) (script : list Exchange) : World :=
  {| tokens := t; now := 1000; pending := script; sent := []; logged := [];
     files := ∅ |}.

(** The body [{access_token: "A", refresh_token: "B", expires_in: 3600}]. *)
Definition body_A_B_3600 : string :=
  Json.dumps (PDict [("access_token", PStr "A"); ("refresh_token", PStr "B");
                     ("expires_in", PNum 3600)]).

(** A state with both tokens, the access token valid until 5000. *)
Definition state_old : TokenState :=
  {| _access_token := PStr "old_access"; _refresh_token := PStr "old_refresh";
     _expires_at := 5000 |}.

(** The same with the access token long expired. *)
Definition state_expired : TokenState :=
  {| _access_token := PStr "old_token"; _refresh_token := PStr "old_refresh";
     _expires_at := 1 |}.

(** A valid access token and no refresh token. *)
Definition state_no_refresh : TokenState :=
  {| _access_token := PStr "cached_token"; _refresh_token := PNone;
     _expires_at := 9999999999 |}.

(** Worlds in which the token endpoint gives one answer, at time 2000. *)
Definition world_200 : World :=
  world_of state_old [answer 2000 (token_response 200 body_A_B_3600)].
Definition world_201 : World :=
  world_of state_old [answer 2000 (token_response 201 body_A_B_3600)].
Definition world_expired : World :=
  world_of state_expired [answer 2000 (token_response 200 body_A_B_3600)].
Definition world_no_refresh : World :=
  world_of state_no_refresh [answer 2000 (token_response 200 body_A_B_3600)].

Definition body_invalid_grant : string :=
  Json.dumps (PDict [("error", PStr "invalid_grant")]).
Definition world_400 : World :=
  world_of state_old [answer 2000 (token_response 400 body_invalid_grant)].


(** A file system with a token file that is not JSON and a directory. *)
Definition world_files : World :=
  set_files (<["broken.json" := RegularFile "access_token=abc"]>
               (<["tokens.d" := Directory]> ∅))
    (world_of state_old []).

(** A login page with its SETTINGS blob, the answer that accepts the
    credentials, and a page without the blob. *)
Definition login_page : Response :=
  {| status := 200;
     text := "<script>var SETTINGS = "
             ++ Json.dumps (PDict [("csrf", PStr "tok");
                                   ("transId", PStr "StateProperties=abc")])
             ++ ";</script><form id='localAccountForm'></form>";
     location := None;
     url := authorize_url |}.
Definition login_accepted : Response :=
  {| status := 200; text := Json.dumps (PDict [("status", PStr "200")]);
     location := None; url := "" |}.

(** Redirect chains: two plain hops and the redirect to the application
    with the code; a plain hop and a page; ten plain hops. *)
Definition chain_with_code : list Exchange :=
  [answer 1004 (redirect_to "https://login.example/step1");
   answer 1005 (redirect_to "https://login.example/step2");
   answer 1006 (redirect_to (REDIRECT_URI ++ "?code=XYZ123"));
   answer 1007 (token_response 200 body_A_B_3600)].
Definition one_plain_hop : list (Z * Response) :=
  [(1004, redirect_to "https://login.example/step1")].
Definition two_plain_hops : list (Z * Response) :=
  [(1004, redirect_to "https://login.example/step1");
   (1005, redirect_to "https://login.example/step2")].
Definition ten_plain_hops : list (Z * Response) :=
  repeat (1004, redirect_to "https://login.example/again") 10.

Definition world_chain_with_code : World := world_of state_old chain_with_code.
Definition redirect_nowhere : Response :=
  {| status := 302; text := ""; location := None; url := "" |}.
Definition world_chain_no_location : World :=
  world_of state_old
    (script_of one_plain_hop ++ [answer 1005 redirect_nowhere])%list.
Definition world_chain_too_long : World :=
  world_of state_old
    (script_of ten_plain_hops ++ chain_with_code)%list.

(** Further chains: one whose second Location holds [code=] in the name
    of another parameter, ahead of the redirect with the code; one that
    leads to a host that [urlparse] refuses; one that leads to a relative
    Location, which the session fails to fetch. *)
Definition chain_early_mark : list Exchange :=
  [answer 1004 (redirect_to "https://login.example/step1");
   answer 1005 (redirect_to "https://login.example/step2?postcode=AB1");
   answer 1006 (redirect_to (REDIRECT_URI ++ "?code=XYZ123"));
   answer 1007 (token_response 200 body_A_B_3600)].
Definition world_chain_bad_host : World :=
  world_of state_old
    (script_of one_plain_hop
     ++ [answer 1005 (redirect_to "http://[bad?code=XYZ123");
         answer 1006 (token_response 200 body_A_B_3600)])%list.
Definition world_chain_relative : World :=
  world_of state_old
    [answer 1004 (redirect_to "/next"); {| arrives_at := 1005; reply := Fails |}].

(** Whole runs of [headless_login]: to the end, to an error page, and into
    a chain that leads to a page. *)
Definition world_login : World :=
  world_of state_old
    (answer 1001 login_page :: answer 1002 login_accepted
     :: answer 1003 (redirect_to "https://login.example/step1")
     :: chain_with_code).

(** ** Notions used to state what the methods do and do not do *)

(** The next request meets no answer: the script has run out, or its next
    exchange is a failure of the transport. *)
Definition transport_fails (w : World) : bool :=
  match pending w with
  | {| reply := Answer _ |} :: _ => false
  | _ => true
  end.

(** [m] keeps the requests already sent and adds at most [n]. *)
Definition sends_at_most {A} (n : nat) (m : M A) : Prop :=
  forall w out w',
    m w = (out, w') ->
    exists new, sent w' = (sent w ++ new)%list /\ (length new <= n)%nat.

(** Worlds that differ at most in the requests that have been sent. *)
Definition same_but_sent (w1 w2 : World) : Prop :=
  tokens w1 = tokens w2 /\ now w1 = now w2 /\ pending w1 = pending w2
  /\ logged w1 = logged w2 /\ files w1 = files w2.

(** [m1] and [m2] have the same outcome and the same effects, the requests
    they send apart. *)
Definition alike {A} (m1 m2 : M A) : Prop :=
  forall w1 w2,
    same_but_sent w1 w2 ->
    fst (m1 w1) = fst (m2 w2) /\ same_but_sent (snd (m1 w1)) (snd (m2 w2)).

(** The characters [quote_plus] writes: the unreserved ones, [+] for a
    space and [%] before two hexadecimal digits. *)
Definition query_safe (c : ascii) : bool :=
  unreserved c || Ascii.eqb c "+" || Ascii.eqb c "%".

(** The characters [urlsplit] leaves in a query. *)
Definition query_char (c : ascii) : bool :=
  negb (unsafe_url_char c || Ascii.eqb c "#").

(** The values that a list of pairs holds under [name], in order, and the
    first of them, the empty string when there is none. *)
Fixpoint values_of (name : string) (pairs : list (string * string))
  : list string :=
  match pairs with
  | [] => []
  | (k, v) :: rest =>
      if (k =? name)%string then v :: values_of name rest
      else values_of name rest
  end.

Definition first_value (name : string) (pairs : list (string * string))
  : string := hd "" (values_of name pairs).

(** The characters of ASCII. *)
Definition below_128 (c : ascii) : bool := (nat_of_ascii c <? 128)%nat.

(** The scheme of [REDIRECT_URI]. *)
Definition SCHEME : string := "msal6c983ca3-506e-4933-8993-0e18e6a24bbd".

(** One field of a query string, as [urlencode] writes it. *)
Definition field (kv : string * string) : string :=
  quote_plus (fst kv) ++ "=" ++ quote_plus (snd kv).

(** The state of an object made without token data. *)
Definition state_blank : TokenState :=
  {| _access_token := PNone; _refresh_token := PNone; _expires_at := 0 |}.

(** Further worlds: the token endpoint out of reach; answers with status
    200 that are a JSON list, that give the token 30 seconds to live, and
    that hold no refresh token. *)
Definition world_unreachable : World := world_of state_expired [].

Definition body_list : string := Json.dumps (PList [PNum 1]).
Definition world_200_list : World :=
  world_of state_old [answer 2000 (token_response 200 body_list)].



(** Answers that refuse the credentials: with a status and a message, and
    with the number 200 where the string is expected. *)
Definition login_refused : Response :=
  {| status := 200;
     text := Json.dumps (PDict [("status", PStr "400");
                                ("message", PStr "Bad password")]);
     location := None; url := "" |}.
Definition login_status_number : Response :=
  {| status := 200; text := Json.dumps (PDict [("status", PNum 200)]);
     location := None; url := "" |}.
Definition world_login_refused : World :=
  world_of state_old [answer 1001 login_page; answer 1002 login_refused].
Definition world_login_status_number : World :=
  world_of state_old [answer 1001 login_page; answer 1002 login_status_number].

(** The request that posts the credentials, for a login page, the [csrf]
    and [transId] of its SETTINGS, and what BeautifulSoup finds in it. *)
Definition credentials_request (py_repr : pyval -> string)
           (soup_form_inputs : string -> list (option string * string))
           (page : Response) (csrf_token trans_id email password : pyval)
  : Request :=
  POST
    (((if contains "/oauth2/v2.0/authorize" (url page)
       then before_first "/oauth2/v2.0/authorize" (url page)
       else DEFAULT_BASE_URL) ++ "/SelfAsserted")
     ++ "?" ++ urlencode [("tx", py_str py_repr trans_id); ("p", POLICY)])
    (dict_update (collect_inputs (soup_form_inputs (text page)))
       [("request_type", PStr "RESPONSE"); ("email", email);
        ("password", password)])
    [("X-CSRF-TOKEN", csrf_token);
     ("X-Requested-With", PStr "XMLHttpRequest");
     ("Content-Type", PStr "application/x-www-form-urlencoded; charset=UTF-8");
     ("Origin", PStr "https://gdhvb2c.b2clogin.com");
     ("Referer", PStr (url page))].

(** A login page whose form has hidden inputs named like the credentials. *)
Definition inputs_named_like_credentials
  : string -> list (option string * string) :=
  fun _ => [(Some "email", "someone@else.example"); (Some "password", "x");
            (Some "flow", "signin"); (None, "unnamed")].

(** ** [AuthManager.__init__] *)

(** The attributes [_access_token], [_refresh_token] and [_expires_at] of a
    new object.  [__init__] stores what [token_data] holds, unchecked, so
    all three are objects of any kind. *)
Record Attributes : Type := {
  attr_access_token : pyval;
  attr_refresh_token : pyval;
  attr_expires_at : pyval;
}.

(** [token_data.get(k, default) if token_data else otherwise]. *)
Definition get_if_any (token_data : pyval) (k : string) (default otherwise : pyval)
  : outcome pyval :=
  if truthy token_data then
    match token_data with
    | PDict d => Ok (dict_get d k default)
    | _ => Raise AttributeError
    end
  else Ok otherwise.

(** [AuthManager(session, token_data)]. *)
Definition AuthManager__init__ (token_data : pyval) : outcome Attributes :=
  match get_if_any token_data "access_token" PNone PNone with
  | Raise e => Raise e
  | Ok a =>
      match get_if_any token_data "refresh_token" PNone PNone with
      | Raise e => Raise e
      | Ok r =>
          match get_if_any token_data "expires_at" (PNum 0) (PNum 0) with
          | Raise e => Raise e
          | Ok x =>
              Ok {| attr_access_token := a; attr_refresh_token := r;
                    attr_expires_at := x |}
          end
      end
  end.

(** The object as the methods above see it.  They are modelled for an
    expiry that is an integer. *)
Definition as_state (a : Attributes) : option TokenState :=
  match attr_expires_at a with
  | PNum n =>
      Some {| _access_token := attr_access_token a;
              _refresh_token := attr_refresh_token a;
              _expires_at := n |}
  | _ => None
  end.

(** The world with the clock at [t]. *)
Definition set_now (t : Z) (w : World) : World :=
  {| tokens := tokens w; now := t; pending := pending w; sent := sent w;
     logged := logged w; files := files w |}.

(** ** Data models ([models.py]) *)

(** A pydantic model class [T]: [model_validate kwargs] is the object that
    [T] builds from the keyword arguments [kwargs], [None] when pydantic
    raises [ValidationError]. *)
Class BaseModel (T : Type) : Type :=
  model_validate : list (string * pyval) -> option T.

(** The two models whose fields the client reads and writes.  A validated
    [Temperature] is carried as the number it is. *)
Record TimerPeriod : Type := {
  DayOfWeek : Z;
  StartTime : string;
  EndTime : string;
  Temperature : pyval;
}.

Record TimerModeSettings : Type := {
  HubId : string;
  ApplianceId : string;
  TimerMode : Z;
  TimerPeriods : list TimerPeriod;
}.

(** [period.dict()] and [settings.dict()]. *)
Definition TimerPeriod_dict (p : TimerPeriod) : pyval :=
  PDict [("DayOfWeek", PNum (DayOfWeek p)); ("StartTime", PStr (StartTime p));
         ("EndTime", PStr (EndTime p)); ("Temperature", Temperature p)].

Definition TimerModeSettings_dict (s : TimerModeSettings) : pyval :=
  PDict [("HubId", PStr (HubId s)); ("ApplianceId", PStr (ApplianceId s));
         ("TimerMode", PNum (TimerMode s));
         ("TimerPeriods", PList (map TimerPeriod_dict (TimerPeriods s)))].

(** [current.TimerMode = mode]. *)
Definition set_TimerMode (mode : Z) (s : TimerModeSettings) : TimerModeSettings :=
  {| HubId := HubId s; ApplianceId := ApplianceId s; TimerMode := mode;
     TimerPeriods := TimerPeriods s |}.

(** *** [datetime.strptime(s, "%H:%M:%S").time()] *)

(** A [datetime.time]. *)
Record time : Type := {
  hour : nat;
  minute : nat;
  second : nat;
}.

Definition digit_of (c : ascii) : option nat :=
  let n := nat_of_ascii c in
  if ((48 <=? n) && (n <=? 57))%nat then Some (n - 48)%nat else None.

(** The ways one alternative of a directive's pattern matches at the head
    of [s]: the number read and the text left.  [two_digits ok] is a pair of
    digits that [ok] accepts, [one_digit] is [\d]. *)
Definition two_digits (ok : nat -> nat -> bool) (s : string)
  : list (nat * string) :=
  match s with
  | String a (String b rest) =>
      match digit_of a, digit_of b with
      | Some x, Some y => if ok x y then [((10 * x + y)%nat, rest)] else []
      | _, _ => []
      end
  | _ => []
  end.

Definition one_digit (s : string) : list (nat * string) :=
  match s with
  | String a rest =>
      match digit_of a with
      | Some x => [(x, rest)]
      | None => []
      end
  | EmptyString => []
  end.

(** The patterns of the directives, alternatives in the order they are
    tried: [%H] is [2[0-3]|[0-1]\d|\d], [%M] is [[0-5]\d|\d] and [%S] is
    [6[0-1]|[0-5]\d|\d]. *)
Definition directive_H (s : string) : list (nat * string) :=
  (two_digits (fun x y => (x =? 2) && (y <=? 3))%nat s
   ++ two_digits (fun x _ => x <=? 1)%nat s
   ++ one_digit s)%list.

Definition directive_M (s : string) : list (nat * string) :=
  (two_digits (fun x _ => x <=? 5)%nat s ++ one_digit s)%list.

Definition directive_S (s : string) : list (nat * string) :=
  (two_digits (fun x y => (x =? 6) && (y <=? 1))%nat s
   ++ two_digits (fun x _ => x <=? 5)%nat s
   ++ one_digit s)%list.

Definition colon (s : string) : list string :=
  match s with
  | String ":" rest => [rest]
  | _ => []
  end.

(** Every way the format matches at the head of [s], the one the regular
    expression engine finds first at the head of the list. *)
Definition matches_HMS (s : string) : list (nat * nat * nat * string) :=
  flat_map
    (fun hr =>
       flat_map
         (fun r1 =>
            flat_map
              (fun mr =>
                 flat_map
                   (fun r2 =>
                      map (fun sr => (fst hr, fst mr, fst sr, snd sr))
                        (directive_S r2))
                   (colon (snd mr)))
              (directive_M r1))
         (colon (snd hr)))
    (directive_H s).

(** [None] stands for [ValueError]: the text does not match the format,
    text is left after the match, or the second is a leap second, which
    [datetime] refuses. *)
Definition strptime_HMS (s : string) : option time :=
  match matches_HMS s with
  | [] => None
  | (h, m, sec, rest) :: _ =>
      if (rest =? "")%string && (sec <=? 59)%nat
      then Some {| hour := h; minute := m; second := sec |}
      else None
  end.

(** The properties [start_time_obj] and [end_time_obj] of a period. *)
Definition start_time_obj (p : TimerPeriod) : option time :=
  strptime_HMS (StartTime p).

Definition end_time_obj (p : TimerPeriod) : option time :=
  strptime_HMS (EndTime p).

(** Two digits, zero padded: [%H], [%M] and [%S] of [strftime]. *)
Definition two (n : nat) : string :=
  String (ascii_of_nat (48 + n / 10)) (String (ascii_of_nat (48 + n mod 10)) "").

(** ** [DimplexControl] ([client.py]) *)

Definition BASE_URL : string := "https://mobileapi.gdhv-iot.com/api".
Definition HEADER_USER_AGENT : string :=
  "Dimplex Control/79810 CFNetwork/3860.300.31 Darwin/25.2.0".
Definition HEADER_APP_NAME : string := "DimplexControl".
Definition HEADER_APP_VERSION : string := "2.21.0".
Definition HEADER_DEVICE_OS : string := "iOS".
Definition HEADER_DEVICE_VERSION : string := "26.2.1".
Definition HEADER_DEVICE_MANUFACTURER : string := "Apple".
Definition HEADER_DEVICE_MODEL : string := "iPhone18,1".

(** What [bytes.strip()] removes: the ASCII white space. *)
Definition is_bytes_space (c : ascii) : bool :=
  let n := nat_of_ascii c in (((9 <=? n) && (n <=? 13)) || (n =? 32))%nat.

Fixpoint lstrip (s : string) : string :=
  match s with
  | EmptyString => EmptyString
  | String c rest => if is_bytes_space c then lstrip rest else s
  end.

Fixpoint rstrip (s : string) : string :=
  match s with
  | EmptyString => EmptyString
  | String c rest =>
      match rstrip rest with
      | EmptyString => if is_bytes_space c then EmptyString else String c EmptyString
      | kept => String c kept
      end
  end.

Definition strip (s : string) : string := rstrip (lstrip s).

Module DimplexControl.

(** [DimplexControl(session, refresh_token, access_token, expires_at)]: the
    attributes of the [AuthManager] it builds as [self.auth]. *)
Definition __init__ (refresh_token access_token expires_at : pyval)
  : outcome Attributes :=
  let token_data := [] in
  let token_data :=
    if truthy refresh_token
    then dict_set token_data "refresh_token" refresh_token else token_data in
  let token_data :=
    if truthy access_token
    then dict_set token_data "access_token" access_token else token_data in
  let token_data :=
    if truthy expires_at
    then dict_set token_data "expires_at" expires_at else token_data in
  AuthManager__init__ (PDict token_data).

(** What a method of the client raises: an exception of the layers below
    ([DimplexAuthError] and the others of [exn]), or one of its own. *)
Inductive error : Type :=
| Below (e : exn)
| ContentTypeError                              (* aiohttp's, a ClientError *)
| DimplexApiError (status : Z) (message : string)
| DimplexConnectionError (msg : string)
| ValidationError.                              (* pydantic's *)

Inductive result (A : Type) : Type :=
| Returns (a : A)
| Raises (e : error).
Arguments Returns {A} a.
Arguments Raises {A} e.

(** What [self._session.request] is called with. *)
Record Request : Type := {
  method : string;
  url : string;
  headers : list (string * pyval);
  params : option (list (string * pyval));
  json : option pyval;
}.

(** What the client reads of a response: [resp.status], [await
    resp.text()], [resp.content_length] and, in [resp.json()], whether the
    Content-Type header declares JSON. *)
Record Response : Type := {
  status : Z;
  text : string;
  content_length : option Z;
  declares_json : bool;
}.

Inductive Reply : Type :=
| Answer (r : Response)
| Fails.

(** The API, scripted as the token endpoint is. *)
Record Exchange : Type := {
  arrives_at : Z;
  reply : Reply;
}.

(** The logger of [client.py]. *)
Inductive Level : Type := ERROR | WARNING.

Inductive LogArg : Type :=
| ArgNum (n : Z)
| ArgStr (s : string)
| ArgExc (e : error).

Record LogRecord : Type := {
  level : Level;
  message : string;
  args : list LogArg;
}.

(** The client and what surrounds it: [self.auth] in its world, the API
    at the far end of the session, the requests made to it and the records
    logged. *)
Record Env : Type := {
  auth : World;
  api_pending : list Exchange;
  api_sent : list Request;
  api_logged : list LogRecord;
}.

Definition set_auth (w : World) (c : Env) : Env :=
  {| auth := w; api_pending := api_pending c; api_sent := api_sent c;
     api_logged := api_logged c |}.

Definition add_log (r : LogRecord) (c : Env) : Env :=
  {| auth := auth c; api_pending := api_pending c; api_sent := api_sent c;
     api_logged := (api_logged c ++ [r])%list |}.

(** The request goes out; the next scripted exchange, if any, comes in. *)
Definition exchange (q : Request) (c : Env) : Env :=
  {| auth := match api_pending c with
             | [] => auth c
             | x :: _ => set_now (arrives_at x) (auth c)
             end;
     api_pending := tl (api_pending c);
     api_sent := (api_sent c ++ [q])%list;
     api_logged := api_logged c |}.

(** *** Computations *)

Definition C (A : Type) : Type := Env -> result A * Env.

Definition ret {A} (a : A) : C A := fun c => (Returns a, c).

Definition raise {A} (e : error) : C A := fun c => (Raises e, c).

Definition bind {A B} (m : C A) (k : A -> C B) : C B :=
  fun c => match m c with
           | (Returns a, c') => k a c'
           | (Raises e, c') => (Raises e, c')
           end.

Definition try_except {A} (m : C A) (handler : error -> option (C A)) : C A :=
  fun c => match m c with
           | (Returns a, c') => (Returns a, c')
           | (Raises e, c') =>
               match handler e with
               | Some h => h c'
               | None => (Raises e, c')
               end
           end.

Declare Scope client_scope.
Delimit Scope client_scope with client.
Notation "'let*' x ':=' m 'in' k" := (bind m (fun x => k))
  (at level 10, x name, m at level 100, k at level 200) : client_scope.
Notation "m ';;' k" := (bind m (fun _ => k))
  (at level 100, k at level 200, right associativity) : client_scope.
Open Scope client_scope.

(** A method of [self.auth], awaited. *)
Definition lift {A} (m : M A) : C A :=
  fun c => match m (auth c) with
           | (Ok a, w) => (Returns a, set_auth w c)
           | (Raise e, w) => (Raises (Below e), set_auth w c)
           end.

(** [self._session.request(..)], awaited.  With no exchange left in the
    script the transport fails. *)
Definition request (q : Request) : C Response :=
  fun c => match api_pending c with
           | {| reply := Answer r |} :: _ => (Returns r, exchange q c)
           | _ => (Raises (Below ClientError), exchange q c)
           end.

Definition log (l : Level) (msg : string) (a : list LogArg) : C unit :=
  fun c => (Returns tt, add_log {| level := l; message := msg; args := a |} c).

(** The keyword arguments the methods pass to [_request]. *)
Record Kwargs : Type := {
  kw_headers : option (list (string * pyval));
  kw_params : option (list (string * pyval));
  kw_json : option pyval;
}.

Definition no_kwargs : Kwargs :=
  {| kw_headers := None; kw_params := None; kw_json := None |}.

Definition with_params (p : list (string * pyval)) : Kwargs :=
  {| kw_headers := None; kw_params := Some p; kw_json := None |}.

Definition with_json (payload : pyval) : Kwargs :=
  {| kw_headers := None; kw_params := None; kw_json := Some payload |}.

(** [for x in v]: the items of a list, the keys of a dict, the characters
    of a string; anything else is not iterable. *)
Definition iterate (v : pyval) : C (list pyval) :=
  match v with
  | PList l => ret l
  | PDict d => ret (map (fun kv => PStr (fst kv)) d)
  | PStr s => ret (map (fun ch => PStr (String ch "")) (list_ascii_of_string s))
  | _ => raise (Below TypeError)
  end.

(** [T] called on an unpacked [kwargs], which must be a mapping. *)
Definition construct {T} `{BaseModel T} (kwargs : pyval) : C T :=
  match kwargs with
  | PDict d =>
      match model_validate d with
      | Some x => ret x
      | None => raise ValidationError
      end
  | _ => raise (Below TypeError)
  end.

(** [[f(x) for x in items]]. *)
Fixpoint for_each {A B} (f : A -> C B) (items : list A) : C (list B) :=
  match items with
  | [] => ret []
  | x :: rest =>
      let* y := f x in
      let* ys := for_each f rest in
      ret (y :: ys)
  end.

Section Client.

(** [json.loads], [repr] and [str] of an exception, as libraries. *)
Variable json_loads : string -> option pyval.
Variable py_repr : pyval -> string.
Variable str_exc : error -> string.

(** The model classes whose objects the client only hands on. *)
Context {Hub Zone UserContext ApplianceStatus ApplianceModeSettings : Type}.
Context `{BaseModel Hub} `{BaseModel Zone} `{BaseModel UserContext}
        `{BaseModel ApplianceStatus} `{BaseModel TimerModeSettings}.

(** [mode_settings.dict()]. *)
Variable ApplianceModeSettings_dict : ApplianceModeSettings -> pyval.

(** The property [is_authenticated]. *)
Definition is_authenticated : C bool := lift is_authenticated.

(** The headers [_request] sets, over whatever the caller passed. *)
Definition own_headers (token : pyval) : list (string * pyval) :=
  [("Authorization", PStr ("Bearer " ++ py_str py_repr token));
   ("app_name", PStr HEADER_APP_NAME);
   ("app_version", PStr HEADER_APP_VERSION);
   ("app_device_os", PStr HEADER_DEVICE_OS);
   ("device_version", PStr HEADER_DEVICE_VERSION);
   ("device_manufacturer", PStr HEADER_DEVICE_MANUFACTURER);
   ("device_model", PStr HEADER_DEVICE_MODEL);
   ("User-Agent", PStr HEADER_USER_AGENT);
   ("api_version", PStr "1.0");
   ("Accept", PStr "*/*");
   ("Accept-Encoding", PStr "gzip, deflate, br");
   ("Content-Type", PStr "application/json")].

(** [await resp.json()] as aiohttp has it: a Content-Type that does not
    declare JSON raises [ContentTypeError]; a body of white space alone
    gives [None]; the rest is for [json.loads]. *)
Definition resp_json (resp : Response) : C pyval :=
  if negb (declares_json resp) then raise ContentTypeError
  else
    let stripped := strip (text resp) in
    if (stripped =? "")%string then ret PNone
    else match json_loads stripped with
         | Some v => ret v
         | None => raise (Below JSONDecodeError)
         end.

(** [resp.content_length == 0]. *)
Definition is_zero (n : option Z) : bool :=
  match n with
  | Some k => (k =? 0)%Z
  | None => false
  end.

Definition _request (method endpoint : string) (kwargs : Kwargs) : C pyval :=
  let* token := lift (get_access_token json_loads) in
  let headers :=
    match kw_headers kwargs with
    | Some h => h
    | None => []
    end in
  let headers := dict_update headers (own_headers token) in
  let url := BASE_URL ++ endpoint in
  try_except
    (let* resp :=
       request {| method := method; url := url; headers := headers;
                  params := kw_params kwargs; json := kw_json kwargs |} in
     if negb (status resp =? HTTP_OK) then
       let body := text resp in
       log ERROR "API request failed: %s - %s" [ArgNum (status resp); ArgStr body] ;;
       raise (DimplexApiError (status resp) body)
     else if is_zero (content_length resp) then ret (PDict [])
     else resp_json resp)
    (fun e =>
       match e with
       | Below ClientError | ContentTypeError =>
           Some (log ERROR "Connection error during API request: %s" [ArgExc e] ;;
                 raise (DimplexConnectionError ("Connection error: " ++ str_exc e)))
       | _ => None
       end).

Definition get_hubs : C (list Hub) :=
  let* data := _request "GET" "/Hubs/GetUserHubs" no_kwargs in
  let* items := iterate data in
  for_each construct items.

Definition get_hub_zones (hub_id : string) : C (list Zone) :=
  let* data :=
    _request "GET" "/Zones/GetZonesAndAppliancesForHubId"
      (with_params [("HubId", PStr hub_id)]) in
  let* items := iterate data in
  for_each construct items.

Definition get_zone (hub_id zone_id : string) : C Zone :=
  let payload := PDict [("HubId", PStr hub_id); ("ZoneId", PStr zone_id)] in
  let* data := _request "POST" "/Zones/GetZone" (with_json payload) in
  construct data.

Definition get_appliance_overview (hub_id : string) (appliance_ids : list string)
  : C (list ApplianceStatus) :=
  let payload :=
    PDict [("HubId", PStr hub_id);
           ("ApplianceIds", PList (map PStr appliance_ids))] in
  let* data :=
    _request "POST" "/RemoteControl/GetApplianceOverview" (with_json payload) in
  let* items := iterate data in
  for_each construct items.

Definition get_user_context : C UserContext :=
  let* data := _request "GET" "/Identity/GetUserContext" no_kwargs in
  construct data.

Definition get_appliance_features (hub_id appliance_id : string)
  : C TimerModeSettings :=
  let payload :=
    PDict [("HubId", PStr hub_id); ("ApplianceId", PStr appliance_id);
           ("TimerMode", PNum 0)] in
  let* data :=
    _request "POST" "/RemoteControl/GetTimerModeDetailsForAppliance"
      (with_json payload) in
  construct data.

Definition set_mode (hub_id appliance_id : string) (mode : Z) : C unit :=
  let* current := get_appliance_features hub_id appliance_id in
  let current := set_TimerMode mode current in
  let payload := PDict [("TimerModeSettings", TimerModeSettings_dict current)] in
  _request "POST" "/RemoteControl/SetTimerMode" (with_json payload) ;;
  ret tt.

Definition set_target_temperature (hub_id appliance_id : string) (temp : pyval)
  : C unit :=
  log WARNING
    "set_target_temperature not fully implemented - requires complex schedule manipulation"
    [].

Definition set_appliance_mode (hub_id : string) (appliance_ids : list string)
           (mode_settings : ApplianceModeSettings) : C unit :=
  let payload :=
    PDict [("Settings", ApplianceModeSettings_dict mode_settings);
           ("HubId", PStr hub_id);
           ("ApplianceIds", PList (map PStr appliance_ids))] in
  _request "POST" "/RemoteControl/SetApplianceMode" (with_json payload) ;;
  ret tt.

Definition set_eco_start (hub_id : string) (appliance_ids : list string)
           (enable : bool) : C unit :=
  let payload :=
    PDict [("Enable", PBool enable); ("HubId", PStr hub_id);
           ("ApplianceIds", PList (map PStr appliance_ids))] in
  _request "POST" "/RemoteControl/SetEcoStart" (with_json payload) ;;
  ret tt.

Definition set_open_window_detection (hub_id : string)
           (appliance_ids : list string) (enable : bool) : C unit :=
  let payload :=
    PDict [("Enable", PBool enable); ("HubId", PStr hub_id);
           ("ApplianceIds", PList (map PStr appliance_ids))] in
  _request "POST" "/RemoteControl/SetOpenWindowDetection" (with_json payload) ;;
  ret tt.

End Client.

End DimplexControl.

(** *** Requests, answers and example clients *)

(** The request [_request] makes once it has the token. *)
Definition api_request (py_repr : pyval -> string) (token : pyval)
           (method endpoint : string) (kwargs : DimplexControl.Kwargs)
  : DimplexControl.Request :=
  {| DimplexControl.method := method;
     DimplexControl.url := BASE_URL ++ endpoint;
     DimplexControl.headers :=
       dict_update
         (match DimplexControl.kw_headers kwargs with
          | Some h => h
          | None => []
          end)
         (DimplexControl.own_headers py_repr token);
     DimplexControl.params := DimplexControl.kw_params kwargs;
     DimplexControl.json := DimplexControl.kw_json kwargs |}.

(** An answer of the API. *)
Definition api_answer (t : Z) (r : DimplexControl.Response)
  : DimplexControl.Exchange :=
  {| DimplexControl.arrives_at := t;
     DimplexControl.reply := DimplexControl.Answer r |}.

(** The next request to the API meets no answer. *)
Definition api_fails (c : DimplexControl.Env) : bool :=
  match DimplexControl.api_pending c with
  | {| DimplexControl.reply := DimplexControl.Answer _ |} :: _ => false
  | _ => true
  end.

(** The records [_request] logs. *)
Definition api_error_record (r : DimplexControl.Response)
  : DimplexControl.LogRecord :=
  {| DimplexControl.level := DimplexControl.ERROR;
     DimplexControl.message := "API request failed: %s - %s";
     DimplexControl.args :=
       [DimplexControl.ArgNum (DimplexControl.status r);
        DimplexControl.ArgStr (DimplexControl.text r)] |}.

Definition connection_error_record (e : DimplexControl.error)
  : DimplexControl.LogRecord :=
  {| DimplexControl.level := DimplexControl.ERROR;
     DimplexControl.message := "Connection error during API request: %s";
     DimplexControl.args := [DimplexControl.ArgExc e] |}.

(** The world of [self.auth] once the API has been asked: the clock shows
    when the answer came in. *)
Definition after_api (c : DimplexControl.Env) (w : World) : World :=
  match DimplexControl.api_pending c with
  | [] => w
  | x :: _ => set_now (DimplexControl.arrives_at x) w
  end.

(** A request as the client makes them: to a URL under [BASE_URL], with a
    bearer token and the version of the API. *)
Definition client_request (q : DimplexControl.Request) : Prop :=
  startswith (DimplexControl.url q) BASE_URL = true
  /\ (exists token,
         dict_lookup (DimplexControl.headers q) "Authorization"
         = Some (PStr ("Bearer " ++ token)))
  /\ dict_lookup (DimplexControl.headers q) "api_version" = Some (PStr "1.0").

(** [m] keeps the requests already made to the API and adds at most [n],
    each of them a [client_request]. *)
Definition asks_at_most {A} (n : nat) (m : DimplexControl.C A) : Prop :=
  forall c out c',
    m c = (out, c') ->
    exists new,
      DimplexControl.api_sent c' = (DimplexControl.api_sent c ++ new)%list
      /\ (length new <= n)%nat
      /\ Forall client_request new.

(** A token that [get_access_token] returns as it is. *)
Definition token_valid (w : World) : Prop :=
  truthy (_refresh_token (tokens w)) = true
  /\ _access_token (tokens w) <> PNone
  /\ now w < _expires_at (tokens w).

(** The object of the tests of [tests/test_client.py]. *)
Definition state_fake : TokenState :=
  {| _access_token := PStr "fake_access"; _refresh_token := PStr "fake_refresh";
     _expires_at := 9999999999 |}.

(** A fresh client, with the scripts of the token endpoint and of the API. *)
Definition client_of (t : TokenState) (script : list Exchange)
           (api : list DimplexControl.Exchange) : DimplexControl.Env :=
  {| DimplexControl.auth := world_of t script;
     DimplexControl.api_pending := api;
     DimplexControl.api_sent := [];
     DimplexControl.api_logged := [] |}.

(** An answer of the API with its Content-Length, declared as JSON or
    not. *)
Definition api_response (st : Z) (body : string) (declared : bool)
  : DimplexControl.Response :=
  {| DimplexControl.status := st;
     DimplexControl.text := body;
     DimplexControl.content_length := Some (Z.of_nat (String.length body));
     DimplexControl.declares_json := declared |}.

(** The same sent in chunks, so without Content-Length. *)
Definition chunked_response (st : Z) (body : string)
  : DimplexControl.Response :=
  {| DimplexControl.status := st;
     DimplexControl.text := body;
     DimplexControl.content_length := None;
     DimplexControl.declares_json := true |}.

(** Stand-ins for the libraries in examples: [str] of an exception, a
    model class that takes any fields, and a [TimerModeSettings] that
    requires its three scalar fields and reads no periods. *)
Definition str_any : DimplexControl.error -> string := fun _ => "<error>".

Definition any_fields : BaseModel (list (string * pyval)) := fun d => Some d.

Definition settings_of_fields : BaseModel TimerModeSettings :=
  fun d =>
    match dict_lookup d "HubId", dict_lookup d "ApplianceId",
          dict_lookup d "TimerMode" with
    | Some (PStr h), Some (PStr a), Some (PNum m) =>
        Some {| HubId := h; ApplianceId := a; TimerMode := m;
                TimerPeriods := [] |}
    | _, _, _ => None
    end.


(** Clients in a few situations: without tokens; with the token of the
    tests and an API that lists one hub, answers 500, is out of reach,
    answers with a page, with nothing and with white space; with an expired
    token and a token endpoint that is out of reach, or that answers
    without access token; and in front of an API that gives the settings
    of an appliance. *)
Definition body_hubs : string :=
  Json.dumps (PList [PDict [("HubId", PStr "123"); ("HubName", PStr "Test Hub")]]).

Definition client_no_tokens : DimplexControl.Env :=
  client_of state_blank [] [api_answer 1001 (api_response 200 body_hubs true)].
Definition client_hubs : DimplexControl.Env :=
  client_of state_fake [] [api_answer 1001 (api_response 200 body_hubs true)].
Definition body_hubs_and_number : string :=
  Json.dumps (PList [PDict [("HubId", PStr "123")]; PNum 5]).
Definition client_hubs_and_number : DimplexControl.Env :=
  client_of state_fake []
    [api_answer 1001 (api_response 200 body_hubs_and_number true)].
Definition client_500 : DimplexControl.Env :=
  client_of state_fake []
    [api_answer 1001 (api_response 500 "Internal Server Error" false)].
Definition client_offline : DimplexControl.Env := client_of state_fake [] [].
Definition client_page : DimplexControl.Env :=
  client_of state_fake []
    [api_answer 1001 (api_response 200 "<html></html>" false)].
Definition client_empty : DimplexControl.Env :=
  client_of state_fake [] [api_answer 1001 (api_response 200 "" false)].
Definition client_blank : DimplexControl.Env :=
  client_of state_fake [] [api_answer 1001 (chunked_response 200 "  ")].
Definition client_refresh_offline : DimplexControl.Env :=
  client_of state_expired [] [api_answer 1001 (api_response 200 body_hubs true)].

(** A redirect to the application whose code has characters that are
    escaped in a query. *)
Definition world_escaped_code : World :=
  world_of state_old
    [answer 1006
       (redirect_to
          (REDIRECT_URI ++ "?"
           ++ urlencode [("code", "a b&c=d/e"); ("state", "xyz")]));
     answer 1007 (token_response 200 body_A_B_3600)].

(** A timer period. *)
Definition period_0830 : TimerPeriod :=
  {| DayOfWeek := 1; StartTime := "08:30:45"; EndTime := "22:15:00";
     Temperature := PNum 20 |}.

(** * Properties *)

(** ** Strings *)

Lemma prefix_app (p s : string) : String.prefix p (p ++ s) = true.
Proof.
  induction p as [|c p IH]; simpl.
  - now destruct s.
  - destruct (ascii_dec c c) as [_|Hne]; [exact IH | now elim Hne].
Qed.

Lemma contains_unfold (t s : string) :
  contains t s =
    String.prefix t s
    || match s with
       | EmptyString => false
       | String _ rest => contains t rest
       end.
Proof. destruct s; reflexivity. Qed.

Lemma contains_here (t s : string) : contains t (t ++ s) = true.
Proof. rewrite contains_unfold, prefix_app. reflexivity. Qed.

Lemma contains_later (t p s : string) :
  contains t s = true -> contains t (p ++ s) = true.
Proof.
  intros H. induction p as [|c p IH]; [exact H|].
  change (String c p ++ s) with (String c (p ++ s)).
  rewrite contains_unfold. cbv iota. rewrite IH. apply orb_true_r.
Qed.

Lemma contains_inside (t p s : string) : contains t (p ++ t ++ s) = true.
Proof. apply contains_later, contains_here. Qed.

Lemma append_empty_r (s : string) : s ++ "" = s.
Proof.
  induction s as [|c s IH]; [reflexivity|].
  change (String c s ++ "") with (String c (s ++ "")). now rewrite IH.
Qed.

Lemma contains_at_end (t p : string) : contains t (p ++ t) = true.
Proof.
  replace (p ++ t) with (p ++ t ++ "") by (now rewrite append_empty_r).
  apply contains_inside.
Qed.

(** A string without the character [c]. *)
Lemma lacks_cons (c a : ascii) (s : string) :
  contains (String c "") (String a s) = false ->
  a <> c /\ contains (String c "") s = false.
Proof.
  rewrite contains_unfold. simpl.
  destruct (ascii_dec c a) as [->|Hne].
  - destruct s; discriminate.
  - intros H. split; [congruence | exact H].
Qed.

Lemma prefix_char_ne (c a : ascii) (s : string) :
  a <> c -> String.prefix (String c "") (String a s) = false.
Proof.
  intros Hne. simpl. destruct (ascii_dec c a) as [->|_]; [contradiction|].
  reflexivity.
Qed.

Lemma before_first_app (c : ascii) (b s : string) :
  contains (String c "") b = false ->
  before_first (String c "") (b ++ s) = b ++ before_first (String c "") s.
Proof.
  induction b as [|a b IH]; intros H; [reflexivity|].
  apply lacks_cons in H as [Hne Hb].
  change (String a b ++ s) with (String a (b ++ s)).
  cbn [before_first]. rewrite (prefix_char_ne c a _ Hne), (IH Hb). reflexivity.
Qed.

Lemma after_first_app (c : ascii) (b s : string) :
  contains (String c "") b = false ->
  after_first (String c "") (b ++ s) = after_first (String c "") s.
Proof.
  induction b as [|a b IH]; intros H; [reflexivity|].
  apply lacks_cons in H as [Hne Hb].
  change (String a b ++ s) with (String a (b ++ s)).
  cbn [after_first]. rewrite (prefix_char_ne c a _ Hne). exact (IH Hb).
Qed.

Lemma remove_unsafe_app (b s : string) :
  remove_unsafe (b ++ s) = remove_unsafe b ++ remove_unsafe s.
Proof.
  induction b as [|a b IH]; [reflexivity|].
  change (String a b ++ s) with (String a (b ++ s)). cbn [remove_unsafe].
  rewrite IH. destruct (unsafe_url_char a); reflexivity.
Qed.

Lemma remove_unsafe_lacks (c : ascii) (b : string) :
  contains (String c "") b = false ->
  contains (String c "") (remove_unsafe b) = false.
Proof.
  induction b as [|a b IH]; intros H; [reflexivity|].
  apply lacks_cons in H as [Hne Hb]. cbn [remove_unsafe].
  destruct (unsafe_url_char a); [exact (IH Hb)|].
  rewrite contains_unfold, (prefix_char_ne c a _ Hne). exact (IH Hb).
Qed.

(** ** The JSON codec reads back the token document it writes *)

Lemma append_assoc (a b c : string) : (a ++ b) ++ c = a ++ (b ++ c).
Proof.
  induction a as [|x a IH]; [reflexivity|].
  change ((String x a ++ b) ++ c) with (String x ((a ++ b) ++ c)).
  now rewrite IH.
Qed.

Lemma length_append (a b : string) :
  String.length (a ++ b) = (String.length a + String.length b)%nat.
Proof.
  induction a as [|c a IH]; [reflexivity|].
  change (String c a ++ b) with (String c (a ++ b)). cbn [String.length].
  now rewrite IH.
Qed.

Lemma substring_all (s : string) :
  forall n, (String.length s <= n)%nat -> String.substring 0 n s = s.
Proof.
  induction s as [|c s IH]; intros n Hn.
  - destruct n; reflexivity.
  - destruct n as [|n]; [cbn in Hn; lia|]. cbn. rewrite IH; [reflexivity|].
    cbn in Hn. lia.
Qed.

Lemma substring_skip (p s : string) (m : nat) :
  (String.length s <= m)%nat ->
  String.substring (String.length p) m (p ++ s) = s.
Proof.
  intros Hm. induction p as [|c p IH]; [apply substring_all, Hm | exact IH].
Qed.

Lemma slice_from_app (p s : string) :
  slice_from (String.length p) (p ++ s) = s.
Proof.
  unfold slice_from. apply substring_skip. rewrite length_append. lia.
Qed.

(** Evaluates a closed subterm in place. *)
Ltac calc t := let v := eval vm_compute in t in change t with v.

(** Strings: each character is read back from its escape. *)
Lemma read_string_char (c : ascii) (t : string) :
  Json.read_string (Json.escape_char c ++ t) =
    match Json.read_string t with
    | Some (s, r) => Some (String c s, r)
    | None => None
    end.
Proof. destruct c as [[] [] [] [] [] [] [] []]; reflexivity. Qed.

Lemma read_string_escape (s rest : string) :
  Json.read_string (Json.escape s ++ String Json.dq rest) = Some (s, rest).
Proof.
  induction s as [|c s IH]; [reflexivity|].
  change (Json.escape (String c s)) with (Json.escape_char c ++ Json.escape s).
  rewrite append_assoc, read_string_char, IH. reflexivity.
Qed.

(** Numbers: the decimal rendering is one literal, read back by the
    library's own inverse. *)
Lemma span_number_app (lit rest : string) :
  all_chars Json.is_number_char lit = true ->
  ends_literal rest = true ->
  Json.span_number (lit ++ rest) = (lit, rest).
Proof.
  intros Hl Hr. induction lit as [|c lit IH].
  - destruct rest as [|c rest]; [reflexivity|]. cbn [ends_literal] in Hr.
    apply andb_prop in Hr as [Hr _]. apply negb_true_iff in Hr.
    change ("" ++ String c rest) with (String c rest).
    cbn [Json.span_number]. rewrite Hr. reflexivity.
  - cbn [all_chars] in Hl. apply andb_prop in Hl as [Hc Hl].
    change (String c lit ++ rest) with (String c (lit ++ rest)).
    cbn [Json.span_number]. rewrite Hc, (IH Hl). reflexivity.
Qed.

Lemma all_chars_uint (d : Decimal.uint) :
  all_chars Json.is_number_char (NilEmpty.string_of_uint d) = true.
Proof. induction d; cbn; auto. Qed.

Lemma all_chars_nilzero (d : Decimal.uint) :
  all_chars Json.is_number_char (NilZero.string_of_uint d) = true.
Proof.
  destruct d; try reflexivity;
    match goal with
    | |- context [NilZero.string_of_uint ?x] => exact (all_chars_uint x)
    end.
Qed.

Lemma all_chars_dec (n : Z) : all_chars Json.is_number_char (dec n) = true.
Proof.
  unfold dec. destruct n as [|p|p]; cbn [Z.to_int NilZero.string_of_int].
  - reflexivity.
  - apply all_chars_nilzero.
  - cbn [all_chars]. rewrite all_chars_nilzero. reflexivity.
Qed.

Lemma int_of_string_dec (n : Z) :
  NilZero.int_of_string (dec n) = Some (Z.to_int n).
Proof.
  unfold dec. apply NilZero.isi; destruct n; try discriminate;
    cbn [Z.to_int]; intros [= H]; now apply Unsigned.to_uint_nonnil in H.
Qed.

Lemma read_number_dec (n : Z) (rest : string) :
  ends_literal rest = true ->
  Json.read_number (dec n ++ rest) = Some (PNum n, rest).
Proof.
  intros Hr. unfold Json.read_number.
  rewrite (span_number_app _ _ (all_chars_dec n) Hr).
  rewrite int_of_string_dec. cbv zeta. rewrite DecimalZ.of_to, String.eqb_refl.
  cbn [orb].
  destruct rest as [|c rest]; [reflexivity|].
  cbn [ends_literal] in Hr. apply andb_prop in Hr as [_ Hr].
  apply negb_true_iff in Hr.
  destruct (Ascii.eqb_spec c "."); [subst; discriminate|].
  destruct (Ascii.eqb_spec c "e"); [subst; discriminate|].
  destruct (Ascii.eqb_spec c "E"); [subst; discriminate|].
  destruct c as [[] [] [] [] [] [] [] []]; try reflexivity; contradiction.
Qed.

Lemma number_char_first (c : ascii) :
  Json.is_number_char c = true ->
  Json.is_ws c = false
  /\ Ascii.eqb c Json.dq = false
  /\ Ascii.eqb c "[" = false
  /\ Ascii.eqb c "{" = false
  /\ (forall x, String.prefix "null" (String c x) = false)
  /\ (forall x, String.prefix "true" (String c x) = false)
  /\ (forall x, String.prefix "false" (String c x) = false).
Proof.
  destruct c as [[] [] [] [] [] [] [] []]; intros H; try discriminate H;
    repeat split; reflexivity.
Qed.

Lemma read_value_number (f : nat) (n : Z) (rest : string) :
  ends_literal rest = true ->
  Json.read_value (S f) (dec n ++ rest) = Some (PNum n, rest).
Proof.
  intros Hr. rewrite <- (read_number_dec n rest Hr).
  pose proof (all_chars_dec n) as Ha. pose proof (int_of_string_dec n) as Hi.
  destruct (dec n) as [|c s]; [discriminate Hi|].
  cbn [all_chars] in Ha. apply andb_prop in Ha as [Hc _].
  destruct (number_char_first c Hc) as (H1 & H2 & H3 & H4 & H5 & H6 & H7).
  change (String c s ++ rest) with (String c (s ++ rest)).
  cbn [Json.read_value Json.skip_ws]. rewrite H1, H2, H3, H4, H5, H6, H7.
  reflexivity.
Qed.

(** A token: [null] or a string literal. *)
Lemma read_value_text (f : nat) (v : pyval) (depth : nat) (rest : string) :
  text_or_none v = true ->
  Json.read_value (S f) (Json.dumps_at depth v ++ rest) = Some (v, rest).
Proof.
  destruct v; try discriminate; intros _.
  - change (Json.dumps_at depth PNone ++ rest)
      with (String "n" (String "u" (String "l" (String "l" rest)))).
    cbn [Json.read_value Json.skip_ws].
    calc (Json.is_ws "n"). cbv iota.
    calc (Ascii.eqb "n" Json.dq). calc (Ascii.eqb "n" "[").
    calc (Ascii.eqb "n" "{"). cbv iota.
    change (String "n" (String "u" (String "l" (String "l" rest))))
      with ("null" ++ rest).
    rewrite prefix_app.
    change (slice_from 4 ("null" ++ rest))
      with (slice_from (String.length "null") ("null" ++ rest)).
    rewrite slice_from_app. reflexivity.
  - change (Json.dumps_at depth (PStr s) ++ rest)
      with (String Json.dq ((Json.escape s ++ String Json.dq "") ++ rest)).
    rewrite append_assoc.
    change (String Json.dq "" ++ rest) with (String Json.dq rest).
    cbn [Json.read_value Json.skip_ws].
    calc (Json.is_ws Json.dq). cbv iota.
    calc (Ascii.eqb Json.dq Json.dq). cbv iota.
    rewrite read_string_escape. reflexivity.
Qed.

(** One member of an object, as [dumps] lays it out. *)
Lemma read_member (f : nat) (acc : list (string * pyval)) (k body tail : string)
      (v : pyval) :
  Json.read_value (S f) (body ++ tail) = Some (v, tail) ->
  Json.read_members (S (S f)) acc
    (Json.nl ++ "  " ++ Json.quote k ++ ": " ++ body ++ tail) =
    match Json.skip_ws tail with
    | String "," r3 => Json.read_members (S f) (dict_set acc k v) r3
    | String "}" r3 => Some (dict_set acc k v, r3)
    | _ => None
    end.
Proof.
  intros Hv.
  change (Json.nl ++ "  " ++ Json.quote k ++ ": " ++ body ++ tail)
    with (String (ascii_of_nat 10) (String " " (String " "
           (String Json.dq ((Json.escape k ++ String Json.dq "")
                            ++ ": " ++ body ++ tail))))).
  rewrite append_assoc.
  change (String Json.dq "" ++ ": " ++ body ++ tail)
    with (String Json.dq (String ":" (String " " (body ++ tail)))).
  cbn [Json.read_members Json.skip_ws].
  calc (Json.is_ws (ascii_of_nat 10)). calc (Json.is_ws " ").
  calc (Json.is_ws Json.dq). cbv iota.
  calc (Ascii.eqb Json.dq Json.dq). cbv iota.
  rewrite read_string_escape.
  cbn [Json.skip_ws]. calc (Json.is_ws ":"). cbv iota.
  change (Json.read_value (S f) (String " " (body ++ tail)))
    with (Json.read_value (S f) (body ++ tail)).
  rewrite Hv. reflexivity.
Qed.

Lemma read_value_object (f : nat) (k rest : string) :
  Json.read_value (S f)
    (String "{" (Json.nl ++ "  " ++ Json.quote k ++ rest)) =
    match Json.read_members f []
            (Json.nl ++ "  " ++ Json.quote k ++ rest) with
    | Some (fields, r) => Some (PDict fields, r)
    | None => None
    end.
Proof.
  cbn [Json.read_value Json.skip_ws].
  calc (Json.is_ws "{"). cbv iota.
  calc (Ascii.eqb "{" Json.dq). calc (Ascii.eqb "{" "[").
  calc (Ascii.eqb "{" "{"). cbv iota.
  set (m := Json.read_members f [] _).
  change (Json.nl ++ "  " ++ Json.quote k ++ rest)
    with (String (ascii_of_nat 10) (String " " (String " "
           (String Json.dq ((Json.escape k ++ String Json.dq "") ++ rest))))).
  cbn [Json.skip_ws].
  calc (Json.is_ws (ascii_of_nat 10)). calc (Json.is_ws " ").
  calc (Json.is_ws Json.dq). cbv iota.
  calc Json.dq. cbv iota.
  reflexivity.
Qed.

Lemma skip_ws_comma (x : string) : Json.skip_ws (String "," x) = String "," x.
Proof. reflexivity. Qed.

Lemma dumps_token_blob (a r : pyval) (e : Z) :
  Json.dumps (token_blob a r e) =
    String "{"
      (Json.nl ++ "  " ++ Json.quote "access_token" ++ ": "
       ++ Json.dumps_at 1 a
       ++ String ","
            (Json.nl ++ "  " ++ Json.quote "refresh_token" ++ ": "
             ++ Json.dumps_at 1 r
             ++ String ","
                  (Json.nl ++ "  " ++ Json.quote "expires_at" ++ ": "
                   ++ dec e ++ Json.nl ++ "}"))).
Proof.
  unfold Json.dumps, token_blob.
  cbn [Json.dumps_at map join Json.indent].
  change (Json.dumps_at 1 (PNum e)) with (dec e).
  repeat rewrite append_assoc.
  reflexivity.
Qed.

Lemma read_token_blob (f : nat) (a r : pyval) (e : Z) :
  text_or_none a = true ->
  text_or_none r = true ->
  Json.read_value (5 + f) (Json.dumps (token_blob a r e)) =
    Some (token_blob a r e, "").
Proof.
  intros Ha Hr. rewrite dumps_token_blob.
  change (5 + f)%nat with (S (S (S (S (S f))))).
  rewrite read_value_object.
  rewrite (read_member _ _ "access_token" _ _ a)
    by (apply read_value_text, Ha).
  rewrite skip_ws_comma.
  rewrite (read_member _ _ "refresh_token" _ _ r)
    by (apply read_value_text, Hr).
  rewrite skip_ws_comma.
  rewrite (read_member _ _ "expires_at" (dec e) (Json.nl ++ "}") (PNum e))
    by (apply read_value_number; reflexivity).
  reflexivity.
Qed.

(** For every pair of tokens that are strings or [None] and every integer
    expiry, [loads] gives back the document that [dumps] rendered. *)
Lemma loads_dumps_token_blob (a r : pyval) (e : Z) :
  text_or_none a = true ->
  text_or_none r = true ->
  Json.loads (Json.dumps (token_blob a r e)) = Some (token_blob a r e).
Proof.
  intros Ha Hr. unfold Json.loads.
  assert (Hlen : (4 <= String.length (Json.dumps (token_blob a r e)))%nat).
  { rewrite dumps_token_blob. cbn [String.length]. rewrite !length_append.
    cbn [String.length Json.nl]. lia. }
  replace (S (String.length (Json.dumps (token_blob a r e))))
    with (5 + (String.length (Json.dumps (token_blob a r e)) - 4))%nat by lia.
  rewrite (read_token_blob _ a r e Ha Hr). reflexivity.
Qed.

(** ** The token state *)

Section Properties.

#[local] Set Default Proof Using "Type".

Variable json_loads : string -> option pyval.
Variable json_dumps : pyval -> string.
Variable py_repr : pyval -> string.
Variable soup_form_inputs : string -> list (option string * string).
Variable urlparse_query : string -> option string.
Variable parse_qs : string -> list (string * list string).

(** What [is_authenticated] computes, and that it leaves the world as it
    found it. *)
Lemma is_authenticated_eq (w : World) :
  is_authenticated w =
    (Ok (is_not_None (_access_token (tokens w))
         && (now w <? _expires_at (tokens w))), w).
Proof.
  unfold is_authenticated, bind, get_self, time_time, ret.
  destruct (is_not_None (_access_token (tokens w))); reflexivity.
Qed.

(** [_update_tokens] on a decoded object whose [expires_in] is a number
    or absent. *)
Lemma update_tokens_dict (d : list (string * pyval)) (n : Z) (w : World) :
  as_number (dict_get d "expires_in" (PNum 3600)) = Some n ->
  _update_tokens (PDict d) w =
    (Ok tt,
     set_tokens {| _access_token := dict_get d "access_token" PNone;
                   _refresh_token := dict_get d "refresh_token" PNone;
                   _expires_at := now w + n - 60 |} w).
Proof.
  intros Hn. unfold _update_tokens, bind, py_get, get_self, put_self,
    time_time, ret. cbn. rewrite Hn. reflexivity.
Qed.

(** [_update_tokens] when [expires_in] is no number: both tokens are
    already replaced when the addition raises. *)
Lemma update_tokens_not_a_number (d : list (string * pyval)) (w : World) :
  as_number (dict_get d "expires_in" (PNum 3600)) = None ->
  _update_tokens (PDict d) w =
    (Raise TypeError,
     set_tokens {| _access_token := dict_get d "access_token" PNone;
                   _refresh_token := dict_get d "refresh_token" PNone;
                   _expires_at := _expires_at (tokens w) |} w).
Proof.
  intros Hn. unfold _update_tokens, bind, py_get, get_self, put_self,
    time_time, ret, raise. cbn. rewrite Hn. reflexivity.
Qed.

(** [_update_tokens] touches nothing but the object's fields. *)
Lemma update_tokens_frame (data : pyval) (w : World) :
  exists out w',
    _update_tokens data w = (out, w')
    /\ sent w' = sent w /\ pending w' = pending w /\ now w' = now w
    /\ logged w' = logged w /\ files w' = files w.
Proof.
  destruct data as [| | | | |d];
    try (eexists _, w; split; [reflexivity | repeat split]).
  destruct (as_number (dict_get d "expires_in" (PNum 3600))) as [n|] eqn:E.
  - rewrite (update_tokens_dict d n w E). eexists _, _. split; [reflexivity|].
    cbn. repeat split.
  - rewrite (update_tokens_not_a_number d w E). eexists _, _.
    split; [reflexivity|]. cbn. repeat split.
Qed.

(** ** The token endpoint *)

(** The methods are unfolded by name only, one at a time. *)
Arguments is_authenticated : simpl never.
Arguments _update_tokens : simpl never.
Arguments refresh_tokens : simpl never.
Arguments exchange_code : simpl never.
Arguments get_access_token : simpl never.
Arguments follow_redirects : simpl never.
Arguments capture_code_and_exchange : simpl never.
Arguments check_login_response : simpl never.
Arguments headless_login : simpl never.
Arguments save_tokens : simpl never.
Arguments load_tokens : simpl never.
Arguments authorize_url : simpl never.
Arguments urlencode : simpl never.
Arguments py_str : simpl never.
Arguments dec : simpl never.
Arguments slice_to : simpl never.
Arguments collect_inputs : simpl never.
Arguments dict_update : simpl never.

Ltac step :=
  unfold bind, ret, raise, log, get_self, put_self, time_time, http,
    try_except, loads, resp_json; cbn.

(** [refresh_tokens] posts one request whatever the state and the answer. *)
Lemma refresh_tokens_sends (w : World) :
  exists out w',
    refresh_tokens json_loads w = (out, w')
    /\ sent w' = (sent w ++ [refresh_request (tokens w)])%list.
Proof.
  unfold refresh_tokens. step.
  destruct (pending w) as [|[T [r|]] rest]; cbn; [eauto | | eauto].
  destruct (negb (status r =? HTTP_OK)); step; [eauto|].
  destruct (json_loads (text r)) as [data|]; step; [|eauto].
  match goal with
  | |- context [_update_tokens data ?W] =>
      destruct (update_tokens_frame data W) as (out & w' & E & Hs & _);
      rewrite E
  end.
  eauto.
Qed.

(** A status other than 200 on a refresh. *)
Lemma refresh_tokens_rejected (w : World) (T : Z) (r : Response)
      (rest : list Exchange) :
  pending w = answer T r :: rest ->
  status r <> 200 ->
  exists w',
    refresh_tokens json_loads w =
      (Raise (DimplexAuthError
                ("Failed to refresh token: " ++ dec (status r) ++ " - " ++ text r)),
       w')
    /\ tokens w' = tokens w
    /\ sent w' = (sent w ++ [refresh_request (tokens w)])%list.
Proof.
  intros Hp Hs. unfold refresh_tokens. step. rewrite Hp. cbn.
  destruct (status r =? HTTP_OK) eqn:E.
  - apply Z.eqb_eq in E. contradiction.
  - cbn. eauto.
Qed.

(** A status other than 200 on a code exchange. *)
Lemma exchange_code_rejected (code : string) (w : World) (T : Z) (r : Response)
      (rest : list Exchange) :
  pending w = answer T r :: rest ->
  status r <> 200 ->
  exists w',
    exchange_code json_loads code w =
      (Raise (DimplexAuthError ("Failed to exchange code: " ++ text r)), w')
    /\ tokens w' = tokens w
    /\ sent w' = (sent w ++ [exchange_request code])%list.
Proof.
  intros Hp Hs. unfold exchange_code. step. rewrite Hp. cbn.
  destruct (status r =? HTTP_OK) eqn:E.
  - apply Z.eqb_eq in E. contradiction.
  - cbn. eauto.
Qed.

(** Status 200 with a JSON object on a refresh. *)
Lemma refresh_tokens_accepted (w : World) (T : Z) (r : Response)
      (rest : list Exchange) (d : list (string * pyval)) (n : Z) :
  pending w = answer T r :: rest ->
  status r = 200 ->
  json_loads (text r) = Some (PDict d) ->
  as_number (dict_get d "expires_in" (PNum 3600)) = Some n ->
  exists w',
    refresh_tokens json_loads w = (Ok tt, w')
    /\ tokens w' = {| _access_token := dict_get d "access_token" PNone;
                      _refresh_token := dict_get d "refresh_token" PNone;
                      _expires_at := T + n - 60 |}
    /\ now w' = T
    /\ sent w' = (sent w ++ [refresh_request (tokens w)])%list.
Proof.
  intros Hp Hs Hj Hn. unfold refresh_tokens. step. rewrite Hp. cbn.
  rewrite Hs. step. rewrite Hj. step. rewrite (update_tokens_dict d n _ Hn).
  cbn. rewrite Hp. cbn. eexists. split; [reflexivity|].
  cbn. rewrite Hp. cbn. auto.
Qed.

(** Status 200 with a JSON object on a code exchange. *)
Lemma exchange_code_accepted (code : string) (w : World) (T : Z) (r : Response)
      (rest : list Exchange) (d : list (string * pyval)) (n : Z) :
  pending w = answer T r :: rest ->
  status r = 200 ->
  json_loads (text r) = Some (PDict d) ->
  as_number (dict_get d "expires_in" (PNum 3600)) = Some n ->
  exists w',
    exchange_code json_loads code w = (Ok tt, w')
    /\ tokens w' = {| _access_token := dict_get d "access_token" PNone;
                      _refresh_token := dict_get d "refresh_token" PNone;
                      _expires_at := T + n - 60 |}
    /\ now w' = T
    /\ sent w' = (sent w ++ [exchange_request code])%list.
Proof.
  intros Hp Hs Hj Hn. unfold exchange_code. step. rewrite Hp. cbn.
  rewrite Hs. step. rewrite Hj. step. rewrite (update_tokens_dict d n _ Hn).
  cbn. rewrite Hp. cbn. eexists. split; [reflexivity|].
  cbn. rewrite Hp. cbn. auto.
Qed.

(** C5.  For every token state and clock, [is_authenticated] returns a
    boolean that is true exactly when the access token is not [None] and
    the clock is before [expires_at], hence false exactly when the token is
    unset or [expires_at <= now]; the world it returns is the world it was
    given: no field written, no request sent, no log record, no file
    touched. *)
Theorem is_authenticated_iff (w : World) :
  exists b : bool,
    is_authenticated w = (Ok b, w)
    /\ (b = true <->
        _access_token (tokens w) <> PNone /\ now w < _expires_at (tokens w))
    /\ (b = false <->
        _access_token (tokens w) = PNone \/ _expires_at (tokens w) <= now w).
Proof.
  eexists. split; [apply is_authenticated_eq|].
  destruct (_access_token (tokens w)) eqn:Ea; cbn;
    destruct (Z.ltb_spec (now w) (_expires_at (tokens w)));
    repeat split; intros; try discriminate; try congruence; try lia;
    try (left; reflexivity); try (right; lia);
    try (match goal with H : _ /\ _ |- _ => destruct H end; congruence || lia);
    try (match goal with H : _ \/ _ |- _ => destruct H end; congruence || lia).
Qed.

(** C3 (amended).  When the token endpoint answers with status 200 and a
    JSON object holding access_token "A", refresh_token "B" and expires_in
    3600 or no expires_in at all, and the answer is processed at clock
    reading T, then [refresh_tokens] and [exchange_code] both return
    normally and leave access_token = "A", refresh_token = "B" and
    expires_at = T + 3600 - 60. *)
Theorem token_response_sets_state (code : string) (w : World) (T : Z)
        (r : Response) (rest : list Exchange) (d : list (string * pyval))
        (A B : string) :
  pending w = answer T r :: rest ->
  status r = 200 ->
  json_loads (text r) = Some (PDict d) ->
  dict_lookup d "access_token" = Some (PStr A) ->
  dict_lookup d "refresh_token" = Some (PStr B) ->
  dict_lookup d "expires_in" = Some (PNum 3600)
  \/ dict_lookup d "expires_in" = None ->
  let expected := {| _access_token := PStr A; _refresh_token := PStr B;
                     _expires_at := T + 3600 - 60 |} in
  (exists w', refresh_tokens json_loads w = (Ok tt, w')
              /\ tokens w' = expected /\ now w' = T)
  /\ (exists w', exchange_code json_loads code w = (Ok tt, w')
                 /\ tokens w' = expected /\ now w' = T).
Proof.
  intros Hp Hs Hj Ha Hb He expected.
  assert (Hn : as_number (dict_get d "expires_in" (PNum 3600)) = Some 3600)
    by (unfold dict_get; destruct He as [-> | ->]; reflexivity).
  assert (Hx : {| _access_token := dict_get d "access_token" PNone;
                  _refresh_token := dict_get d "refresh_token" PNone;
                  _expires_at := T + 3600 - 60 |} = expected)
    by (unfold dict_get; rewrite Ha, Hb; reflexivity).
  split.
  - destruct (refresh_tokens_accepted w T r rest d 3600 Hp Hs Hj Hn)
      as (w' & E & Ht & Hnow & _).
    exists w'. rewrite <- Hx. auto.
  - destruct (exchange_code_accepted code w T r rest d 3600 Hp Hs Hj Hn)
      as (w' & E & Ht & Hnow & _).
    exists w'. rewrite <- Hx. auto.
Qed.


(** C2 (amended).  For every answer of the token endpoint whose status is
    not 200 (so for every non-2xx answer), [refresh_tokens] and
    [exchange_code] both raise [DimplexAuthError] with a message that
    contains the response body, the message of [refresh_tokens] containing
    the decimal status as well, and the token state is left as it was. *)
Theorem token_endpoint_rejection (code : string) (w : World) (T : Z)
        (r : Response) (rest : list Exchange) :
  pending w = answer T r :: rest ->
  status r <> 200 ->
  (exists msg w',
      refresh_tokens json_loads w = (Raise (DimplexAuthError msg), w')
      /\ contains (dec (status r)) msg = true
      /\ contains (text r) msg = true
      /\ tokens w' = tokens w)
  /\ (exists msg w',
         exchange_code json_loads code w = (Raise (DimplexAuthError msg), w')
         /\ contains (text r) msg = true
         /\ tokens w' = tokens w).
Proof.
  intros Hp Hs. split.
  - destruct (refresh_tokens_rejected w T r rest Hp Hs) as (w' & E & Ht & _).
    eexists _, w'. split; [exact E|]. repeat split; [| |exact Ht].
    + apply contains_inside.
    + apply contains_later, contains_later, contains_at_end.
  - destruct (exchange_code_rejected code w T r rest Hp Hs) as (w' & E & Ht & _).
    eexists _, w'. split; [exact E|]. split; [|exact Ht].
    apply contains_at_end.
Qed.

(** ** [get_access_token] *)

(** Without a usable refresh token the guard raises, and nothing else
    happens. *)
Lemma get_access_token_guard (w : World) :
  truthy (_refresh_token (tokens w)) = false ->
  get_access_token json_loads w =
    (Raise (DimplexAuthError
              "No refresh token available. User must authenticate first."), w).
Proof.
  intros H. unfold get_access_token. step. rewrite H. reflexivity.
Qed.

(** Past the guard, a valid access token is returned as it is. *)
Lemma get_access_token_cached (w : World) :
  truthy (_refresh_token (tokens w)) = true ->
  is_not_None (_access_token (tokens w)) && (now w <? _expires_at (tokens w))
  = true ->
  get_access_token json_loads w = (Ok (_access_token (tokens w)), w).
Proof.
  intros Hr Ha. unfold get_access_token. step. rewrite Hr. cbn.
  rewrite is_authenticated_eq, Ha. reflexivity.
Qed.

(** Past the guard, without a valid access token: one [refresh_tokens],
    then the field is read. *)
Lemma get_access_token_refreshes (w : World) :
  truthy (_refresh_token (tokens w)) = true ->
  is_not_None (_access_token (tokens w)) && (now w <? _expires_at (tokens w))
  = false ->
  get_access_token json_loads w =
    match refresh_tokens json_loads w with
    | (Ok _, w') => (Ok (_access_token (tokens w')), w')
    | (Raise e, w') => (Raise e, w')
    end.
Proof.
  intros Hr Ha. unfold get_access_token. step. rewrite Hr. cbn.
  rewrite is_authenticated_eq, Ha.
  destruct (refresh_tokens json_loads w) as [[[]|e] w']; reflexivity.
Qed.

Lemma not_authenticated_cases (w : World) :
  _access_token (tokens w) = PNone \/ _expires_at (tokens w) <= now w ->
  is_not_None (_access_token (tokens w)) && (now w <? _expires_at (tokens w))
  = false.
Proof.
  intros [-> | H]; [reflexivity|].
  apply andb_false_intro2. apply Z.ltb_ge. exact H.
Qed.

Lemma authenticated_cases (w : World) :
  _access_token (tokens w) <> PNone ->
  now w < _expires_at (tokens w) ->
  is_not_None (_access_token (tokens w)) && (now w <? _expires_at (tokens w))
  = true.
Proof.
  intros Ha Ht. apply andb_true_intro. split.
  - destruct (_access_token (tokens w)); [contradiction | reflexivity ..].
  - apply Z.ltb_lt. exact Ht.
Qed.



(** C4 (amended).  On a state whose refresh token is unset (or empty),
    [get_access_token] raises [DimplexAuthError] at once: no request is
    sent and the world is unchanged.  [refresh_tokens] itself has no such
    check: whatever the stored refresh token, it posts its request. *)
Theorem missing_refresh_token (w : World) :
  truthy (_refresh_token (tokens w)) = false ->
  get_access_token json_loads w =
    (Raise (DimplexAuthError
              "No refresh token available. User must authenticate first."), w)
  /\ exists out w',
      refresh_tokens json_loads w = (out, w')
      /\ sent w' = (sent w ++ [refresh_request (tokens w)])%list.
Proof.
  intros H. split; [apply get_access_token_guard, H | apply refresh_tokens_sends].
Qed.

(** ** Persistence *)

Lemma load_tokens_absent (path : string) (w : World) :
  files w !! path = None -> load_tokens json_loads path w = (Ok PNone, w).
Proof.
  intros E. unfold load_tokens, path_exists. step. rewrite E. reflexivity.
Qed.

Lemma load_tokens_file (path : string) (w : World) (c : string) :
  files w !! path = Some (RegularFile c) ->
  load_tokens json_loads path w =
    match json_loads c with
    | Some v => (Ok v, w)
    | None =>
        (Ok PNone,
         add_log {| level := ERROR;
                    message := "Failed to load tokens from %s: %s";
                    args := [ArgStr path; ArgExc JSONDecodeError] |} w)
    end.
Proof.
  intros E. unfold load_tokens, path_exists, read_file. step. rewrite E. cbn.
  rewrite E. destruct (json_loads c); reflexivity.
Qed.

Lemma load_tokens_unreadable (path : string) (w : World) :
  files w !! path = Some Directory \/ files w !! path = Some Denied ->
  load_tokens json_loads path w =
    (Ok PNone,
     add_log {| level := ERROR;
                message := "Failed to load tokens from %s: %s";
                args := [ArgStr path; ArgExc OSError] |} w).
Proof.
  intros [E|E]; unfold load_tokens, path_exists, read_file; step;
    rewrite E; cbn; rewrite E; reflexivity.
Qed.

(** C8.  [load_tokens] on a path that names nothing returns [None] and
    leaves the world as it was; on a file whose content is not JSON, and on
    an entry that cannot be opened for reading, it returns [None] after
    logging one ERROR record that carries the path and the exception; and
    in every world it returns normally, never raising. *)
Theorem load_tokens_recovers (path : string) (w : World) :
  (files w !! path = None -> load_tokens json_loads path w = (Ok PNone, w))
  /\ (forall c,
         files w !! path = Some (RegularFile c) ->
         json_loads c = None ->
         load_tokens json_loads path w =
           (Ok PNone,
            add_log {| level := ERROR;
                       message := "Failed to load tokens from %s: %s";
                       args := [ArgStr path; ArgExc JSONDecodeError] |} w))
  /\ (files w !! path = Some Directory \/ files w !! path = Some Denied ->
      load_tokens json_loads path w =
        (Ok PNone,
         add_log {| level := ERROR;
                    message := "Failed to load tokens from %s: %s";
                    args := [ArgStr path; ArgExc OSError] |} w))
  /\ (exists v w', load_tokens json_loads path w = (Ok v, w')
                   /\ tokens w' = tokens w /\ files w' = files w).
Proof.
  split; [apply load_tokens_absent|].
  split; [intros c E Hc; rewrite (load_tokens_file path w c E), Hc; reflexivity|].
  split; [apply load_tokens_unreadable|].
  destruct (files w !! path) as [[c| |]|] eqn:E.
  - rewrite (load_tokens_file path w c E).
    destruct (json_loads c); eauto.
  - rewrite load_tokens_unreadable by auto. eauto.
  - rewrite load_tokens_unreadable by auto. eauto.
  - rewrite load_tokens_absent by auto. eauto.
Qed.

(** Saving, then loading in any world where the path names the file that
    was written: the load returns what the decoder makes of the text that
    the encoder wrote for the state. *)
Lemma save_then_load_anywhere (path : string) (w : World) :
  let blob :=
    token_blob (_access_token (tokens w)) (_refresh_token (tokens w))
      (_expires_at (tokens w)) in
  files w !! path <> Some Directory ->
  files w !! path <> Some Denied ->
  exists w1,
    save_tokens json_dumps path w = (Ok tt, w1)
    /\ files w1 !! path = Some (RegularFile (json_dumps blob))
    /\ tokens w1 = tokens w
    /\ forall w2 v,
        files w2 !! path = files w1 !! path ->
        json_loads (json_dumps blob) = Some v ->
        load_tokens json_loads path w2 = (Ok v, w2).
Proof.
  intros blob Hd Hn. unfold token_blob in blob.
  assert (Hw : write_file path (json_dumps blob) w =
               (Ok tt, set_files (<[path := RegularFile (json_dumps blob)]>
                                    (files w)) w)).
  { unfold write_file. destruct (files w !! path) as [[| |]|]; congruence. }
  eexists. split.
  { unfold save_tokens. step. fold blob. rewrite Hw. reflexivity. }
  cbn. split; [apply lookup_insert_eq|]. split; [reflexivity|].
  intros w2 v Hf Hj. rewrite lookup_insert_eq in Hf.
  rewrite (load_tokens_file path w2 (json_dumps blob) Hf), Hj. reflexivity.
Qed.

(** ** What a computation leaves of the token state *)

Lemma keeps_ret {A} (a : A) : keeps_tokens (ret a).
Proof. intros w out w' [= _ <-]. reflexivity. Qed.

Lemma keeps_raise {A} (e : exn) : keeps_tokens (@raise A e).
Proof. intros w out w' [= _ <-]. reflexivity. Qed.

Lemma keeps_log (l : Level) (msg : string) (a : list LogArg) :
  keeps_tokens (log l msg a).
Proof. intros w out w' [= _ <-]. reflexivity. Qed.

Lemma keeps_http (q : Request) : keeps_tokens (http q).
Proof.
  intros w out w'. unfold http.
  destruct (pending w) as [|[T [r|]] rest]; intros [= _ <-]; reflexivity.
Qed.

Lemma keeps_get_self : keeps_tokens get_self.
Proof. intros w out w' [= _ <-]. reflexivity. Qed.

Lemma keeps_py_get (v : pyval) (k : string) (d : pyval) :
  keeps_tokens (py_get v k d).
Proof. destruct v; cbn; auto using @keeps_ret, @keeps_raise. Qed.

Lemma keeps_loads (s : string) : keeps_tokens (loads json_loads s).
Proof.
  unfold loads. destruct (json_loads s); auto using @keeps_ret, @keeps_raise.
Qed.

Lemma keeps_bind {A B} (m : M A) (k : A -> M B) :
  keeps_tokens m -> (forall a, keeps_tokens (k a)) -> keeps_tokens (bind m k).
Proof.
  intros Hm Hk w out w'. unfold bind.
  destruct (m w) as [[a|e] w1] eqn:E.
  - intros H. rewrite (Hk a _ _ _ H). eapply Hm, E.
  - intros [= _ <-]. eapply Hm, E.
Qed.

Lemma keeps_try_except {A} (m : M A) (h : exn -> option (M A)) :
  keeps_tokens m ->
  (forall e k, h e = Some k -> keeps_tokens k) ->
  keeps_tokens (try_except m h).
Proof.
  intros Hm Hh w out w'. unfold try_except.
  destruct (m w) as [[a|e] w1] eqn:E.
  - intros [= _ <-]. eapply Hm, E.
  - destruct (h e) as [k|] eqn:Ek.
    + intros H. rewrite (Hh e k Ek _ _ _ H). eapply Hm, E.
    + intros [= _ <-]. eapply Hm, E.
Qed.

Lemma keeps_then_on_auth_error {A} (m : M A) :
  keeps_tokens m -> keeps_tokens_on_auth_error m.
Proof. intros H w msg w' E. eapply H, E. Qed.

Lemma keeps_bind_on_auth_error {A B} (m : M A) (k : A -> M B) :
  keeps_tokens m ->
  (forall a, keeps_tokens_on_auth_error (k a)) ->
  keeps_tokens_on_auth_error (bind m k).
Proof.
  intros Hm Hk w msg w'. unfold bind.
  destruct (m w) as [[a|e] w1] eqn:E.
  - intros H. rewrite (Hk a _ _ _ H). eapply Hm, E.
  - intros [= _ <-]. eapply Hm, E.
Qed.

Create HintDb keeps.
#[local] Hint Resolve @keeps_ret @keeps_raise keeps_log keeps_http keeps_py_get
  keeps_loads keeps_get_self : keeps.

(** Splits a goal [keeps_tokens m] along the shape of [m]. *)
Ltac keeps :=
  repeat first
    [ apply keeps_bind; [|intros ?]
    | apply keeps_try_except; [|intros ? ? ?]
    | solve [auto with keeps]
    | match goal with
      | |- keeps_tokens (if ?b then _ else _) => destruct b
      | |- keeps_tokens (match ?x with _ => _ end) => destruct x
      | H : match ?e with _ => _ end = Some _ |- _ =>
          destruct e; try discriminate H
      | H : Some _ = Some _ |- _ => injection H as <-
      end ].

(** [_update_tokens] raises no [DimplexAuthError]. *)
Lemma update_tokens_no_auth_error (data : pyval) :
  keeps_tokens_on_auth_error (_update_tokens data).
Proof.
  intros w msg w' H. exfalso. destruct data as [| | | | |d];
    try (cbv in H; discriminate H).
  destruct (as_number (dict_get d "expires_in" (PNum 3600))) as [n|] eqn:E.
  - rewrite (update_tokens_dict d n w E) in H. discriminate H.
  - rewrite (update_tokens_not_a_number d w E) in H. discriminate H.
Qed.

Lemma exchange_code_keeps_on_auth_error (code : string) :
  keeps_tokens_on_auth_error (exchange_code json_loads code).
Proof.
  unfold exchange_code.
  do 3 (apply keeps_bind_on_auth_error; [auto with keeps | intros ?]).
  apply keeps_bind_on_auth_error; [auto with keeps | intros _].
  destruct (negb _).
  - apply keeps_then_on_auth_error. keeps.
  - apply keeps_bind_on_auth_error; [unfold resp_json; auto with keeps|].
    intros data. apply update_tokens_no_auth_error.
Qed.





Lemma refresh_tokens_keeps_on_auth_error :
  keeps_tokens_on_auth_error (refresh_tokens json_loads).
Proof.
  unfold refresh_tokens.
  do 3 (apply keeps_bind_on_auth_error; [auto with keeps | intros ?]).
  destruct (negb _).
  - apply keeps_then_on_auth_error. keeps.
  - apply keeps_bind_on_auth_error; [unfold resp_json; auto with keeps|].
    intros data. apply update_tokens_no_auth_error.
Qed.

Lemma follow_redirects_zero (u : string) :
  follow_redirects urlparse_query parse_qs 0 u = ret None.
Proof. reflexivity. Qed.

Lemma follow_redirects_succ (n : nat) (u : string) :
  follow_redirects urlparse_query parse_qs (S n) u =
    (let* resp := http (GET u false) in
     if is_redirect (status resp) then
       match location resp with
       | None => ret None
       | Some loc =>
           if (loc =? "")%string then ret None
           else if carries_code loc then
                  log DEBUG ("Found redirect with code: " ++ loc) [] ;;
                  let* code := code_of urlparse_query parse_qs loc in
                  ret (Some code)
                else follow_redirects urlparse_query parse_qs n loc
       end
     else ret None).
Proof. reflexivity. Qed.

Lemma keeps_code_of (loc : string) :
  keeps_tokens (code_of urlparse_query parse_qs loc).
Proof. intros w out w' [= _ <-]. reflexivity. Qed.

Lemma follow_redirects_keeps (hops : nat) (u : string) :
  keeps_tokens (follow_redirects urlparse_query parse_qs hops u).
Proof.
  revert u. induction hops as [|n IH]; intros u;
    rewrite ?follow_redirects_zero, ?follow_redirects_succ.
  - auto with keeps.
  - apply keeps_bind; [auto with keeps | intros resp].
    destruct (is_redirect _); [|auto with keeps].
    destruct (location resp) as [loc|]; [|auto with keeps].
    destruct (loc =? "")%string; [auto with keeps|].
    destruct (carries_code loc); [|apply IH].
    apply keeps_bind; [auto with keeps | intros _].
    apply keeps_bind; [apply keeps_code_of | intros c; auto with keeps].
Qed.

(** ** Following the redirects *)

(** A location with the marks of the code is not empty. *)
Lemma marked_not_empty (loc : string) : carries_code loc = true -> loc <> "".
Proof. intros H ->. discriminate H. Qed.

(** One round of the loop on a plain hop: the request goes out and the
    loop goes on from the location. *)
Lemma follow_plain_hop (n : nat) (u : string) (w : World) (T : Z)
      (r : Response) (rest : list Exchange) :
  pending w = answer T r :: rest ->
  plain_hop r = true ->
  follow_redirects urlparse_query parse_qs (S n) u w =
    follow_redirects urlparse_query parse_qs n (target r)
      (exchange (GET u false) w).
Proof.
  intros Hp Hr. unfold plain_hop, target in *.
  apply andb_prop in Hr as [Hs Hl].
  destruct (location r) as [loc|] eqn:El; [|discriminate].
  apply andb_prop in Hl as [Hne Hc].
  rewrite follow_redirects_succ. step. rewrite Hp. cbn. rewrite Hs, El.
  destruct (loc =? "")%string; [discriminate|].
  destruct (carries_code loc); [discriminate|]. reflexivity.
Qed.

(** One round on a dead end: the loop stops without a usable code. *)
Lemma follow_dead_end (n : nat) (u : string) (w : World) (T : Z)
      (r : Response) (rest : list Exchange) :
  pending w = answer T r :: rest ->
  dead_end urlparse_query parse_qs r = true ->
  exists c w',
    follow_redirects urlparse_query parse_qs (S n) u w = (Ok c, w')
    /\ (c = None \/ c = Some "")
    /\ sent w' = (sent w ++ [GET u false])%list.
Proof.
  intros Hp Hr. unfold dead_end in Hr.
  rewrite follow_redirects_succ. step. rewrite Hp. cbn.
  destruct (is_redirect (status r)); [|eauto 10].
  destruct (location r) as [loc|]; [|eauto 10].
  destruct (loc =? "")%string; [eauto 10|].
  destruct (carries_code loc); cbn in Hr; [|discriminate].
  unfold code_of.
  destruct (query_code urlparse_query parse_qs loc) as [c|e]; [|discriminate].
  apply String.eqb_eq in Hr. rewrite Hr. cbn. eauto 10.
Qed.

(** One round on a location with the marks of the code: the loop stops
    with what [parse_qs] finds under [code], or with the exception that
    the parsing raises, the record of the find being logged either way. *)
Lemma follow_marked (n : nat) (u : string) (w : World) (T : Z)
      (r : Response) (rest : list Exchange) (loc : string) :
  pending w = answer T r :: rest ->
  is_redirect (status r) = true ->
  location r = Some loc ->
  carries_code loc = true ->
  follow_redirects urlparse_query parse_qs (S n) u w =
    (match query_code urlparse_query parse_qs loc with
     | Ok c => Ok (Some c)
     | Raise e => Raise e
     end,
     add_log {| level := DEBUG;
                message := "Found redirect with code: " ++ loc;
                args := [] |}
       (exchange (GET u false) w)).
Proof.
  intros Hp Hs Hl Hc. pose proof (marked_not_empty loc Hc) as Hne.
  rewrite follow_redirects_succ. step. rewrite Hp. cbn.
  rewrite Hs, Hl. apply String.eqb_neq in Hne. rewrite Hne, Hc.
  unfold code_of. destruct (query_code urlparse_query parse_qs
    loc); reflexivity.
Qed.

Lemma follow_found (n : nat) (u : string) (w : World) (T : Z)
      (r : Response) (rest : list Exchange) (loc c : string) :
  pending w = answer T r :: rest ->
  is_redirect (status r) = true ->
  location r = Some loc ->
  carries_code loc = true ->
  query_code urlparse_query parse_qs loc = Ok c ->
  follow_redirects urlparse_query parse_qs (S n) u w =
    (Ok (Some c),
     add_log {| level := DEBUG;
                message := "Found redirect with code: " ++ loc;
                args := [] |}
       (exchange (GET u false) w)).
Proof.
  intros Hp Hs Hl Hc Hq.
  rewrite (follow_marked n u w T r rest loc Hp Hs Hl Hc), Hq. reflexivity.
Qed.

(** One round when the transport fails: aiohttp's exception is passed on. *)
Lemma follow_no_answer (n : nat) (u : string) (w : World) :
  no_answer (pending w) = true ->
  follow_redirects urlparse_query parse_qs (S n) u w =
    (Raise ClientError, exchange (GET u false) w).
Proof.
  intros H. rewrite follow_redirects_succ. step.
  destruct (pending w) as [|[T [r|]] rest];
    [reflexivity | discriminate | reflexivity].
Qed.


(** A run of plain hops uses up as many rounds and as many exchanges, and
    sends one GET for each. *)
Lemma follow_plain_chain (chain : list (Z * Response)) :
  forall (n : nat) (u : string) (w : World) (rest : list Exchange),
    Forall (fun x => plain_hop (snd x) = true) chain ->
    pending w = (script_of chain ++ rest)%list ->
    exists w',
      follow_redirects urlparse_query parse_qs (length chain + n) u w =
        follow_redirects urlparse_query parse_qs n (last_url u chain) w'
      /\ pending w' = rest
      /\ tokens w' = tokens w
      /\ (sent w' ++ [GET (last_url u chain) false])%list =
         (sent w ++ hops_from u chain)%list.
Proof.
  induction chain as [|[T r] chain IH]; intros n u w rest Hall Hp.
  - exists w. auto.
  - inversion Hall as [|x l Hr Hall']; subst. cbn in Hr, Hp.
    cbn [length Nat.add].
    rewrite (follow_plain_hop _ u w T r _ Hp Hr).
    destruct (IH n (target r) (exchange (GET u false) w) rest Hall')
      as (w' & E & Hp' & Ht & Hs).
    { cbn. rewrite Hp. reflexivity. }
    exists w'. rewrite E. split; [reflexivity|]. split; [exact Hp'|].
    split; [exact Ht|]. cbn [last_url snd]. rewrite Hs. cbn.
    rewrite <- app_assoc. reflexivity.
Qed.

(** Without a usable code, step 5 raises. *)
Lemma capture_without_code (u : string) (w w' : World) (c : option string) :
  follow_redirects urlparse_query parse_qs 10 u w = (Ok c, w') ->
  c = None \/ c = Some "" ->
  capture_code_and_exchange json_loads urlparse_query parse_qs u w =
    (Raise (DimplexAuthError NO_CODE), w').
Proof.
  intros E Hc. unfold capture_code_and_exchange. step. rewrite E.
  destruct Hc as [-> | ->]; reflexivity.
Qed.

(** When the loop raises, so does step 5. *)
Lemma capture_raises (u : string) (w w' : World) (e : exn) :
  follow_redirects urlparse_query parse_qs 10 u w = (Raise e, w') ->
  capture_code_and_exchange json_loads urlparse_query parse_qs u w =
    (Raise e, w').
Proof.
  intros E. unfold capture_code_and_exchange. step. rewrite E. reflexivity.
Qed.

(** With a code, step 5 logs its first ten characters and exchanges it. *)
Lemma capture_with_code (u : string) (w w' : World) (c : string) :
  follow_redirects urlparse_query parse_qs 10 u w = (Ok (Some c), w') ->
  c <> "" ->
  capture_code_and_exchange json_loads urlparse_query parse_qs u w =
    exchange_code json_loads c
      (add_log {| level := DEBUG;
                  message := "Got code: " ++ slice_to 10 c ++ "...";
                  args := [] |} w').
Proof.
  intros E Hc. unfold capture_code_and_exchange. unfold bind at 1. rewrite E.
  apply String.eqb_neq in Hc. rewrite Hc. reflexivity.
Qed.

(** The loop on a chain of fewer than ten plain hops: it comes to the
    next exchange with its rounds not used up. *)
Lemma follow_to_the_next (chain : list (Z * Response)) (u : string)
      (w : World) (rest : list Exchange) :
  Forall (fun x => plain_hop (snd x) = true) chain ->
  pending w = (script_of chain ++ rest)%list ->
  (length chain < 10)%nat ->
  exists n w1,
    follow_redirects urlparse_query parse_qs 10 u w =
      follow_redirects urlparse_query parse_qs (S n) (last_url u chain) w1
    /\ pending w1 = rest
    /\ tokens w1 = tokens w
    /\ (sent w1 ++ [GET (last_url u chain) false])%list =
       (sent w ++ hops_from u chain)%list.
Proof.
  intros Hall Hp Hlen.
  destruct (follow_plain_chain chain (10 - length chain) u w rest Hall Hp)
    as (w1 & E & H).
  replace (length chain + (10 - length chain))%nat with 10%nat in E by lia.
  destruct (10 - length chain)%nat as [|n] eqn:En; [lia|].
  exists n, w1. split; [exact E | exact H].
Qed.

(** A chain that gives no code: ten plain hops, or fewer and then a dead
    end. *)
Lemma capture_fails_without_code (chain : list (Z * Response)) (u : string)
      (w : World) (rest : list Exchange) :
  Forall (fun x => plain_hop (snd x) = true) chain ->
  pending w = (script_of chain ++ rest)%list ->
  length chain = 10%nat
  \/ ((length chain < 10)%nat
      /\ exists T r rest',
          rest = answer T r :: rest'
          /\ dead_end urlparse_query parse_qs r = true) ->
  exists w',
    capture_code_and_exchange json_loads urlparse_query parse_qs u w =
      (Raise (DimplexAuthError NO_CODE), w')
    /\ tokens w' = tokens w.
Proof.
  intros Hall Hp Hcase.
  assert (exists c w', follow_redirects urlparse_query parse_qs
    10 u w = (Ok c, w')
                       /\ (c = None \/ c = Some "")) as (c & w' & E & Hc).
  { destruct Hcase as [Hlen | (Hlen & T & r & rest' & -> & Hr)].
    - destruct (follow_plain_chain chain 0 u w rest Hall Hp)
        as (w' & E & _).
      rewrite Nat.add_0_r, Hlen in E. exists None, w'. rewrite E. auto.
    - destruct (follow_to_the_next chain u w _ Hall Hp Hlen)
        as (m & w1 & E & Hp1 & _).
      destruct (follow_dead_end m (last_url u chain) w1 T r rest' Hp1 Hr)
        as (c & w' & E' & Hc & _).
      exists c, w'. rewrite E, E'. auto. }
  exists w'. split; [exact (capture_without_code u w w' c E Hc)|].
  exact (follow_redirects_keeps 10 u w _ _ E).
Qed.

(** [exchange_code] posts one request whatever the answer. *)
Lemma exchange_code_sends (code : string) (w : World) :
  exists out w',
    exchange_code json_loads code w = (out, w')
    /\ sent w' = (sent w ++ [exchange_request code])%list.
Proof.
  unfold exchange_code. step.
  destruct (pending w) as [|[T [r|]] rest]; cbn; [eauto | | eauto].
  destruct (negb (status r =? HTTP_OK)); step; [eauto|].
  destruct (json_loads (text r)) as [data|]; step; [|eauto].
  match goal with
  | |- context [_update_tokens data ?W] =>
      destruct (update_tokens_frame data W) as (out & w' & E & Hs & _);
      rewrite E
  end.
  eauto.
Qed.

(** C6 (amended).  The phase of [headless_login] that follows the
    redirects by hand, on a chain of plain hops -- redirects (301, 302,
    303) whose Location is not empty, does not start with [REDIRECT_URI]
    and does not contain [code=] -- sends one GET for the start URL and
    one for the Location of each hop, and then:

    (1) when fewer than ten plain hops are followed by a redirect whose
    Location has one of these marks, the loop stops there.  If
    [parse_qs(urlparse(Location).query)] holds a non-empty first value [c]
    under [code], the phase goes on exactly as [exchange_code c], the next
    request being the token request for [c]; if [urlparse] refuses the
    Location, its [ValueError] is raised;

    (2) when the chain gives no code -- ten plain hops, or fewer followed
    by a response that is no redirect, a redirect with no Location or an
    empty one, or a marked Location in whose query [parse_qs] finds no
    value under [code] -- the phase raises [DimplexAuthError];

    (3) when the session fails to answer after fewer than ten plain hops,
    aiohttp's [ClientError] is raised.

    In each case the token state is untouched up to the exchange. *)
Theorem redirect_chain_code (u : string) (w : World)
        (chain : list (Z * Response)) (rest : list Exchange) :
  Forall (fun x => plain_hop (snd x) = true) chain ->
  pending w = (script_of chain ++ rest)%list ->
  (forall T r rest' loc,
      (length chain < 10)%nat ->
      rest = answer T r :: rest' ->
      is_redirect (status r) = true ->
      location r = Some loc ->
      carries_code loc = true ->
      (forall c,
          query_code urlparse_query parse_qs loc = Ok c ->
          c <> "" ->
          exists w3,
            capture_code_and_exchange json_loads urlparse_query parse_qs u w =
              exchange_code json_loads c w3
            /\ sent w3 = (sent w ++ hops_from u chain)%list
            /\ pending w3 = rest'
            /\ tokens w3 = tokens w
            /\ exists out w',
                capture_code_and_exchange json_loads urlparse_query parse_qs u w
                = (out, w')
                /\ sent w' = (sent w3 ++ [exchange_request c])%list)
      /\ (urlparse_query loc = None ->
          exists w',
            capture_code_and_exchange json_loads urlparse_query parse_qs u w =
              (Raise ValueError, w')
            /\ sent w' = (sent w ++ hops_from u chain)%list
            /\ tokens w' = tokens w))
  /\ (length chain = 10%nat
      \/ ((length chain < 10)%nat
          /\ exists T r rest',
              rest = answer T r :: rest'
              /\ dead_end urlparse_query parse_qs r = true) ->
      exists w',
        capture_code_and_exchange json_loads urlparse_query parse_qs u w =
          (Raise (DimplexAuthError NO_CODE), w')
        /\ tokens w' = tokens w)
  /\ ((length chain < 10)%nat ->
      no_answer rest = true ->
      exists w',
        capture_code_and_exchange json_loads urlparse_query parse_qs u w =
          (Raise ClientError, w')
        /\ sent w' = (sent w ++ hops_from u chain)%list
        /\ tokens w' = tokens w).
Proof.
  intros Hall Hp. split; [|split].
  - intros T r rest' loc Hlen -> Hs Hl Hc.
    destruct (follow_to_the_next chain u w _ Hall Hp Hlen)
      as (n & w1 & E & Hp1 & Ht1 & Hs1).
    rewrite (follow_marked n _ w1 T r rest' loc Hp1 Hs Hl Hc) in E.
    split.
    + intros c Hq Hne. rewrite Hq in E.
      rewrite (capture_with_code u w _ c E Hne).
      eexists. split; [reflexivity|]. cbn. rewrite Hp1. cbn.
      split; [exact Hs1|]. split; [reflexivity|]. split; [exact Ht1|].
      match goal with
      | |- context [exchange_code json_loads c ?W] =>
          destruct (exchange_code_sends c W) as (out & w' & E' & Hs')
      end.
      exists out, w'. split; [exact E'|]. rewrite Hs'. reflexivity.
    + intros Hq. unfold query_code in E. rewrite Hq in E.
      rewrite (capture_raises u w _ _ E).
      eexists. split; [reflexivity|]. cbn. auto.
  - intros Hcase.
    exact (capture_fails_without_code chain u w rest Hall Hp Hcase).
  - intros Hlen Hn.
    destruct (follow_to_the_next chain u w _ Hall Hp Hlen)
      as (n & w1 & E & Hp1 & Ht1 & Hs1).
    rewrite (follow_no_answer n _ w1) in E by (rewrite Hp1; exact Hn).
    rewrite (capture_raises u w _ _ E).
    eexists. split; [reflexivity|]. cbn. auto.
Qed.

(** ** [headless_login] *)

(** Sequencing, one step at a time. *)
Lemma bind_ok {A B} (m : M A) (k : A -> M B) (w w1 : World) (a : A) :
  m w = (Ok a, w1) -> bind m k w = k a w1.
Proof. intros E. unfold bind. rewrite E. reflexivity. Qed.

Lemma bind_raise {A B} (m : M A) (k : A -> M B) (w w1 : World) (e : exn) :
  m w = (Raise e, w1) -> bind m k w = (Raise e, w1).
Proof. intros E. unfold bind. rewrite E. reflexivity. Qed.

Lemma bind_ret {A B} (a : A) (k : A -> M B) (w : World) :
  bind (ret a) k w = k a w.
Proof. reflexivity. Qed.

Lemma bind_log {B} (l : Level) (msg : string) (a : list LogArg)
      (k : unit -> M B) (w : World) :
  bind (log l msg a) k w =
    k tt (add_log {| level := l; message := msg; args := a |} w).
Proof. reflexivity. Qed.

Lemma bind_http_answer {B} (q : Request) (k : Response -> M B) (w : World)
      (T : Z) (r : Response) (rest : list Exchange) :
  pending w = answer T r :: rest ->
  bind (http q) k w = k r (exchange q w).
Proof. intros Hp. unfold bind, http. rewrite Hp. reflexivity. Qed.

Lemma check_login_response_keeps (r : Response) :
  keeps_tokens (check_login_response json_loads py_repr r).
Proof. unfold check_login_response. keeps. Qed.

Lemma capture_keeps_on_auth_error (u : string) :
  keeps_tokens_on_auth_error (capture_code_and_exchange json_loads
    urlparse_query parse_qs u).
Proof.
  unfold capture_code_and_exchange.
  apply keeps_bind_on_auth_error; [apply follow_redirects_keeps|].
  intros [c|]; [|apply keeps_then_on_auth_error; auto with keeps].
  destruct (c =? "")%string; [apply keeps_then_on_auth_error; auto with keeps|].
  apply keeps_bind_on_auth_error; [auto with keeps|].
  intros _. apply exchange_code_keeps_on_auth_error.
Qed.

(** Whatever makes [headless_login] raise [DimplexAuthError], the token
    state is then as it was. *)
Lemma headless_login_keeps_on_auth_error (email password : pyval) :
  keeps_tokens_on_auth_error
    (headless_login json_loads py_repr soup_form_inputs urlparse_query parse_qs
      email password).
Proof.
  unfold headless_login.
  do 2 (apply keeps_bind_on_auth_error; [auto with keeps | intros ?]).
  destruct (re_search_settings _) as [group|];
    [|apply keeps_then_on_auth_error; auto with keeps].
  apply keeps_bind_on_auth_error; [keeps | intros settings].
  do 2 (apply keeps_bind_on_auth_error; [auto with keeps | intros ?]).
  destruct (_ || _); [apply keeps_then_on_auth_error; auto with keeps|].
  do 2 (apply keeps_bind_on_auth_error; [auto with keeps | intros ?]).
  apply keeps_bind_on_auth_error; [apply check_login_response_keeps | intros _].
  apply keeps_bind_on_auth_error; [auto with keeps | intros _].
  apply keeps_bind_on_auth_error; [keeps | intros _].
  apply capture_keeps_on_auth_error.
Qed.















(** ** Further properties of the token life cycle *)

Lemma http_fails (q : Request) (w : World) :
  transport_fails w = true -> http q w = (Raise ClientError, exchange q w).
Proof.
  unfold transport_fails, http.
  destruct (pending w) as [|[T [r|]] rest];
    [reflexivity | discriminate | reflexivity].
Qed.

(** X1.  When the transport fails on the request to the token endpoint,
    [refresh_tokens] and [exchange_code] raise aiohttp's [ClientError] as it
    is, not [DimplexAuthError]; the request has gone out and the stored
    tokens are untouched.  [get_access_token], when it has to refresh,
    passes the same exception on. *)
Theorem token_endpoint_unreachable (code : string) (w : World) :
  transport_fails w = true ->
  (exists w',
      refresh_tokens json_loads w = (Raise ClientError, w')
      /\ tokens w' = tokens w
      /\ sent w' = (sent w ++ [refresh_request (tokens w)])%list)
  /\ (exists w',
         exchange_code json_loads code w = (Raise ClientError, w')
         /\ tokens w' = tokens w
         /\ sent w' = (sent w ++ [exchange_request code])%list)
  /\ (truthy (_refresh_token (tokens w)) = true ->
      _access_token (tokens w) = PNone \/ _expires_at (tokens w) <= now w ->
      exists w',
        get_access_token json_loads w = (Raise ClientError, w')
        /\ tokens w' = tokens w
        /\ sent w' = (sent w ++ [refresh_request (tokens w)])%list).
Proof.
  intros Hf.
  assert (Hr : exists w',
             refresh_tokens json_loads w = (Raise ClientError, w')
             /\ tokens w' = tokens w
             /\ sent w' = (sent w ++ [refresh_request (tokens w)])%list).
  { unfold refresh_tokens. rewrite bind_log. unfold bind at 1, get_self at 1.
    unfold bind at 1. rewrite http_fails by exact Hf.
    eexists. split; [reflexivity|]. split; reflexivity. }
  split; [exact Hr|]. split.
  - unfold exchange_code. rewrite !bind_log.
    unfold bind at 1. rewrite http_fails by exact Hf.
    eexists. split; [reflexivity|]. split; reflexivity.
  - intros Ht Hc. apply not_authenticated_cases in Hc.
    rewrite (get_access_token_refreshes w Ht Hc).
    destruct Hr as (w' & -> & Hk & Hs). exists w'. auto.
Qed.

(** [_update_tokens] on an object that is not a dict: [.get] is missing. *)
Lemma update_tokens_not_a_dict (v : pyval) (w : World) :
  (forall d, v <> PDict d) ->
  _update_tokens v w = (Raise AttributeError, w).
Proof.
  intros Hv. destruct v as [| | | | |d]; try reflexivity.
  now elim (Hv d).
Qed.

(** X2.  When the token endpoint answers with status 200 and a JSON
    document that is not an object (null, a list, a string, a number),
    [refresh_tokens] and [exchange_code] raise [AttributeError], not
    [DimplexAuthError], and the stored tokens are untouched. *)
Theorem token_answer_not_an_object (code : string) (w : World) (T : Z)
        (r : Response) (rest : list Exchange) (v : pyval) :
  pending w = answer T r :: rest ->
  status r = 200 ->
  json_loads (text r) = Some v ->
  (forall d, v <> PDict d) ->
  (exists w',
      refresh_tokens json_loads w = (Raise AttributeError, w')
      /\ tokens w' = tokens w)
  /\ (exists w',
         exchange_code json_loads code w = (Raise AttributeError, w')
         /\ tokens w' = tokens w).
Proof.
  intros Hp Hs Hj Hv. split.
  - unfold refresh_tokens. step. rewrite Hp. cbn. rewrite Hs. step.
    rewrite Hj. step. rewrite (update_tokens_not_a_dict v _ Hv).
    eexists. split; reflexivity.
  - unfold exchange_code. step. rewrite Hp. cbn. rewrite Hs. step.
    rewrite Hj. step. rewrite (update_tokens_not_a_dict v _ Hv).
    eexists. split; reflexivity.
Qed.



(** X5.  [save_tokens] does not catch what [open] raises: on a path that
    names a directory or an entry that cannot be opened it raises [OSError]
    and leaves the world as it was, nothing written and nothing logged.  On
    any other path it returns, the file at that path holds the document of
    the three fields, every other path names what it named before, the
    fields themselves are untouched and one INFO record is logged. *)
Theorem save_tokens_writes_one_file (path : string) (w : World) :
  let blob :=
    token_blob (_access_token (tokens w)) (_refresh_token (tokens w))
      (_expires_at (tokens w)) in
  (files w !! path = Some Directory \/ files w !! path = Some Denied ->
   save_tokens json_dumps path w = (Raise OSError, w))
  /\ (files w !! path <> Some Directory ->
      files w !! path <> Some Denied ->
      exists w',
        save_tokens json_dumps path w = (Ok tt, w')
        /\ files w' !! path = Some (RegularFile (json_dumps blob))
        /\ (forall other, other <> path -> files w' !! other = files w !! other)
        /\ tokens w' = tokens w
        /\ sent w' = sent w
        /\ logged w' =
             (logged w ++ [{| level := INFO; message := "Tokens saved to %s";
                              args := [ArgStr path] |}])%list).
Proof.
  intros blob. unfold token_blob in blob. split.
  - intros [E|E]; unfold save_tokens, write_file; step; rewrite E; reflexivity.
  - intros Hd Hn.
    assert (Hw : write_file path (json_dumps blob) w =
                 (Ok tt, set_files (<[path := RegularFile (json_dumps blob)]>
                                      (files w)) w)).
    { unfold write_file. destruct (files w !! path) as [[| |]|]; congruence. }
    eexists. split.
    { unfold save_tokens. step. fold blob. rewrite Hw. reflexivity. }
    cbn. split; [apply lookup_insert_eq|].
    split; [intros other Ho; apply lookup_insert_ne; congruence|].
    repeat split.
Qed.

(** ** How many requests a login sends *)

Lemma sends_weaken {A} (n n' : nat) (m : M A) :
  (n <= n')%nat -> sends_at_most n m -> sends_at_most n' m.
Proof.
  intros Hle Hm w out w' E. destruct (Hm w out w' E) as (new & Hs & Hl).
  exists new. split; [exact Hs | lia].
Qed.

Lemma sends_nothing {A} (m : M A) :
  (forall w out w', m w = (out, w') -> sent w' = sent w) -> sends_at_most 0 m.
Proof.
  intros Hm w out w' E. exists []. rewrite (Hm w out w' E), app_nil_r.
  split; [reflexivity | cbn; lia].
Qed.

Lemma sends_ret {A} (a : A) : sends_at_most 0 (ret a).
Proof. apply sends_nothing. intros w out w' [= _ <-]. reflexivity. Qed.

Lemma sends_raise {A} (e : exn) : sends_at_most 0 (@raise A e).
Proof. apply sends_nothing. intros w out w' [= _ <-]. reflexivity. Qed.

Lemma sends_log (l : Level) (msg : string) (a : list LogArg) :
  sends_at_most 0 (log l msg a).
Proof. apply sends_nothing. intros w out w' [= _ <-]. reflexivity. Qed.

Lemma sends_py_get (v : pyval) (k : string) (d : pyval) :
  sends_at_most 0 (py_get v k d).
Proof. destruct v; first [apply sends_ret | apply sends_raise]. Qed.

Lemma sends_loads (s : string) : sends_at_most 0 (loads json_loads s).
Proof.
  unfold loads. destruct (json_loads s); [apply sends_ret | apply sends_raise].
Qed.

Lemma sends_http (q : Request) : sends_at_most 1 (http q).
Proof.
  intros w out w'. unfold http.
  destruct (pending w) as [|[T [r|]] rest]; intros [= _ <-];
    exists [q]; split; reflexivity || (cbn; lia).
Qed.

Lemma sends_bind {A B} (n1 n2 : nat) (m : M A) (k : A -> M B) :
  sends_at_most n1 m ->
  (forall a, sends_at_most n2 (k a)) ->
  sends_at_most (n1 + n2) (bind m k).
Proof.
  intros Hm Hk w out w'. unfold bind.
  destruct (m w) as [[a|e] w1] eqn:E;
    destruct (Hm _ _ _ E) as (new1 & Hs1 & Hl1).
  - intros E2. destruct (Hk a _ _ _ E2) as (new2 & Hs2 & Hl2).
    exists (new1 ++ new2)%list. rewrite Hs2, Hs1, <- app_assoc, length_app.
    split; [reflexivity | lia].
  - intros [= _ <-]. exists new1. split; [exact Hs1 | lia].
Qed.

Lemma sends_try_except {A} (n1 n2 : nat) (m : M A) (h : exn -> option (M A)) :
  sends_at_most n1 m ->
  (forall e k, h e = Some k -> sends_at_most n2 k) ->
  sends_at_most (n1 + n2) (try_except m h).
Proof.
  intros Hm Hh w out w'. unfold try_except.
  destruct (m w) as [[a|e] w1] eqn:E;
    destruct (Hm _ _ _ E) as (new1 & Hs1 & Hl1).
  - intros [= _ <-]. exists new1. split; [exact Hs1 | lia].
  - destruct (h e) as [k|] eqn:Ek.
    + intros E2. destruct (Hh e k Ek _ _ _ E2) as (new2 & Hs2 & Hl2).
      exists (new1 ++ new2)%list. rewrite Hs2, Hs1, <- app_assoc, length_app.
      split; [reflexivity | lia].
    + intros [= _ <-]. exists new1. split; [exact Hs1 | lia].
Qed.

(** A computation that sends nothing, before one that sends. *)
Lemma sends_after {A B} (n : nat) (m : M A) (k : A -> M B) :
  sends_at_most 0 m ->
  (forall a, sends_at_most n (k a)) ->
  sends_at_most n (bind m k).
Proof. intros Hm Hk. exact (sends_bind 0 n m k Hm Hk). Qed.

Lemma sends_exchange_code (code : string) :
  sends_at_most 1 (exchange_code json_loads code).
Proof.
  intros w out w' E.
  destruct (exchange_code_sends code w) as (out0 & w0 & E0 & Hs).
  rewrite E in E0. injection E0 as <- <-.
  exists [exchange_request code]. split; [exact Hs | cbn; lia].
Qed.

Lemma sends_follow_redirects (hops : nat) (u : string) :
  sends_at_most hops (follow_redirects urlparse_query parse_qs hops u).
Proof.
  revert u. induction hops as [|n IH]; intros u;
    rewrite ?follow_redirects_zero, ?follow_redirects_succ.
  - apply sends_ret.
  - apply (sends_bind 1 n); [apply sends_http | intros resp].
    destruct (is_redirect _);
      [|apply (sends_weaken 0); [lia | apply sends_ret]].
    destruct (location resp) as [loc|];
      [|apply (sends_weaken 0); [lia | apply sends_ret]].
    destruct (loc =? "")%string;
      [apply (sends_weaken 0); [lia | apply sends_ret]|].
    destruct (carries_code loc); [|apply IH].
    apply (sends_weaken 0); [lia|].
    apply sends_after; [apply sends_log | intros _].
    apply sends_after; [|intros c; apply sends_ret].
    apply sends_nothing. intros w out w' [= _ <-]. reflexivity.
Qed.

Lemma sends_capture (u : string) :
  sends_at_most 11 (capture_code_and_exchange json_loads urlparse_query parse_qs
    u).
Proof.
  unfold capture_code_and_exchange.
  apply (sends_bind 10 1); [apply sends_follow_redirects | intros [c|]].
  - destruct (c =? "")%string.
    + apply (sends_weaken 0); [lia | apply sends_raise].
    + apply sends_after; [apply sends_log | intros _; apply sends_exchange_code].
  - apply (sends_weaken 0); [lia | apply sends_raise].
Qed.

Lemma sends_check_login_response (r : Response) :
  sends_at_most 0 (check_login_response json_loads py_repr r).
Proof.
  unfold check_login_response.
  apply sends_after; [apply sends_log | intros _].
  apply sends_after.
  - apply (sends_try_except 0 0).
    + apply sends_after; [apply sends_loads | intros v].
      apply sends_after; [apply sends_log | intros _; apply sends_ret].
    + intros e k Hk. destruct e; try discriminate Hk.
      injection Hk as <-.
      apply sends_after; [apply sends_log | intros _; apply sends_raise].
  - intros j. apply sends_after; [apply sends_py_get | intros st].
    destruct (differs_from_200 st); [|apply sends_ret].
    apply sends_after; [apply sends_py_get | intros s1].
    apply sends_after; [apply sends_py_get | intros m1].
    apply sends_after; [|intros m2; apply sends_raise].
    destruct (truthy m1); [apply sends_ret | apply sends_py_get].
Qed.

Lemma http_sends (q : Request) (w : World) :
  exists out, http q w = (out, exchange q w).
Proof.
  unfold http. destruct (pending w) as [|[T [r|]] rest]; eauto.
Qed.

(** X6.  A login sends at most fourteen requests, whatever the far end
    answers: the first is always the GET of the login URL (the one
    [get_login_url] returns), followed by at most the post of the
    credentials, one GET with redirects followed, the ten GETs of the loop
    and the code exchange.  The requests sent before the call are kept. *)
Theorem headless_login_request_bound (email password : pyval) (w : World) :
  exists out w' rest,
    headless_login json_loads py_repr soup_form_inputs urlparse_query parse_qs
      email password w =
      (out, w')
    /\ sent w' = (sent w ++ GET get_login_url true :: rest)%list
    /\ (length rest <= 13)%nat.
Proof.
  unfold headless_login, get_login_url. rewrite bind_log.
  unfold bind at 1.
  match goal with
  | |- context [http ?q ?W] => destruct (http_sends q W) as (out & ->)
  end.
  destruct out as [resp|e];
    [|exists (Raise e); eexists _, []; split; [reflexivity|];
      split; [reflexivity | cbn; lia]].
  match goal with
  | |- exists out w' rest, ?K ?W = _ /\ _ =>
      assert (HK : sends_at_most 13 K)
  end.
  { destruct (re_search_settings (text resp)) as [group|];
      [|apply (sends_weaken 0); [lia | apply sends_raise]].
    apply sends_after.
    { apply (sends_try_except 0 0); [apply sends_loads|].
      intros e k Hk. destruct e; try discriminate Hk.
      injection Hk as <-. apply sends_raise. }
    intros settings. apply sends_after; [apply sends_py_get | intros csrf].
    apply sends_after; [apply sends_py_get | intros trans].
    destruct (negb (truthy csrf) || negb (truthy trans));
      [apply (sends_weaken 0); [lia | apply sends_raise]|].
    apply sends_after; [apply sends_log | intros _].
    apply (sends_bind 1 12); [apply sends_http | intros r].
    apply sends_after; [apply sends_check_login_response | intros _].
    apply sends_after; [apply sends_log | intros _].
    apply (sends_bind 1 11); [|intros _; apply sends_capture].
    apply (sends_try_except 1 0).
    - apply (sends_bind 1 0); [apply sends_http | intros _; apply sends_ret].
    - intros e k [= <-]. apply sends_ret. }
  match goal with
  | |- exists out w' rest, ?K ?W = _ /\ _ =>
      destruct (K W) as [out w'] eqn:E;
      destruct (HK W out w' E) as (new & Hs & Hl)
  end.
  exists out, w', new. split; [reflexivity|].
  split; [|exact Hl].
  rewrite Hs. cbn. rewrite <- app_assoc. reflexivity.
Qed.

(** ** What the credentials reach *)

Lemma same_but_sent_refl (w : World) : same_but_sent w w.
Proof. repeat split. Qed.

Lemma alike_pure {A} (m1 m2 : M A) (f : World -> outcome A) (g : World -> World) :
  (forall w, m1 w = (f w, g w)) ->
  (forall w, m2 w = (f w, g w)) ->
  (forall w1 w2, same_but_sent w1 w2 ->
                 f w1 = f w2 /\ same_but_sent (g w1) (g w2)) ->
  alike m1 m2.
Proof.
  intros H1 H2 Hfg w1 w2 Hw. rewrite H1, H2. exact (Hfg w1 w2 Hw).
Qed.

Lemma alike_ret {A} (a : A) : alike (ret a) (ret a).
Proof. intros w1 w2 Hw. split; [reflexivity | exact Hw]. Qed.

Lemma alike_raise {A} (e : exn) : alike (@raise A e) (@raise A e).
Proof. intros w1 w2 Hw. split; [reflexivity | exact Hw]. Qed.

Lemma alike_log (l : Level) (msg : string) (a : list LogArg) :
  alike (log l msg a) (log l msg a).
Proof.
  intros w1 w2 (Ht & Hn & Hp & Hl & Hf). split; [reflexivity|].
  repeat split; cbn; congruence.
Qed.

Lemma alike_get_self : alike get_self get_self.
Proof.
  intros w1 w2 Hw. split; [|exact Hw].
  cbn. destruct Hw as (Ht & _). now rewrite Ht.
Qed.

Lemma alike_put_self (t : TokenState) : alike (put_self t) (put_self t).
Proof.
  intros w1 w2 (Ht & Hn & Hp & Hl & Hf). split; [reflexivity|].
  repeat split; cbn; congruence.
Qed.

Lemma alike_time_time : alike time_time time_time.
Proof.
  intros w1 w2 Hw. split; [|exact Hw].
  cbn. destruct Hw as (_ & Hn & _). now rewrite Hn.
Qed.

Lemma alike_py_get (v : pyval) (k : string) (d : pyval) :
  alike (py_get v k d) (py_get v k d).
Proof. destruct v; first [apply alike_ret | apply alike_raise]. Qed.

Lemma alike_loads (s : string) : alike (loads json_loads s) (loads json_loads s).
Proof.
  unfold loads. destruct (json_loads s); [apply alike_ret | apply alike_raise].
Qed.

(** The answer does not depend on what is asked: the far end is a script. *)
Lemma alike_http (q1 q2 : Request) : alike (http q1) (http q2).
Proof.
  intros w1 w2 (Ht & Hn & Hp & Hl & Hf). unfold http. rewrite Hp.
  destruct (pending w2) as [|[T [r|]] rest] eqn:E; cbn;
    (split; [reflexivity|]); repeat split; cbn; rewrite ?Hp, ?E; congruence.
Qed.

Lemma alike_bind {A B} (m1 m2 : M A) (k1 k2 : A -> M B) :
  alike m1 m2 ->
  (forall a, alike (k1 a) (k2 a)) ->
  alike (bind m1 k1) (bind m2 k2).
Proof.
  intros Hm Hk w1 w2 Hw. unfold bind.
  destruct (Hm w1 w2 Hw) as (Ho & Hw').
  destruct (m1 w1) as [[a1|e1] w1'], (m2 w2) as [[a2|e2] w2'];
    cbn in Ho, Hw'; try discriminate Ho.
  - injection Ho as <-. exact (Hk a1 w1' w2' Hw').
  - injection Ho as <-. split; [reflexivity | exact Hw'].
Qed.

Lemma alike_try_except {A} (m1 m2 : M A) (h : exn -> option (M A)) :
  alike m1 m2 ->
  (forall e k, h e = Some k -> alike k k) ->
  alike (try_except m1 h) (try_except m2 h).
Proof.
  intros Hm Hh w1 w2 Hw. unfold try_except.
  destruct (Hm w1 w2 Hw) as (Ho & Hw').
  destruct (m1 w1) as [[a1|e1] w1'], (m2 w2) as [[a2|e2] w2'];
    cbn in Ho, Hw'; try discriminate Ho.
  - injection Ho as <-. split; [reflexivity | exact Hw'].
  - injection Ho as <-. destruct (h e1) as [k|] eqn:Ek.
    + exact (Hh e1 k Ek w1' w2' Hw').
    + split; [reflexivity | exact Hw'].
Qed.

Create HintDb alike.
#[local] Hint Resolve @alike_ret @alike_raise alike_log alike_get_self
  alike_put_self alike_time_time alike_py_get alike_loads alike_http : alike.

(** Splits a goal [alike m1 m2] along the common shape of [m1] and [m2]. *)
Ltac alike :=
  repeat first
    [ solve [auto with alike]
    | apply alike_bind; [|intros ?]
    | apply alike_try_except; [|intros ? ? ?]
    | match goal with
      | |- alike (if ?b then _ else _) _ => destruct b
      | |- alike (match ?x with _ => _ end) _ => destruct x
      | H : match ?e with _ => _ end = Some _ |- _ =>
          destruct e; try discriminate H
      | H : Some _ = Some _ |- _ => injection H as <-
      end ].

Lemma alike_exchange_code (code : string) :
  alike (exchange_code json_loads code) (exchange_code json_loads code).
Proof.
  unfold exchange_code, resp_json, _update_tokens. alike.
Qed.

Lemma alike_code_of (loc : string) :
  alike (code_of urlparse_query parse_qs loc)
        (code_of urlparse_query parse_qs loc).
Proof. intros w1 w2 Hw. split; [reflexivity | exact Hw]. Qed.

Lemma alike_follow_redirects (hops : nat) (u : string) :
  alike (follow_redirects urlparse_query parse_qs
    hops u) (follow_redirects urlparse_query parse_qs hops u).
Proof.
  revert u. induction hops as [|n IH]; intros u;
    rewrite ?follow_redirects_zero, ?follow_redirects_succ.
  - auto with alike.
  - apply alike_bind; [auto with alike | intros resp].
    destruct (is_redirect _); [|auto with alike].
    destruct (location resp) as [loc|]; [|auto with alike].
    destruct (loc =? "")%string; [auto with alike|].
    destruct (carries_code loc); [|apply IH].
    apply alike_bind; [auto with alike | intros _].
    apply alike_bind; [apply alike_code_of | intros c; auto with alike].
Qed.

Lemma alike_capture (u : string) :
  alike (capture_code_and_exchange json_loads urlparse_query parse_qs u)
        (capture_code_and_exchange json_loads urlparse_query parse_qs u).
Proof.
  unfold capture_code_and_exchange.
  apply alike_bind; [apply alike_follow_redirects | intros [c|]].
  - destruct (c =? "")%string; [auto with alike|].
    apply alike_bind; [auto with alike | intros _; apply alike_exchange_code].
  - auto with alike.
Qed.

Lemma alike_check_login_response (r : Response) :
  alike (check_login_response json_loads py_repr r)
        (check_login_response json_loads py_repr r).
Proof. unfold check_login_response. alike. Qed.

(** X7.  The credentials reach nothing but the request that posts them.
    Two logins in the same world, with any two pairs of email and password,
    end in the same way, log the same records and leave the same token
    state, clock and files: neither the email nor the password is written
    to the log or kept in the object. *)
Theorem credentials_only_in_request (email1 password1 email2 password2 : pyval)
        (w : World) :
  let run1 :=
    headless_login json_loads py_repr soup_form_inputs urlparse_query parse_qs
      email1 password1 w in
  let run2 :=
    headless_login json_loads py_repr soup_form_inputs urlparse_query parse_qs
      email2 password2 w in
  fst run1 = fst run2
  /\ logged (snd run1) = logged (snd run2)
  /\ tokens (snd run1) = tokens (snd run2)
  /\ now (snd run1) = now (snd run2)
  /\ files (snd run1) = files (snd run2).
Proof.
  intros run1 run2.
  assert (H : alike
                (headless_login json_loads py_repr soup_form_inputs
                  urlparse_query parse_qs email1 password1)
                (headless_login json_loads py_repr soup_form_inputs
                  urlparse_query parse_qs email2 password2)).
  { unfold headless_login.
    apply alike_bind; [auto with alike | intros _].
    apply alike_bind; [auto with alike | intros resp].
    destruct (re_search_settings (text resp)) as [group|]; [|auto with alike].
    apply alike_bind; [alike | intros settings].
    apply alike_bind; [auto with alike | intros csrf].
    apply alike_bind; [auto with alike | intros trans].
    destruct (negb (truthy csrf) || negb (truthy trans)); [auto with alike|].
    apply alike_bind; [auto with alike | intros _].
    apply alike_bind; [apply alike_http | intros r].
    apply alike_bind; [apply alike_check_login_response | intros _].
    apply alike_bind; [auto with alike | intros _].
    apply alike_bind; [alike | intros _].
    apply alike_capture. }
  destruct (H w w (same_but_sent_refl w)) as (Ho & Ht & Hn & _ & Hl & Hf).
  unfold run1, run2. auto.
Qed.

(** ** Making an [AuthManager] *)

(** From a dict, empty or not, [__init__] takes the three entries, with
    [None], [None] and 0 for those that are missing. *)
Lemma init_dict (d : list (string * pyval)) :
  AuthManager__init__ (PDict d) =
    Ok {| attr_access_token := dict_get d "access_token" PNone;
          attr_refresh_token := dict_get d "refresh_token" PNone;
          attr_expires_at := dict_get d "expires_at" (PNum 0) |}.
Proof. destruct d; reflexivity. Qed.

(** X8.  An [AuthManager] made without token data -- from [None], from an
    empty dict, or from what [load_tokens] returns for a path that names
    nothing, cannot be opened or does not hold JSON -- is blank: no access
    token, no refresh token, expiry 0.  A blank manager is not
    authenticated and its [get_access_token] raises [DimplexAuthError]
    without sending anything, at every clock reading.  Token data that is
    neither empty nor a dict makes [__init__] raise [AttributeError]. *)
Theorem manager_without_token_data (path : string) (w : World) :
  let blank :=
    {| attr_access_token := PNone; attr_refresh_token := PNone;
       attr_expires_at := PNum 0 |} in
  AuthManager__init__ PNone = Ok blank
  /\ AuthManager__init__ (PDict []) = Ok blank
  /\ as_state blank = Some state_blank
  /\ (files w !! path = None
      \/ files w !! path = Some Directory
      \/ files w !! path = Some Denied
      \/ (exists c, files w !! path = Some (RegularFile c) /\ json_loads c = None) ->
      exists w' v,
        load_tokens json_loads path w = (Ok v, w')
        /\ AuthManager__init__ v = Ok blank)
  /\ (forall w0,
         tokens w0 = state_blank ->
         is_authenticated w0 = (Ok false, w0)
         /\ get_access_token json_loads w0 =
              (Raise (DimplexAuthError
                        "No refresh token available. User must authenticate first."),
               w0))
  /\ (forall v,
         truthy v = true -> (forall d, v <> PDict d) ->
         AuthManager__init__ v = Raise AttributeError).
Proof.
  intros blank. split; [reflexivity|]. split; [reflexivity|].
  split; [reflexivity|]. split; [|split].
  - intros [E | [E | [E | (c & E & Hc)]]].
    + rewrite (load_tokens_absent path w E). eauto.
    + rewrite load_tokens_unreadable by auto. eauto.
    + rewrite load_tokens_unreadable by auto. eauto.
    + rewrite (load_tokens_file path w c E), Hc. eauto.
  - intros w0 Ht. split.
    + rewrite is_authenticated_eq, Ht. reflexivity.
    + apply get_access_token_guard. rewrite Ht. reflexivity.
  - intros v Hv Hd. unfold AuthManager__init__, get_if_any. rewrite Hv.
    destruct v as [| | | | |d]; try reflexivity. now elim (Hd d).
Qed.

(** ** A login from end to end *)

(** Steps 1 to 3 on a good page, with what they leave behind. *)
Lemma headless_login_reaches_post (email password : pyval) (w : World) (T : Z)
      (page : Response) (rest : list Exchange) :
  pending w = answer T page :: rest ->
  good_page json_loads page ->
  exists q w1,
    headless_login json_loads py_repr soup_form_inputs urlparse_query parse_qs
      email password w =
      (let* resp := http q in
       check_login_response json_loads py_repr resp ;;
       log DEBUG "Credentials accepted. Fetching authorize URL again to get code." [] ;;
       try_except (http (GET authorize_url true) ;; ret tt)
         (fun _ => Some (ret tt)) ;;
       capture_code_and_exchange json_loads urlparse_query parse_qs
         authorize_url) w1
    /\ pending w1 = rest
    /\ sent w1 = (sent w ++ [GET authorize_url true])%list.
Proof.
  intros Hp (group & settings & Hre & Hj & Hc & Ht).
  unfold headless_login. cbv zeta.
  rewrite bind_log. cbv beta.
  erewrite bind_http_answer; [|cbn; exact Hp]. cbv beta.
  rewrite Hre.
  erewrite bind_ok; [|unfold try_except, loads; rewrite Hj; reflexivity].
  cbv beta. cbn [py_get]. repeat (rewrite bind_ret; cbv beta).
  rewrite Hc, Ht. cbn [negb orb]. rewrite bind_log. cbv beta.
  eexists _, _. split; [reflexivity|]. cbn. rewrite Hp. split; reflexivity.
Qed.


(** X23.  What a refused login says.  When the answer to the credentials
    is not JSON, [headless_login] raises [DimplexAuthError] with the first
    100 characters of the answer.  When it is a JSON object whose [status]
    is anything but the string ["200"] -- the number 200 included -- the
    error names that status and the [message] of the answer or, when that
    is missing or empty, its [reason], or else "Unknown reason".  In both
    cases two requests have been sent and the stored tokens are as they
    were. *)
Theorem login_refusal_message (email password : pyval) (w : World)
        (T0 T1 : Z) (page r : Response) (rest : list Exchange) :
  pending w = answer T0 page :: answer T1 r :: rest ->
  good_page json_loads page ->
  let refused msg :=
    exists w' q,
      headless_login json_loads py_repr soup_form_inputs urlparse_query parse_qs
        email password w =
        (Raise (DimplexAuthError msg), w')
      /\ sent w' = (sent w ++ [GET authorize_url true; q])%list
      /\ tokens w' = tokens w in
  (json_loads (text r) = None ->
   refused ("Login response was not valid JSON: " ++ slice_to 100 (text r)))
  /\ (forall j,
         json_loads (text r) = Some (PDict j) ->
         differs_from_200 (dict_get j "status" PNone) = true ->
         refused
           ("Login failed: " ++ py_str py_repr (dict_get j "status" PNone)
            ++ " - "
            ++ py_str py_repr
                 (if truthy (dict_get j "message" PNone)
                  then dict_get j "message" PNone
                  else dict_get j "reason" (PStr "Unknown reason")))).
Proof.
  intros Hp Hpage refused.
  destruct (headless_login_reaches_post email password w T0 page _ Hp Hpage)
    as (q & w1 & E & Hp1 & Hs1).
  assert (Hk : forall msg w',
             headless_login json_loads py_repr soup_form_inputs
               urlparse_query parse_qs email password w
             = (Raise (DimplexAuthError msg), w') ->
             sent w' = (sent w ++ [GET authorize_url true; q])%list ->
             refused msg).
  { intros msg w' E' Hs'. exists w', q. split; [exact E'|].
    split; [exact Hs'|].
    exact (headless_login_keeps_on_auth_error email password w msg w' E'). }
  split.
  - intros Hj. eapply Hk.
    + rewrite E. unfold bind at 1. unfold http at 1. rewrite Hp1.
      cbn [answer reply]. unfold check_login_response. step. rewrite Hj.
      cbn. reflexivity.
    + cbn. rewrite Hs1, <- app_assoc. reflexivity.
  - intros j Hj Hs. eapply Hk.
    + rewrite E. unfold bind at 1. unfold http at 1. rewrite Hp1.
      cbn [answer reply]. unfold check_login_response. step. rewrite Hj.
      cbn. rewrite Hs.
      destruct (truthy (dict_get j "message" PNone)); cbn; reflexivity.
    + destruct (truthy (dict_get j "message" PNone));
        cbn; rewrite Hs1, <- app_assoc; reflexivity.
Qed.

End Properties.

(** * The properties at work, and where the stronger readings fail *)

(** ** [get_access_token] *)



Lemma missing_refresh_token_witness :
  get_access_token Json.loads world_no_refresh
  = (Raise (DimplexAuthError
              "No refresh token available. User must authenticate first."),
     world_no_refresh)
  /\ exists out w',
      refresh_tokens Json.loads world_no_refresh = (out, w')
      /\ sent w' = [refresh_request state_no_refresh].
Proof. exact (missing_refresh_token Json.loads world_no_refresh eq_refl). Defined.

(** [refresh_tokens] on a state without refresh token: the request goes
    out all the same, and with a willing server the call succeeds. *)
Lemma refresh_tokens_without_refresh_token_posts :
  _refresh_token (tokens world_no_refresh) = PNone
  /\ exists w',
      refresh_tokens Json.loads world_no_refresh = (Ok tt, w')
      /\ sent w' = [refresh_request state_no_refresh]
      /\ pending w' = [].
Proof.
  split; [reflexivity|]. eexists. split; [vm_compute; reflexivity|].
  split; reflexivity.
Qed.

(** ** The token endpoint *)

Lemma token_response_sets_state_witness :
  (exists w', refresh_tokens Json.loads world_200 = (Ok tt, w')
              /\ tokens w' = {| _access_token := PStr "A";
                                _refresh_token := PStr "B";
                                _expires_at := 2000 + 3600 - 60 |}
              /\ now w' = 2000)
  /\ (exists w', exchange_code Json.loads "XYZ123" world_200 = (Ok tt, w')
                 /\ tokens w' = {| _access_token := PStr "A";
                                   _refresh_token := PStr "B";
                                   _expires_at := 2000 + 3600 - 60 |}
                 /\ now w' = 2000).
Proof.
  assert (Hj : Json.loads (text (token_response 200 body_A_B_3600))
               = Some (PDict [("access_token", PStr "A");
                              ("refresh_token", PStr "B");
                              ("expires_in", PNum 3600)]))
    by (vm_compute; reflexivity).
  exact (token_response_sets_state Json.loads "XYZ123" world_200 2000
           (token_response 200 body_A_B_3600) [] _ "A" "B"
           eq_refl eq_refl Hj eq_refl eq_refl (or_introl eq_refl)).
Defined.

(** Status 201 is a 2xx status, and the same body is then refused: the
    tokens stay what they were. *)
Lemma token_response_201_is_refused :
  200 <= status (token_response 201 body_A_B_3600) < 300
  /\ Json.loads (text (token_response 201 body_A_B_3600))
     = Some (PDict [("access_token", PStr "A"); ("refresh_token", PStr "B");
                    ("expires_in", PNum 3600)])
  /\ (exists msg w',
         exchange_code Json.loads "XYZ123" world_201
         = (Raise (DimplexAuthError msg), w')
         /\ tokens w' = state_old)
  /\ (exists msg w',
         refresh_tokens Json.loads world_201
         = (Raise (DimplexAuthError msg), w')
         /\ tokens w' = state_old).
Proof.
  split; [cbn; lia|]. split; [vm_compute; reflexivity|].
  split; eexists _, _; (split; [vm_compute; reflexivity | reflexivity]).
Qed.



Lemma token_endpoint_rejection_witness :
  (exists msg w',
      refresh_tokens Json.loads world_400 = (Raise (DimplexAuthError msg), w')
      /\ contains (dec 400) msg = true
      /\ contains body_invalid_grant msg = true
      /\ tokens w' = state_old)
  /\ (exists msg w',
         exchange_code Json.loads "XYZ123" world_400
         = (Raise (DimplexAuthError msg), w')
         /\ contains body_invalid_grant msg = true
         /\ tokens w' = state_old).
Proof.
  assert (Hs : status (token_response 400 body_invalid_grant) <> 200)
    by discriminate.
  exact (token_endpoint_rejection Json.loads "XYZ123" world_400 2000
           (token_response 400 body_invalid_grant) [] eq_refl Hs).
Defined.

(** The error of [exchange_code] is made of the body alone: on a 400 the
    digits of the status are nowhere in it. *)
Lemma exchange_code_error_lacks_status :
  status (token_response 400 body_invalid_grant) = 400
  /\ exists w',
      exchange_code Json.loads "XYZ123" world_400
      = (Raise (DimplexAuthError
                  ("Failed to exchange code: " ++ body_invalid_grant)), w')
      /\ contains (dec 400) ("Failed to exchange code: " ++ body_invalid_grant)
         = false.
Proof.
  split; [reflexivity|]. eexists. split; vm_compute; reflexivity.
Qed.

(** ** Persistence *)

Lemma load_tokens_recovers_witness :
  load_tokens Json.loads "missing.json" world_files = (Ok PNone, world_files)
  /\ load_tokens Json.loads "broken.json" world_files
     = (Ok PNone,
        add_log {| level := ERROR;
                   message := "Failed to load tokens from %s: %s";
                   args := [ArgStr "broken.json"; ArgExc JSONDecodeError] |}
          world_files)
  /\ load_tokens Json.loads "tokens.d" world_files
     = (Ok PNone,
        add_log {| level := ERROR;
                   message := "Failed to load tokens from %s: %s";
                   args := [ArgStr "tokens.d"; ArgExc OSError] |}
          world_files).
Proof.
  assert (H1 : files world_files !! "missing.json" = None)
    by (vm_compute; reflexivity).
  assert (H2 : files world_files !! "broken.json"
               = Some (RegularFile "access_token=abc"))
    by (vm_compute; reflexivity).
  assert (H3 : Json.loads "access_token=abc" = None)
    by (vm_compute; reflexivity).
  assert (H4 : files world_files !! "tokens.d" = Some Directory)
    by (vm_compute; reflexivity).
  split; [|split].
  - exact (proj1 (load_tokens_recovers Json.loads "missing.json" world_files) H1).
  - exact (proj1 (proj2 (load_tokens_recovers Json.loads "broken.json"
                           world_files)) _ H2 H3).
  - exact (proj1 (proj2 (proj2 (load_tokens_recovers Json.loads "tokens.d"
                                  world_files))) (or_introl H4)).
Defined.

(** C9.  For every token state, whatever its access token, refresh token
    and [expires_at], and every path that can be written (one that names
    neither a directory nor an entry that [open] refuses): [save_tokens]
    returns normally, leaving at the path the document that [json.dump]
    makes of the three values and the state itself untouched; and a
    [load_tokens] of that path, in whatever world the path names that file
    -- the object that saved or any other, with any tokens of its own, at
    any time -- returns what [json.load] makes of that document and changes
    nothing.  So whenever [json.load] reads back the document that
    [json.dump] wrote, the dict returned holds under access_token,
    refresh_token and expires_at the very values that were saved. *)
Theorem save_then_load (json_loads : string -> option pyval)
        (json_dumps : pyval -> string) (path : string) (w : World) :
  files w !! path <> Some Directory ->
  files w !! path <> Some Denied ->
  let blob :=
    token_blob (_access_token (tokens w)) (_refresh_token (tokens w))
      (_expires_at (tokens w)) in
  exists w1,
    save_tokens json_dumps path w = (Ok tt, w1)
    /\ files w1 !! path = Some (RegularFile (json_dumps blob))
    /\ tokens w1 = tokens w
    /\ forall w2,
        files w2 !! path = files w1 !! path ->
        (forall v,
            json_loads (json_dumps blob) = Some v ->
            load_tokens json_loads path w2 = (Ok v, w2))
        /\ (json_loads (json_dumps blob) = Some blob ->
            exists d,
              load_tokens json_loads path w2 = (Ok (PDict d), w2)
              /\ dict_get d "access_token" PNone = _access_token (tokens w)
              /\ dict_get d "refresh_token" PNone = _refresh_token (tokens w)
              /\ dict_get d "expires_at" (PNum 0)
                 = PNum (_expires_at (tokens w))).
Proof.
  intros Hd Hn blob.
  destruct (save_then_load_anywhere json_loads json_dumps path w Hd Hn)
    as (w1 & Es & Hf & Ht & Hl).
  exists w1. split; [exact Es|]. split; [exact Hf|]. split; [exact Ht|].
  intros w2 Hw2. split.
  - intros v Hj. exact (Hl w2 v Hw2 Hj).
  - intros Hj. eexists. split; [exact (Hl w2 _ Hw2 Hj)|].
    repeat split.
Qed.

(** A state is saved by one object and loaded in the world of another,
    blank and at a later time, which holds the file; and a file that was
    not JSON is replaced by the save. *)
Lemma save_then_load_witness :
  (exists w1,
      save_tokens Json.dumps "dimplex_tokens.json" world_no_refresh = (Ok tt, w1)
      /\ tokens w1 = state_no_refresh
      /\ exists d,
          load_tokens Json.loads "dimplex_tokens.json"
            (set_now 5000 (set_files (files w1) (world_of state_blank [])))
          = (Ok (PDict d),
             set_now 5000 (set_files (files w1) (world_of state_blank [])))
          /\ dict_get d "access_token" PNone = PStr "cached_token"
          /\ dict_get d "refresh_token" PNone = PNone
          /\ dict_get d "expires_at" (PNum 0) = PNum 9999999999)
  /\ (exists w1 d,
         save_tokens Json.dumps "broken.json" world_files = (Ok tt, w1)
         /\ load_tokens Json.loads "broken.json" w1 = (Ok (PDict d), w1)
         /\ dict_get d "access_token" PNone = PStr "old_access"
         /\ dict_get d "refresh_token" PNone = PStr "old_refresh"
         /\ dict_get d "expires_at" (PNum 0) = PNum 5000).
Proof.
  assert (F1 : files world_files !! "broken.json" <> Some Directory)
    by (vm_compute; discriminate).
  assert (F2 : files world_files !! "broken.json" <> Some Denied)
    by (vm_compute; discriminate).
  assert (H1 : files world_no_refresh !! "dimplex_tokens.json" <> Some Directory)
    by (vm_compute; discriminate).
  assert (H2 : files world_no_refresh !! "dimplex_tokens.json" <> Some Denied)
    by (vm_compute; discriminate).
  assert (H3 : Json.loads
                 (Json.dumps (token_blob (PStr "cached_token") PNone 9999999999))
               = Some (token_blob (PStr "cached_token") PNone 9999999999))
    by (apply loads_dumps_token_blob; reflexivity).
  assert (H4 : Json.loads
                 (Json.dumps
                    (token_blob (PStr "old_access") (PStr "old_refresh") 5000))
               = Some (token_blob (PStr "old_access") (PStr "old_refresh") 5000))
    by (apply loads_dumps_token_blob; reflexivity).
  split.
  - destruct (save_then_load Json.loads Json.dumps "dimplex_tokens.json"
                world_no_refresh H1 H2) as (w1 & Es & _ & Ht & Hl).
    exists w1. split; [exact Es|]. split; [exact Ht|].
    exact (proj2 (Hl (set_now 5000 (set_files (files w1) (world_of state_blank [])))
                    eq_refl) H3).
  - destruct (save_then_load Json.loads Json.dumps "broken.json" world_files
                F1 F2) as (w1 & Es & _ & _ & Hl).
    destruct (proj2 (Hl w1 eq_refl) H4) as (d & E & H).
    exists w1, d. split; [exact Es|]. split; [exact E | exact H].
Defined.

(** ** The redirect chain *)

Lemma redirect_chain_code_witness :
  (exists w3,
      capture_code_and_exchange Json.loads Urllib.urlparse_query Urllib.parse_qs
        authorize_url world_chain_with_code
      = exchange_code Json.loads "XYZ123" w3
      /\ sent w3 = [GET authorize_url false;
                    GET "https://login.example/step1" false;
                    GET "https://login.example/step2" false]
      /\ pending w3 = [answer 1007 (token_response 200 body_A_B_3600)]
      /\ tokens w3 = state_old
      /\ exists out w',
          capture_code_and_exchange Json.loads Urllib.urlparse_query
            Urllib.parse_qs authorize_url world_chain_with_code = (out, w')
          /\ sent w' = (sent w3 ++ [exchange_request "XYZ123"])%list)
  /\ (exists w',
         capture_code_and_exchange Json.loads Urllib.urlparse_query
           Urllib.parse_qs authorize_url world_chain_bad_host
         = (Raise ValueError, w')
         /\ sent w' = [GET authorize_url false;
                       GET "https://login.example/step1" false]
         /\ tokens w' = state_old)
  /\ (exists w',
         capture_code_and_exchange Json.loads Urllib.urlparse_query
           Urllib.parse_qs authorize_url world_chain_no_location
         = (Raise (DimplexAuthError NO_CODE), w')
         /\ tokens w' = state_old)
  /\ (exists w',
         capture_code_and_exchange Json.loads Urllib.urlparse_query
           Urllib.parse_qs authorize_url world_chain_too_long
         = (Raise (DimplexAuthError NO_CODE), w')
         /\ tokens w' = state_old)
  /\ (exists w',
         capture_code_and_exchange Json.loads Urllib.urlparse_query
           Urllib.parse_qs authorize_url world_chain_relative
         = (Raise ClientError, w')
         /\ sent w' = [GET authorize_url false; GET "/next" false]
         /\ tokens w' = state_old).
Proof.
  assert (P1 : plain_hop (redirect_to "https://login.example/step1") = true)
    by (vm_compute; reflexivity).
  assert (P2 : plain_hop (redirect_to "https://login.example/step2") = true)
    by (vm_compute; reflexivity).
  assert (P3 : plain_hop (redirect_to "https://login.example/again") = true)
    by (vm_compute; reflexivity).
  assert (P4 : plain_hop (redirect_to "/next") = true)
    by (vm_compute; reflexivity).
  assert (Hm : carries_code (REDIRECT_URI ++ "?code=XYZ123") = true)
    by (vm_compute; reflexivity).
  assert (Hc : query_code Urllib.urlparse_query Urllib.parse_qs
                 (REDIRECT_URI ++ "?code=XYZ123") = Ok "XYZ123")
    by (vm_compute; reflexivity).
  assert (Hb : carries_code "http://[bad?code=XYZ123" = true)
    by (vm_compute; reflexivity).
  assert (Hv : Urllib.urlparse_query "http://[bad?code=XYZ123" = None)
    by (vm_compute; reflexivity).
  assert (Hd : dead_end Urllib.urlparse_query Urllib.parse_qs redirect_nowhere
               = true) by (vm_compute; reflexivity).
  assert (Hne : "XYZ123" <> "") by discriminate.
  assert (H2 : Forall (fun x => plain_hop (snd x) = true) two_plain_hops)
    by (constructor; [exact P1 | constructor; [exact P2 | constructor]]).
  assert (H1 : Forall (fun x => plain_hop (snd x) = true) one_plain_hop)
    by (constructor; [exact P1 | constructor]).
  assert (H10 : Forall (fun x => plain_hop (snd x) = true) ten_plain_hops)
    by (repeat (constructor; [exact P3|]); constructor).
  assert (Hr : Forall (fun x => plain_hop (snd x) = true)
                 [(1004, redirect_to "/next")])
    by (constructor; [exact P4 | constructor]).
  assert (L2 : (length two_plain_hops < 10)%nat) by (cbn; lia).
  assert (L1 : (length one_plain_hop < 10)%nat) by (cbn; lia).
  split; [|split; [|split; [|split]]].
  - exact (proj1 (proj1 (redirect_chain_code Json.loads Urllib.urlparse_query
                           Urllib.parse_qs authorize_url world_chain_with_code
                           two_plain_hops _ H2 eq_refl)
                    1006 _ _ _ L2 eq_refl eq_refl eq_refl Hm)
             "XYZ123" Hc Hne).
  - exact (proj2 (proj1 (redirect_chain_code Json.loads Urllib.urlparse_query
                           Urllib.parse_qs authorize_url world_chain_bad_host
                           one_plain_hop _ H1 eq_refl)
                    1005 _ _ _ L1 eq_refl eq_refl eq_refl Hb)
             Hv).
  - refine (proj1 (proj2 (redirect_chain_code Json.loads Urllib.urlparse_query
                            Urllib.parse_qs authorize_url
                            world_chain_no_location
                            one_plain_hop [answer 1005 redirect_nowhere]
                            H1 eq_refl)) _).
    right. split; [exact L1|]. exists 1005, redirect_nowhere, []. split;
      [reflexivity | exact Hd].
  - exact (proj1 (proj2 (redirect_chain_code Json.loads Urllib.urlparse_query
                           Urllib.parse_qs authorize_url world_chain_too_long
                           ten_plain_hops chain_with_code H10 eq_refl))
             (or_introl eq_refl)).
  - refine (proj2 (proj2 (redirect_chain_code Json.loads Urllib.urlparse_query
                            Urllib.parse_qs authorize_url world_chain_relative
                            [(1004, redirect_to "/next")] _ Hr eq_refl))
              _ eq_refl).
    cbn. lia.
Defined.

(** Where the reading of C6 for every chain fails.  (1) The third redirect
    of the chain leads to the application with [code=XYZ123] in its query,
    but the Location of the second holds [code=] as the tail of another
    parameter: the loop stops there, finds no [code], and the phase raises
    [DimplexAuthError] after two GETs, without any exchange.  (2) A chain
    that gives no code, its one redirect leading to a relative Location
    that the session cannot fetch: the phase raises aiohttp's
    [ClientError], not [DimplexAuthError]. *)
Lemma redirect_chain_stops_at_first_mark :
  (Forall (fun x => match reply x with
                    | Answer r => status r = 302
                    | Fails => False
                    end) (firstn 3 chain_early_mark)
   /\ nth_error chain_early_mark 2
      = Some (answer 1006 (redirect_to (REDIRECT_URI ++ "?code=XYZ123")))
   /\ Urllib.urlparse_query (REDIRECT_URI ++ "?code=XYZ123") = Some "code=XYZ123"
   /\ exists w',
       capture_code_and_exchange Json.loads Urllib.urlparse_query
         Urllib.parse_qs authorize_url (world_of state_old chain_early_mark)
       = (Raise (DimplexAuthError NO_CODE), w')
       /\ sent w' = [GET authorize_url false;
                     GET "https://login.example/step1" false])
  /\ (pending world_chain_relative
      = [answer 1004 (redirect_to "/next");
         {| arrives_at := 1005; reply := Fails |}]
      /\ exists w',
          capture_code_and_exchange Json.loads Urllib.urlparse_query
            Urllib.parse_qs authorize_url world_chain_relative
          = (Raise ClientError, w')).
Proof.
  split.
  - split; [repeat constructor|]. split; [reflexivity|].
    split; [vm_compute; reflexivity|].
    eexists. split; [vm_compute; reflexivity | reflexivity].
  - split; [reflexivity|]. eexists. vm_compute. reflexivity.
Qed.

(** ** [headless_login] *)

Lemma login_page_is_good : good_page Json.loads login_page.
Proof.
  eexists _, _. split; [vm_compute; reflexivity|].
  split; [vm_compute; reflexivity|]. split; reflexivity.
Qed.




(** A whole run: page, credentials, three redirects, the code, the
    tokens. *)
Example headless_login_succeeds :
  exists w',
    headless_login Json.loads repr_any no_form_inputs
      Urllib.urlparse_query Urllib.parse_qs
      (PStr "user@example.org") (PStr "secret") world_login = (Ok tt, w')
    /\ tokens w' = {| _access_token := PStr "A"; _refresh_token := PStr "B";
                      _expires_at := 1007 + 3600 - 60 |}
    /\ nth_error (sent w') 6 = Some (exchange_request "XYZ123")
    /\ length (sent w') = 7%nat.
Proof.
  eexists. split; [vm_compute; reflexivity|]. repeat split.
Qed.

(** The tests of the repository, [tests/test_auth.py], on the model. *)
Example test_get_access_token_cached :
  fst (get_access_token Json.loads
         (world_of {| _access_token := PStr "cached_token";
                      _refresh_token := PStr "valid_refresh";
                      _expires_at := 9999999999 |} []))
  = Ok (PStr "cached_token").
Proof. reflexivity. Qed.

Example test_get_access_token_no_refresh_token :
  fst (get_access_token Json.loads
         (world_of {| _access_token := PNone; _refresh_token := PNone;
                      _expires_at := 0 |} []))
  = Raise (DimplexAuthError
             "No refresh token available. User must authenticate first.").
Proof. reflexivity. Qed.

Example test_get_access_token_expired_refreshes :
  fst (get_access_token Json.loads world_expired) = Ok (PStr "A").
Proof. vm_compute. reflexivity. Qed.

Example test_is_authenticated_false_expired :
  fst (is_authenticated (world_of state_expired [])) = Ok false.
Proof. reflexivity. Qed.

(** * The token life cycle: the further properties at work *)

(** X9.  A saved session is restored as it was.  After [save_tokens] has
    written the file, [AuthManager(session, AuthManager.load_tokens(path))]
    made in any world where the path names that file -- by another object,
    with other tokens, at another time -- has the access token, the
    refresh token and the expiry of the object that was saved, whenever
    [json.load] reads back the document that [json.dump] wrote for that
    state. *)
Theorem restore_saved_session (json_loads : string -> option pyval)
        (json_dumps : pyval -> string) (path : string) (w : World) :
  files w !! path <> Some Directory ->
  files w !! path <> Some Denied ->
  let blob :=
    token_blob (_access_token (tokens w)) (_refresh_token (tokens w))
      (_expires_at (tokens w)) in
  json_loads (json_dumps blob) = Some blob ->
  exists w1,
    save_tokens json_dumps path w = (Ok tt, w1)
    /\ forall w2,
        files w2 !! path = files w1 !! path ->
        exists a,
          load_tokens json_loads path w2 = (Ok blob, w2)
          /\ AuthManager__init__ blob = Ok a
          /\ as_state a = Some (tokens w).
Proof.
  intros Hd Hn blob Hj.
  destruct (save_then_load_anywhere json_loads json_dumps path w Hd Hn)
    as (w1 & Es & _ & _ & Hl).
  exists w1. split; [exact Es|]. intros w2 Hw2. eexists.
  split; [exact (Hl w2 _ Hw2 Hj)|]. split; [apply init_dict|].
  unfold as_state. cbn. destruct (tokens w); reflexivity.
Qed.

Lemma token_endpoint_unreachable_witness :
  (exists w',
      refresh_tokens Json.loads world_unreachable = (Raise ClientError, w')
      /\ tokens w' = state_expired
      /\ sent w' = [refresh_request state_expired])
  /\ (exists w',
         exchange_code Json.loads "XYZ123" world_unreachable
         = (Raise ClientError, w')
         /\ tokens w' = state_expired
         /\ sent w' = [exchange_request "XYZ123"])
  /\ (exists w',
         get_access_token Json.loads world_unreachable = (Raise ClientError, w')
         /\ tokens w' = state_expired
         /\ sent w' = [refresh_request state_expired]).
Proof.
  destruct (token_endpoint_unreachable Json.loads "XYZ123" world_unreachable
              eq_refl) as (A & B & C).
  split; [exact A|]. split; [exact B|].
  apply C; [reflexivity | right; cbn; lia].
Defined.

Lemma token_answer_not_an_object_witness :
  (exists w',
      refresh_tokens Json.loads world_200_list = (Raise AttributeError, w')
      /\ tokens w' = state_old)
  /\ (exists w',
         exchange_code Json.loads "XYZ123" world_200_list
         = (Raise AttributeError, w')
         /\ tokens w' = state_old).
Proof.
  assert (Hj : Json.loads (text (token_response 200 body_list))
               = Some (PList [PNum 1])) by (vm_compute; reflexivity).
  assert (Hv : forall d, PList [PNum 1] <> PDict d) by discriminate.
  exact (token_answer_not_an_object Json.loads "XYZ123" world_200_list 2000
           (token_response 200 body_list) [] (PList [PNum 1])
           eq_refl eq_refl Hj Hv).
Defined.



Lemma save_tokens_writes_one_file_witness :
  save_tokens Json.dumps "tokens.d" world_files = (Raise OSError, world_files)
  /\ exists w',
      save_tokens Json.dumps "broken.json" world_files = (Ok tt, w')
      /\ files w' !! "broken.json"
         = Some (RegularFile
                   (Json.dumps
                      (token_blob (PStr "old_access") (PStr "old_refresh") 5000)))
      /\ files w' !! "tokens.d" = Some Directory
      /\ tokens w' = state_old.
Proof.
  assert (F0 : files world_files !! "tokens.d" = Some Directory)
    by (vm_compute; reflexivity).
  assert (F1 : files world_files !! "broken.json" <> Some Directory)
    by (vm_compute; discriminate).
  assert (F2 : files world_files !! "broken.json" <> Some Denied)
    by (vm_compute; discriminate).
  split.
  - exact (proj1 (save_tokens_writes_one_file Json.dumps "tokens.d" world_files)
             (or_introl F0)).
  - destruct (proj2 (save_tokens_writes_one_file Json.dumps "broken.json"
                       world_files) F1 F2)
      as (w' & E & Hf & Ho & Ht & _).
    exists w'. split; [exact E|]. split; [exact Hf|].
    split; [|exact Ht].
    rewrite (Ho "tokens.d") by discriminate. exact F0.
Defined.

Lemma manager_without_token_data_witness :
  (exists w' v,
      load_tokens Json.loads "broken.json" world_files = (Ok v, w')
      /\ AuthManager__init__ v
         = Ok {| attr_access_token := PNone; attr_refresh_token := PNone;
                 attr_expires_at := PNum 0 |})
  /\ get_access_token Json.loads (world_of state_blank []) =
       (Raise (DimplexAuthError
                 "No refresh token available. User must authenticate first."),
        world_of state_blank [])
  /\ AuthManager__init__ (PList [PNum 1]) = Raise AttributeError.
Proof.
  destruct (manager_without_token_data Json.loads "broken.json" world_files)
    as (_ & _ & _ & Hload & Hblank & Hbad).
  split; [|split].
  - apply Hload. right. right. right. exists "access_token=abc".
    split; vm_compute; reflexivity.
  - exact (proj2 (Hblank (world_of state_blank []) eq_refl)).
  - apply Hbad; [reflexivity | discriminate].
Defined.

Lemma restore_saved_session_witness :
  exists w1,
    save_tokens Json.dumps "dimplex_tokens.json" world_no_refresh = (Ok tt, w1)
    /\ exists v a,
        load_tokens Json.loads "dimplex_tokens.json"
          (set_now 5000 (set_files (files w1) (world_of state_blank [])))
        = (Ok v, set_now 5000 (set_files (files w1) (world_of state_blank [])))
        /\ AuthManager__init__ v = Ok a
        /\ as_state a = Some state_no_refresh.
Proof.
  assert (H1 : files world_no_refresh !! "dimplex_tokens.json" <> Some Directory)
    by (vm_compute; discriminate).
  assert (H2 : files world_no_refresh !! "dimplex_tokens.json" <> Some Denied)
    by (vm_compute; discriminate).
  assert (H3 : Json.loads
                 (Json.dumps (token_blob (PStr "cached_token") PNone 9999999999))
               = Some (token_blob (PStr "cached_token") PNone 9999999999))
    by (apply loads_dumps_token_blob; reflexivity).
  destruct (restore_saved_session Json.loads Json.dumps "dimplex_tokens.json"
              world_no_refresh H1 H2 H3) as (w1 & Es & Hl).
  exists w1. split; [exact Es|].
  destruct (Hl (set_now 5000 (set_files (files w1) (world_of state_blank [])))
              eq_refl) as (a & El & Hi & Ha).
  eexists _, a. split; [exact El|]. split; [exact Hi | exact Ha].
Defined.

(** * Query strings, times of day and the client *)

(** ** Query strings *)

Lemma unquote_unfold (c : ascii) (rest : string) :
  unquote (String c rest) =
    match rest with
    | String h (String l rest') =>
        match Ascii.eqb c "%", hex_value h, hex_value l with
        | true, Some a, Some b =>
            String (ascii_of_nat (16 * a + b)) (unquote rest')
        | _, _, _ => String c (unquote rest)
        end
    | _ => String c (unquote rest)
    end.
Proof. destruct rest as [|h [|l rest']]; reflexivity. Qed.

Lemma unquote_other (c : ascii) (rest : string) :
  Ascii.eqb c "%" = false -> unquote (String c rest) = String c (unquote rest).
Proof.
  intros E. rewrite unquote_unfold, E.
  destruct rest as [|h [|l rest']]; reflexivity.
Qed.

Lemma unquote_escape (h l : ascii) (a b : nat) (rest : string) :
  hex_value h = Some a -> hex_value l = Some b ->
  unquote (String "%" (String h (String l rest))) =
    String (ascii_of_nat (16 * a + b)) (unquote rest).
Proof. intros Ha Hb. rewrite unquote_unfold, Ha, Hb. reflexivity. Qed.

Lemma hex_upper_value (n : nat) :
  (n < 16)%nat ->
  hex_value (hex_upper n) = Some n /\ Ascii.eqb (hex_upper n) "+" = false
  /\ unreserved (hex_upper n) = true.
Proof.
  intros Hn. do 16 (destruct n as [|n]; [vm_compute; auto|]). lia.
Qed.

Lemma unreserved_plain (c : ascii) :
  unreserved c = true ->
  Ascii.eqb c "+" = false /\ Ascii.eqb c "%" = false /\ Ascii.eqb c " " = false.
Proof.
  destruct c as [[] [] [] [] [] [] [] []]; vm_compute; intros H;
    first [discriminate H | auto].
Qed.

Lemma ascii_of_hex (c : ascii) :
  ascii_of_nat (16 * (nat_of_ascii c / 16) + nat_of_ascii c mod 16) = c.
Proof.
  rewrite <- (Nat.div_mod_eq (nat_of_ascii c) 16). apply ascii_nat_embedding.
Qed.

Lemma unquote_quote_plus (s : string) :
  unquote (plus_to_space (quote_plus s)) = s.
Proof.
  induction s as [|c s IH]; [reflexivity|].
  cbn [quote_plus]. destruct (Ascii.eqb c " ") eqn:Es.
  - apply Ascii.eqb_eq in Es. subst c. cbn [plus_to_space].
    change (Ascii.eqb "+" "+") with true. cbv iota.
    rewrite unquote_other by reflexivity. now rewrite IH.
  - destruct (unreserved c) eqn:Eu.
    + destruct (unreserved_plain c Eu) as (Hp & Hq & _).
      cbn [plus_to_space]. rewrite Hp, unquote_other by exact Hq.
      now rewrite IH.
    + assert (Hb : (nat_of_ascii c < 256)%nat) by apply nat_ascii_bounded.
      assert (H1 : (nat_of_ascii c / 16 < 16)%nat)
        by (apply Nat.Div0.div_lt_upper_bound; lia).
      assert (H2 : (nat_of_ascii c mod 16 < 16)%nat)
        by (apply Nat.mod_upper_bound; lia).
      destruct (hex_upper_value _ H1) as (V1 & P1 & _).
      destruct (hex_upper_value _ H2) as (V2 & P2 & _).
      cbv zeta. cbn [plus_to_space].
      change (Ascii.eqb "%" "+") with false. cbv iota.
      rewrite P1, P2, (unquote_escape _ _ _ _ _ V1 V2), ascii_of_hex.
      now rewrite IH.
Qed.

Lemma quote_plus_safe (s : string) : all_chars query_safe (quote_plus s) = true.
Proof.
  induction s as [|c s IH]; [reflexivity|].
  cbn [quote_plus]. destruct (Ascii.eqb c " ").
  - cbn [all_chars]. rewrite IH. reflexivity.
  - destruct (unreserved c) eqn:Eu.
    + cbn [all_chars]. unfold query_safe at 1. rewrite Eu, IH. reflexivity.
    + assert (Hb : (nat_of_ascii c < 256)%nat) by apply nat_ascii_bounded.
      assert (H1 : (nat_of_ascii c / 16 < 16)%nat)
        by (apply Nat.Div0.div_lt_upper_bound; lia).
      assert (H2 : (nat_of_ascii c mod 16 < 16)%nat)
        by (apply Nat.mod_upper_bound; lia).
      destruct (hex_upper_value _ H1) as (_ & _ & U1).
      destruct (hex_upper_value _ H2) as (_ & _ & U2).
      cbv zeta. cbn [all_chars]. unfold query_safe at 2 3. rewrite U1, U2, IH.
      reflexivity.
Qed.

Lemma all_chars_lacks (p : ascii -> bool) (c : ascii) (s : string) :
  all_chars p s = true -> p c = false -> contains (String c "") s = false.
Proof.
  intros Hs Hc. induction s as [|a s IH]; [reflexivity|].
  cbn [all_chars] in Hs. apply andb_prop in Hs as [Ha Hs].
  rewrite contains_unfold, prefix_char_ne, (IH Hs); [reflexivity|].
  intros ->. congruence.
Qed.

Lemma all_chars_app (p : ascii -> bool) (a b : string) :
  all_chars p (a ++ b) = all_chars p a && all_chars p b.
Proof.
  induction a as [|c a IH]; [reflexivity|].
  change (String c a ++ b) with (String c (a ++ b)). cbn [all_chars].
  rewrite IH. apply andb_assoc.
Qed.
Lemma after_first_unfold (sep s : string) :
  after_first sep s =
    if String.prefix sep s
    then Some (String.substring (String.length sep) (String.length s) s)
    else match s with
         | EmptyString => None
         | String _ rest => after_first sep rest
         end.
Proof. destruct s; reflexivity. Qed.

Lemma after_first_here (sep s : string) : after_first sep (sep ++ s) = Some s.
Proof.
  rewrite after_first_unfold, prefix_app. f_equal.
  apply substring_skip. rewrite length_append. lia.
Qed.

Lemma before_first_here (sep s : string) :
  sep <> "" -> before_first sep (sep ++ s) = "".
Proof.
  destruct sep as [|c sep]; [congruence|]. intros _.
  change (String c sep ++ s) with (String c (sep ++ s)).
  cbn [before_first].
  change (String c (sep ++ s)) with (String c sep ++ s).
  now rewrite prefix_app.
Qed.

Lemma before_first_lacks (c : ascii) (s : string) :
  contains (String c "") s = false -> before_first (String c "") s = s.
Proof.
  intros H. rewrite <- (append_empty_r s) at 1.
  rewrite (before_first_app c s "" H). cbn. apply append_empty_r.
Qed.

Lemma remove_unsafe_safe (s : string) :
  all_chars query_char s = true -> remove_unsafe s = s.
Proof.
  induction s as [|c s IH]; [reflexivity|].
  cbn [all_chars remove_unsafe]. intros H. apply andb_prop in H as [Hc Hs].
  unfold query_char in Hc. apply negb_true_iff, orb_false_elim in Hc as [Hc _].
  now rewrite Hc, (IH Hs).
Qed.

Lemma all_chars_impl (p q : ascii -> bool) (s : string) :
  (forall c, p c = true -> q c = true) ->
  all_chars p s = true -> all_chars q s = true.
Proof.
  intros Hpq. induction s as [|c s IH]; [reflexivity|].
  cbn [all_chars]. intros H. apply andb_prop in H as [Hc Hs].
  now rewrite (Hpq c Hc), (IH Hs).
Qed.

Lemma query_safe_char (c : ascii) : query_safe c = true -> query_char c = true.
Proof.
  destruct c as [[] [] [] [] [] [] [] []]; vm_compute; intros H;
    first [discriminate H | reflexivity].
Qed.

Lemma lacks_app (c : ascii) (a b : string) :
  contains (String c "") (a ++ b) =
    contains (String c "") a || contains (String c "") b.
Proof.
  induction a as [|x a IH].
  - change ("" ++ b) with b. rewrite (contains_unfold _ ""). cbn.
    reflexivity.
  - change (String x a ++ b) with (String x (a ++ b)).
    rewrite (contains_unfold _ (String x (a ++ b))),
      (contains_unfold _ (String x a)), IH.
    cbn [String.prefix]. destruct (ascii_dec c x) as [->|Hne].
    + destruct a, b; reflexivity.
    + reflexivity.
Qed.

(** The query of a URL whose base has neither [?] nor [#]. *)
Lemma url_query_of (base q : string) :
  contains "?" base = false ->
  contains "#" base = false ->
  all_chars query_char q = true ->
  url_query (base ++ "?" ++ q) = q.
Proof.
  intros Hq Hf Hs. unfold url_query.
  rewrite remove_unsafe_app.
  change ("?" ++ q) with (String "?" q). cbn [remove_unsafe].
  change (unsafe_url_char "?") with false. cbv iota.
  rewrite (remove_unsafe_safe q Hs).
  rewrite before_first_app by (apply remove_unsafe_lacks, Hf).
  rewrite (before_first_lacks "#" (String "?" q)).
  - rewrite after_first_app by (apply remove_unsafe_lacks, Hq).
    change (String "?" q) with ("?" ++ q).
    now rewrite after_first_here.
  - rewrite contains_unfold. rewrite prefix_char_ne by discriminate.
    apply (all_chars_lacks query_char); [exact Hs | reflexivity].
Qed.

Lemma split_on_cons (c : ascii) (s : string) :
  exists h t, split_on c s = h :: t.
Proof.
  induction s as [|a s (h & t & IH)]; [cbn; eauto|].
  cbn [split_on]. rewrite IH. destruct (Ascii.eqb a c); eauto.
Qed.

Lemma split_on_lacks (c : ascii) (s : string) :
  contains (String c "") s = false -> split_on c s = [s].
Proof.
  induction s as [|a s IH]; intros H; [reflexivity|].
  apply lacks_cons in H as [Hne Hs]. cbn [split_on]. rewrite (IH Hs).
  apply Ascii.eqb_neq in Hne. now rewrite Hne.
Qed.

Lemma split_on_app (c : ascii) (a b : string) :
  contains (String c "") a = false ->
  split_on c (a ++ String c b) = a :: split_on c b.
Proof.
  induction a as [|x a IH]; intros H.
  - change ("" ++ String c b) with (String c b). cbn [split_on].
    destruct (split_on_cons c b) as (h & t & E).
    rewrite E, Ascii.eqb_refl. reflexivity.
  - apply lacks_cons in H as [Hne Hs].
    change (String x a ++ String c b) with (String x (a ++ String c b)).
    cbn [split_on]. rewrite (IH Hs).
    apply Ascii.eqb_neq in Hne. now rewrite Hne.
Qed.

Lemma quote_plus_lacks (c : ascii) (s : string) :
  query_safe c = false -> contains (String c "") (quote_plus s) = false.
Proof. intros H. exact (all_chars_lacks query_safe c _ (quote_plus_safe s) H). Qed.

Lemma quote_plus_nonempty (s : string) :
  s <> "" -> (String.length (quote_plus s) =? 0)%nat = false.
Proof.
  destruct s as [|c s]; [congruence|]. intros _. cbn [quote_plus].
  destruct (Ascii.eqb c " "); [reflexivity|].
  destruct (unreserved c); reflexivity.
Qed.

Lemma parse_field_field (kv : string * string) :
  snd kv <> "" -> parse_field (field kv) = [kv].
Proof.
  destruct kv as [k v]. cbn [fst snd]. intros Hv. unfold parse_field, field.
  cbn [fst snd].
  rewrite after_first_app by (apply quote_plus_lacks; reflexivity).
  rewrite before_first_app by (apply quote_plus_lacks; reflexivity).
  rewrite after_first_here, before_first_here by discriminate.
  rewrite (quote_plus_nonempty v Hv), append_empty_r, !unquote_quote_plus.
  reflexivity.
Qed.

Lemma field_lacks_amp (kv : string * string) :
  contains "&" (field kv) = false.
Proof.
  unfold field. rewrite !lacks_app, !quote_plus_lacks by reflexivity.
  reflexivity.
Qed.

Lemma field_chars (kv : string * string) :
  all_chars query_char (field kv) = true.
Proof.
  unfold field. rewrite !all_chars_app.
  rewrite !(all_chars_impl _ _ _ query_safe_char (quote_plus_safe _)).
  reflexivity.
Qed.

Lemma urlencode_unfold (kv : string * string) (params : list (string * string)) :
  urlencode (kv :: params) =
    match params with
    | [] => field kv
    | _ => field kv ++ String "&" (urlencode params)
    end.
Proof. destruct params; reflexivity. Qed.

Lemma urlencode_chars (params : list (string * string)) :
  all_chars query_char (urlencode params) = true.
Proof.
  induction params as [|kv params IH]; [reflexivity|].
  rewrite urlencode_unfold. destruct params as [|kv' params].
  - apply field_chars.
  - rewrite all_chars_app, field_chars. cbn [all_chars]. rewrite IH.
    reflexivity.
Qed.

(** [parse_qsl] reads back what [urlencode] writes, when no value is
    empty. *)
Lemma parse_qsl_urlencode (params : list (string * string)) :
  Forall (fun kv => snd kv <> "") params ->
  parse_qsl (urlencode params) = params.
Proof.
  induction 1 as [|kv params Hv Hall IH]; [reflexivity|].
  rewrite urlencode_unfold. destruct params as [|kv' params].
  - unfold parse_qsl. rewrite (split_on_lacks "&" _ (field_lacks_amp kv)).
    cbn [flat_map]. rewrite (parse_field_field kv Hv). reflexivity.
  - unfold parse_qsl in *.
    rewrite (split_on_app "&" _ _ (field_lacks_amp kv)).
    cbn [flat_map]. rewrite (parse_field_field kv Hv), IH. reflexivity.
Qed.

Lemma query_of_urlencode (base : string) (params : list (string * string)) :
  contains "?" base = false ->
  contains "#" base = false ->
  Forall (fun kv => snd kv <> "") params ->
  parse_qsl (url_query (base ++ "?" ++ urlencode params)) = params.
Proof.
  intros Hq Hf Hall.
  rewrite (url_query_of base _ Hq Hf (urlencode_chars params)).
  exact (parse_qsl_urlencode params Hall).
Qed.

(** The parser of [Urllib] on a redirect to the application: [parse_qs]
    files the values under their names in order, and the host of
    [REDIRECT_URI] has no bracket. *)
Lemma query_get_add_value (query : list (string * list string))
      (name value k : string) (d : list string) :
  query_get (Urllib.add_value query name value) k d =
    if (name =? k)%string then (query_get query k [] ++ [value])%list
    else query_get query k d.
Proof.
  induction query as [|[k' vs] query IH]; cbn [Urllib.add_value query_get].
  - destruct (String.eqb_spec name k); reflexivity.
  - destruct (String.eqb_spec k' name) as [->|Hne]; cbn [query_get].
    + destruct (String.eqb_spec name k); reflexivity.
    + destruct (String.eqb_spec k' k) as [->|Hk].
      * apply String.eqb_neq in Hne. rewrite String.eqb_sym in Hne.
        rewrite Hne. reflexivity.
      * exact IH.
Qed.

Lemma query_get_collected (pairs : list (string * string)) :
  forall (query : list (string * list string)) (k : string) (d : list string),
    query_get
      (fold_left (fun q nv => Urllib.add_value q (fst nv) (snd nv)) pairs query)
      k d =
    match values_of k pairs with
    | [] => query_get query k d
    | vs => (query_get query k [] ++ vs)%list
    end.
Proof.
  induction pairs as [|[n v] pairs IH]; intros query k d; [reflexivity|].
  cbn [fold_left fst snd values_of]. rewrite IH, !query_get_add_value.
  destruct (String.eqb_spec n k) as [->|Hne].
  - destruct (values_of k pairs); [reflexivity|].
    rewrite <- app_assoc. reflexivity.
  - reflexivity.
Qed.

Lemma parse_qs_code (params : list (string * string)) :
  Forall (fun kv => snd kv <> "") params ->
  exists more,
    query_get (Urllib.parse_qs (urlencode params)) "code" [""] =
      first_value "code" params :: more.
Proof.
  intros Hall. unfold Urllib.parse_qs.
  rewrite (parse_qsl_urlencode params Hall), query_get_collected.
  unfold first_value. destruct (values_of "code" params); cbn; eauto.
Qed.


Lemma after_scheme_unfold (c : ascii) (s : string) :
  Urllib.after_scheme (String c s) =
    match after_first ":" (String c s) with
    | Some rest =>
        if Urllib.is_letter c
           && all_chars Urllib.scheme_char (before_first ":" (String c s))
        then rest
        else String c s
    | None => String c s
    end.
Proof. reflexivity. Qed.

Lemma after_scheme_of (c : ascii) (s rest : string) :
  Urllib.is_letter c = true ->
  all_chars Urllib.scheme_char (String c s) = true ->
  Urllib.after_scheme (String c s ++ ":" ++ rest) = rest.
Proof.
  intros Hc Hs.
  assert (Hlacks : contains ":" (String c s) = false)
    by (apply (all_chars_lacks Urllib.scheme_char); [exact Hs | reflexivity]).
  change (String c s ++ ":" ++ rest) with (String c (s ++ ":" ++ rest)).
  rewrite after_scheme_unfold.
  change (String c (s ++ ":" ++ rest)) with (String c s ++ ":" ++ rest).
  rewrite (after_first_app ":" (String c s) _ Hlacks), after_first_here.
  rewrite (before_first_app ":" (String c s) _ Hlacks).
  rewrite before_first_here by discriminate.
  rewrite append_empty_r, Hc, Hs. reflexivity.
Qed.

Lemma netloc_of_redirect_uri (q : string) :
  Urllib.netloc (REDIRECT_URI ++ "?" ++ q) = "auth".
Proof.
  unfold Urllib.netloc.
  change (REDIRECT_URI ++ "?" ++ q)
    with (String "m" ("sal6c983ca3-506e-4933-8993-0e18e6a24bbd://auth/"
                      ++ "?" ++ q)).
  cbn [Urllib.lstrip_c0].
  change (nat_of_ascii "m" <=? 32)%nat with false. cbv iota.
  change (String "m" ("sal6c983ca3-506e-4933-8993-0e18e6a24bbd://auth/"
                      ++ "?" ++ q))
    with (REDIRECT_URI ++ "?" ++ q).
  rewrite remove_unsafe_app.
  change (remove_unsafe REDIRECT_URI) with ((SCHEME ++ ":") ++ "//auth/").
  rewrite !append_assoc.
  unfold SCHEME at 1.
  rewrite after_scheme_of by reflexivity.
  reflexivity.
Qed.

Lemma urlparse_query_of_redirect_uri (q : string) :
  all_chars query_char q = true ->
  Urllib.urlparse_query (REDIRECT_URI ++ "?" ++ q) = Some q.
Proof.
  intros Hq. unfold Urllib.urlparse_query.
  rewrite netloc_of_redirect_uri.
  change (xorb (contains "[" "auth") (contains "]" "auth")) with false.
  cbv iota. f_equal.
  apply url_query_of; [vm_compute; reflexivity .. | exact Hq].
Qed.

Lemma query_code_of_redirect_uri (params : list (string * string)) :
  Forall (fun kv => snd kv <> "") params ->
  query_code Urllib.urlparse_query Urllib.parse_qs
    (REDIRECT_URI ++ "?" ++ urlencode params)
  = Ok (first_value "code" params).
Proof.
  intros Hall. unfold query_code.
  rewrite (urlparse_query_of_redirect_uri _ (urlencode_chars params)).
  destruct (parse_qs_code params Hall) as (more & ->). reflexivity.
Qed.

(** X10.  The authorization code is URL-decoded.  Whatever parameters in
    ASCII the authorization server encodes into the query of its redirect
    to [REDIRECT_URI], none with an empty value, the loop of
    [headless_login] stops on that redirect with the first value under
    [code], decoded: the percent escapes and [+] are undone.  When that
    value is not empty it is what [exchange_code] posts, right after the
    one GET; when there is none, the phase raises [DimplexAuthError] after
    the one GET.  (With the parser of [Urllib], which on such a location --
    ASCII text, escapes below [%80], the host [auth] -- is the
    library's.) *)
Theorem code_is_url_decoded (json_loads : string -> option pyval)
        (u : string) (w : World) (T : Z) (r : Response)
        (rest : list Exchange) (params : list (string * string)) :
  pending w = answer T r :: rest ->
  is_redirect (status r) = true ->
  location r = Some (REDIRECT_URI ++ "?" ++ urlencode params) ->
  Forall (fun kv => all_chars below_128 (fst kv) = true
                    /\ all_chars below_128 (snd kv) = true
                    /\ snd kv <> "") params ->
  let code := first_value "code" params in
  query_code Urllib.urlparse_query Urllib.parse_qs
    (REDIRECT_URI ++ "?" ++ urlencode params) = Ok code
  /\ (exists w',
         follow_redirects Urllib.urlparse_query Urllib.parse_qs 10 u w
         = (Ok (Some code), w')
         /\ sent w' = (sent w ++ [GET u false])%list)
  /\ (code <> "" ->
      exists out w',
        capture_code_and_exchange json_loads Urllib.urlparse_query
          Urllib.parse_qs u w = (out, w')
        /\ sent w' = (sent w ++ [GET u false; exchange_request code])%list)
  /\ (code = "" ->
      exists w',
        capture_code_and_exchange json_loads Urllib.urlparse_query
          Urllib.parse_qs u w = (Raise (DimplexAuthError NO_CODE), w')
        /\ sent w' = (sent w ++ [GET u false])%list).
Proof.
  intros Hp Hs Hl Hall code.
  assert (Hne : Forall (fun kv : string * string => snd kv <> "") params)
    by (eapply Forall_impl; [exact Hall|]; intros kv (_ & _ & H); exact H).
  assert (Hc := query_code_of_redirect_uri params Hne). fold code in Hc.
  assert (Hm : carries_code (REDIRECT_URI ++ "?" ++ urlencode params) = true)
    by (unfold carries_code, startswith; now rewrite prefix_app).
  assert (E := follow_found Urllib.urlparse_query Urllib.parse_qs 9 u w T r
                 rest _ code Hp Hs Hl Hm Hc).
  split; [exact Hc|]. split; [|split].
  - eexists. split; [exact E | reflexivity].
  - intros Hcode.
    rewrite (capture_with_code json_loads _ _ u w _ code E Hcode).
    match goal with
    | |- context [exchange_code json_loads code ?W] =>
        destruct (exchange_code_sends json_loads code W) as (out & w' & E' & Hs')
    end.
    exists out, w'. split; [exact E'|]. rewrite Hs'. cbn.
    rewrite <- app_assoc. reflexivity.
  - intros Hcode. eexists. split.
    + apply (capture_without_code json_loads _ _ u w _ (Some code) E).
      right. now rewrite Hcode.
    + reflexivity.
Qed.

(** X11.  The URLs the module builds carry their parameters intact.  The
    query of the login URL that [get_login_url] returns and
    [headless_login] fetches reads back as the five parameters of the
    request; and whatever transaction id the login page holds, with any
    characters in it, the query of the SelfAsserted URL reads back as that
    id under [tx] and the policy under [p]. *)
Theorem built_urls_decode_back (base trans_id : string) :
  parse_qsl (url_query get_login_url) = authorize_params
  /\ (contains "?" base = false ->
      contains "#" base = false ->
      trans_id <> "" ->
      parse_qsl
        (url_query
           ((base ++ "/SelfAsserted") ++ "?"
            ++ urlencode [("tx", trans_id); ("p", POLICY)]))
      = [("tx", trans_id); ("p", POLICY)]).
Proof.
  split.
  - unfold get_login_url, authorize_url.
    change (AUTH_URL ++ "/authorize?" ++ urlencode authorize_params)
      with (AUTH_URL ++ "/authorize" ++ "?" ++ urlencode authorize_params).
    rewrite <- append_assoc.
    apply (query_of_urlencode (AUTH_URL ++ "/authorize") authorize_params);
      [vm_compute; reflexivity ..|].
    unfold authorize_params. repeat constructor; discriminate.
  - intros Hq Hf Ht. apply query_of_urlencode.
    + rewrite lacks_app, Hq. reflexivity.
    + rewrite lacks_app, Hf. reflexivity.
    + repeat constructor; [exact Ht | discriminate].
Qed.

(** ** Times of day *)


Lemma digit_of_bound (c : ascii) (x : nat) : digit_of c = Some x -> (x < 10)%nat.
Proof.
  unfold digit_of.
  destruct ((48 <=? nat_of_ascii c) && (nat_of_ascii c <=? 57))%nat eqn:E;
    [|discriminate].
  intros [= <-]. apply andb_prop in E as [E1 E2].
  apply Nat.leb_le in E1, E2. lia.
Qed.

Lemma in_two_digits (ok : nat -> nat -> bool) (s : string) (n : nat) (r : string) :
  In (n, r) (two_digits ok s) ->
  exists x y, (x < 10)%nat /\ (y < 10)%nat /\ ok x y = true /\ n = (10 * x + y)%nat.
Proof.
  unfold two_digits. destruct s as [|a [|b rest]]; try contradiction.
  destruct (digit_of a) as [x|] eqn:Ea; [|contradiction].
  destruct (digit_of b) as [y|] eqn:Eb; [|contradiction].
  destruct (ok x y) eqn:Eok; [|contradiction].
  intros [[= <- <-]|[]]. exists x, y.
  repeat split; eauto using digit_of_bound.
Qed.

Lemma in_one_digit (s : string) (n : nat) (r : string) :
  In (n, r) (one_digit s) -> (n < 10)%nat.
Proof.
  unfold one_digit. destruct s as [|a rest]; [contradiction|].
  destruct (digit_of a) as [x|] eqn:Ea; [|contradiction].
  intros [[= <- <-]|[]]. eauto using digit_of_bound.
Qed.

Lemma directive_H_bound (s : string) (n : nat) (r : string) :
  In (n, r) (directive_H s) -> (n < 24)%nat.
Proof.
  unfold directive_H. rewrite !in_app_iff. intros [H|[H|H]].
  - apply in_two_digits in H as (x & y & Hx & Hy & Hok & ->).
    apply andb_prop in Hok as [E1 E2].
    apply Nat.eqb_eq in E1. apply Nat.leb_le in E2. lia.
  - apply in_two_digits in H as (x & y & Hx & Hy & Hok & ->).
    apply Nat.leb_le in Hok. lia.
  - apply in_one_digit in H. lia.
Qed.

Lemma directive_M_bound (s : string) (n : nat) (r : string) :
  In (n, r) (directive_M s) -> (n < 60)%nat.
Proof.
  unfold directive_M. rewrite !in_app_iff. intros [H|H].
  - apply in_two_digits in H as (x & y & Hx & Hy & Hok & ->).
    apply Nat.leb_le in Hok. lia.
  - apply in_one_digit in H. lia.
Qed.

Lemma in_matches_HMS (s : string) (h m sec : nat) (rest : string) :
  In (h, m, sec, rest) (matches_HMS s) -> (h < 24)%nat /\ (m < 60)%nat.
Proof.
  unfold matches_HMS. rewrite in_flat_map. intros ([h' r1] & Hh & H1).
  rewrite in_flat_map in H1. destruct H1 as (r1' & _ & H2).
  rewrite in_flat_map in H2. destruct H2 as ([m' r2] & Hm & H3).
  rewrite in_flat_map in H3. destruct H3 as (r2' & _ & H4).
  rewrite in_map_iff in H4. destruct H4 as ([s' r3] & [= <- <- <- <-] & _).
  cbn [fst]. eauto using directive_H_bound, directive_M_bound.
Qed.

Lemma directive_H_two (h : nat) (rest : string) :
  (h < 24)%nat ->
  exists others, directive_H (two h ++ rest) = (h, rest) :: others.
Proof.
  intros Hh.
  do 24 (destruct h as [|h]; [vm_compute; eauto|]). lia.
Qed.

Lemma directive_M_two (m : nat) (rest : string) :
  (m < 60)%nat ->
  exists others, directive_M (two m ++ rest) = (m, rest) :: others.
Proof.
  intros Hm.
  do 60 (destruct m as [|m]; [vm_compute; eauto|]). lia.
Qed.

Lemma directive_S_two (s : nat) (rest : string) :
  (s < 60)%nat ->
  exists others, directive_S (two s ++ rest) = (s, rest) :: others.
Proof.
  intros Hs.
  do 60 (destruct s as [|s]; [vm_compute; eauto|]). lia.
Qed.

Lemma matches_HMS_two (h m s : nat) :
  (h < 24)%nat -> (m < 60)%nat -> (s < 60)%nat ->
  exists others,
    matches_HMS (two h ++ ":" ++ two m ++ ":" ++ two s) = (h, m, s, "") :: others.
Proof.
  intros Hh Hm Hs. unfold matches_HMS.
  destruct (directive_H_two h (":" ++ two m ++ ":" ++ two s) Hh) as (o1 & ->).
  cbn [flat_map fst snd].
  change (colon (":" ++ two m ++ ":" ++ two s)) with [two m ++ ":" ++ two s].
  cbn [flat_map].
  destruct (directive_M_two m (":" ++ two s) Hm) as (o2 & ->).
  cbn [flat_map fst snd].
  change (colon (":" ++ two s)) with [two s]. cbn [flat_map].
  rewrite <- (append_empty_r (two s)).
  destruct (directive_S_two s "" Hs) as (o3 & ->).
  cbn [map fst snd app]. eauto.
Qed.

(** X12.  [start_time_obj] and [end_time_obj] read the time of day the
    API writes: for every hour below 24, minute and second below 60, the
    text [HH:MM:SS] with two digits each gives that time.  Whatever text
    they accept, the time they return is a time of day: hour below 24,
    minute and second below 60. *)
Theorem time_of_day_parsed (p : TimerPeriod) :
  (forall h m s,
      (h < 24)%nat -> (m < 60)%nat -> (s < 60)%nat ->
      StartTime p = two h ++ ":" ++ two m ++ ":" ++ two s ->
      start_time_obj p = Some {| hour := h; minute := m; second := s |})
  /\ (forall h m s,
         (h < 24)%nat -> (m < 60)%nat -> (s < 60)%nat ->
         EndTime p = two h ++ ":" ++ two m ++ ":" ++ two s ->
         end_time_obj p = Some {| hour := h; minute := m; second := s |})
  /\ (forall t,
         start_time_obj p = Some t \/ end_time_obj p = Some t ->
         (hour t < 24)%nat /\ (minute t < 60)%nat /\ (second t < 60)%nat).
Proof.
  assert (Hfwd : forall h m s,
             (h < 24)%nat -> (m < 60)%nat -> (s < 60)%nat ->
             strptime_HMS (two h ++ ":" ++ two m ++ ":" ++ two s) =
               Some {| hour := h; minute := m; second := s |}).
  { intros h m s Hh Hm Hs. unfold strptime_HMS.
    destruct (matches_HMS_two h m s Hh Hm Hs) as (o & ->).
    replace (s <=? 59)%nat with true by (symmetry; apply Nat.leb_le; lia).
    reflexivity. }
  assert (Hbwd : forall text t,
             strptime_HMS text = Some t ->
             (hour t < 24)%nat /\ (minute t < 60)%nat /\ (second t < 60)%nat).
  { intros text t. unfold strptime_HMS.
    destruct (matches_HMS text) as [|[[[h m] sec] rest] others] eqn:E;
      [discriminate|].
    destruct ((rest =? "")%string && (sec <=? 59)%nat) eqn:Ec; [|discriminate].
    intros [= <-]. cbn.
    apply andb_prop in Ec as [_ Ec]. apply Nat.leb_le in Ec.
    destruct (in_matches_HMS text h m sec rest) as [Hh Hm];
      [rewrite E; left; reflexivity|]. lia. }
  split; [|split].
  - intros h m s Hh Hm Hs E. unfold start_time_obj. rewrite E. auto.
  - intros h m s Hh Hm Hs E. unfold end_time_obj. rewrite E. auto.
  - intros t [E|E]; exact (Hbwd _ t E).
Qed.

(** ** The client *)

Section ClientProperties.

#[local] Set Default Proof Using "Type".

Variable json_loads : string -> option pyval.
Variable py_repr : pyval -> string.
Variable str_exc : DimplexControl.error -> string.

Arguments get_access_token : simpl never.
Arguments dict_update : simpl never.
Arguments py_str : simpl never.
Arguments DimplexControl.own_headers : simpl never.
Arguments DimplexControl.resp_json : simpl never.
Arguments DimplexControl._request : simpl never.
Arguments strip : simpl never.

(** *** Dicts *)

Lemma dict_lookup_set_eq (d : list (string * pyval)) (k : string) (v : pyval) :
  dict_lookup (dict_set d k v) k = Some v.
Proof.
  induction d as [|[k' v'] d IH]; cbn [dict_set dict_lookup].
  - now rewrite String.eqb_refl.
  - destruct (k' =? k)%string eqn:E; cbn [dict_lookup]; rewrite E;
      [reflexivity | exact IH].
Qed.

Lemma dict_lookup_set_ne (d : list (string * pyval)) (k k' : string) (v : pyval) :
  k' <> k -> dict_lookup (dict_set d k' v) k = dict_lookup d k.
Proof.
  intros Hne. apply String.eqb_neq in Hne.
  induction d as [|[a v'] d IH]; cbn [dict_set dict_lookup].
  - now rewrite Hne.
  - destruct (a =? k')%string eqn:E; cbn [dict_lookup].
    + apply String.eqb_eq in E. subst a. now rewrite Hne.
    + rewrite IH. reflexivity.
Qed.

(** Whatever headers the caller passes, the token and the API version are
    those [_request] sets. *)
Lemma own_headers_win (h : list (string * pyval)) (token : pyval) :
  dict_lookup (dict_update h (DimplexControl.own_headers py_repr token))
    "Authorization"
  = Some (PStr ("Bearer " ++ py_str py_repr token))
  /\ dict_lookup (dict_update h (DimplexControl.own_headers py_repr token))
       "api_version"
     = Some (PStr "1.0").
Proof.
  unfold dict_update, DimplexControl.own_headers. cbn [fold_left fst snd].
  split.
  - rewrite !dict_lookup_set_ne by congruence. apply dict_lookup_set_eq.
  - rewrite !(dict_lookup_set_ne _ "api_version" "Content-Type") by congruence.
    rewrite !(dict_lookup_set_ne _ "api_version" "Accept-Encoding") by congruence.
    rewrite !(dict_lookup_set_ne _ "api_version" "Accept") by congruence.
    apply dict_lookup_set_eq.
Qed.

Lemma api_request_is_client_request (token : pyval) (m e : string)
      (kw : DimplexControl.Kwargs) :
  client_request (api_request py_repr token m e kw).
Proof.
  unfold client_request, api_request. cbn.
  destruct (own_headers_win
              (match DimplexControl.kw_headers kw with
               | Some h => h
               | None => []
               end) token) as [Ha Hv].
  split; [apply prefix_app|]. split; [eauto | exact Hv].
Qed.

(** *** [_request], case by case *)

Lemma request_unfold (m e : string) (kw : DimplexControl.Kwargs)
      (c : DimplexControl.Env) (token : pyval) (w1 : World) :
  get_access_token json_loads (DimplexControl.auth c) = (Ok token, w1) ->
  DimplexControl._request json_loads py_repr str_exc m e kw c =
    let c1 :=
      DimplexControl.exchange (api_request py_repr token m e kw)
        (DimplexControl.set_auth w1 c) in
    match DimplexControl.api_pending c with
    | {| DimplexControl.reply := DimplexControl.Answer r |} :: _ =>
        if negb (DimplexControl.status r =? HTTP_OK) then
          (DimplexControl.Raises
             (DimplexControl.DimplexApiError (DimplexControl.status r)
                (DimplexControl.text r)),
           DimplexControl.add_log (api_error_record r) c1)
        else if DimplexControl.is_zero (DimplexControl.content_length r)
        then (DimplexControl.Returns (PDict []), c1)
        else
          match DimplexControl.resp_json json_loads r c1 with
          | (DimplexControl.Raises DimplexControl.ContentTypeError, c2) =>
              (DimplexControl.Raises
                 (DimplexControl.DimplexConnectionError
                    ("Connection error: "
                     ++ str_exc DimplexControl.ContentTypeError)),
               DimplexControl.add_log
                 (connection_error_record DimplexControl.ContentTypeError) c2)
          | other => other
          end
    | _ =>
        (DimplexControl.Raises
           (DimplexControl.DimplexConnectionError
              ("Connection error: "
               ++ str_exc (DimplexControl.Below ClientError))),
         DimplexControl.add_log
           (connection_error_record (DimplexControl.Below ClientError)) c1)
    end.
Proof.
  intros Ht. unfold DimplexControl._request.
  unfold DimplexControl.bind at 1. unfold DimplexControl.lift at 1. rewrite Ht.
  unfold DimplexControl.try_except, DimplexControl.bind at 1,
    DimplexControl.request.
  change (DimplexControl.api_pending (DimplexControl.set_auth w1 c))
    with (DimplexControl.api_pending c).
  fold (api_request py_repr token m e kw).
  destruct (DimplexControl.api_pending c) as [|[T [r|]] rest];
    [reflexivity| |reflexivity].
  cbv zeta.
  destruct (negb (DimplexControl.status r =? HTTP_OK)); [reflexivity|].
  destruct (DimplexControl.is_zero (DimplexControl.content_length r));
    [reflexivity|].
  unfold DimplexControl.resp_json.
  destruct (negb (DimplexControl.declares_json r)); [reflexivity|].
  destruct (strip (DimplexControl.text r) =? "")%string; [reflexivity|].
  destruct (json_loads (strip (DimplexControl.text r))); reflexivity.
Qed.

Lemma request_refused (m e : string) (kw : DimplexControl.Kwargs)
      (c : DimplexControl.Env) (x : exn) (w1 : World) :
  get_access_token json_loads (DimplexControl.auth c) = (Raise x, w1) ->
  DimplexControl._request json_loads py_repr str_exc m e kw c =
    (DimplexControl.Raises (DimplexControl.Below x),
     DimplexControl.set_auth w1 c).
Proof.
  intros Ht. unfold DimplexControl._request.
  unfold DimplexControl.bind at 1. unfold DimplexControl.lift at 1.
  rewrite Ht. reflexivity.
Qed.

Lemma set_auth_same (c : DimplexControl.Env) :
  DimplexControl.set_auth (DimplexControl.auth c) c = c.
Proof. destruct c; reflexivity. Qed.

Lemma resp_json_env (r : DimplexControl.Response) (c : DimplexControl.Env) :
  exists out, DimplexControl.resp_json json_loads r c = (out, c).
Proof.
  unfold DimplexControl.resp_json.
  destruct (negb (DimplexControl.declares_json r)); [eexists; reflexivity|].
  destruct (strip (DimplexControl.text r) =? "")%string;
    [eexists; reflexivity|].
  destruct (json_loads (strip (DimplexControl.text r))); eexists; reflexivity.
Qed.

(** With the token in hand, the request goes out whatever comes back. *)
Lemma request_sends (m e : string) (kw : DimplexControl.Kwargs)
      (c : DimplexControl.Env) (token : pyval) (w1 : World) :
  get_access_token json_loads (DimplexControl.auth c) = (Ok token, w1) ->
  exists out c',
    DimplexControl._request json_loads py_repr str_exc m e kw c = (out, c')
    /\ DimplexControl.api_sent c' =
         (DimplexControl.api_sent c ++ [api_request py_repr token m e kw])%list
    /\ DimplexControl.auth c' = after_api c w1
    /\ DimplexControl.api_pending c' = tl (DimplexControl.api_pending c).
Proof.
  intros Ht. rewrite (request_unfold m e kw c token w1 Ht). cbv zeta.
  unfold after_api.
  destruct (DimplexControl.api_pending c) as [|[T [r|]] rest] eqn:Ep.
  - eexists _, _. split; [reflexivity|]. cbn. rewrite Ep. auto.
  - destruct (negb (DimplexControl.status r =? HTTP_OK)).
    { eexists _, _. split; [reflexivity|]. cbn. rewrite Ep. auto. }
    destruct (DimplexControl.is_zero (DimplexControl.content_length r)).
    { eexists _, _. split; [reflexivity|]. cbn. rewrite Ep. auto. }
    match goal with
    | |- context [DimplexControl.resp_json json_loads r ?C] =>
        destruct (resp_json_env r C) as (out & ->)
    end.
    destruct out as [v|[x| | | |]];
      eexists _, _; (split; [reflexivity|]); cbn; rewrite Ep; auto.
  - eexists _, _. split; [reflexivity|]. cbn. rewrite Ep. auto.
Qed.


(** *** Sequencing *)

Lemma client_bind_returns {A B} (m : DimplexControl.C A)
      (k : A -> DimplexControl.C B) (c c1 : DimplexControl.Env) (a : A) :
  m c = (DimplexControl.Returns a, c1) -> DimplexControl.bind m k c = k a c1.
Proof. intros E. unfold DimplexControl.bind. rewrite E. reflexivity. Qed.

Lemma client_bind_raises {A B} (m : DimplexControl.C A)
      (k : A -> DimplexControl.C B) (c c1 : DimplexControl.Env)
      (x : DimplexControl.error) :
  m c = (DimplexControl.Raises x, c1) ->
  DimplexControl.bind m k c = (DimplexControl.Raises x, c1).
Proof. intros E. unfold DimplexControl.bind. rewrite E. reflexivity. Qed.

Lemma valid_token_returned (w : World) :
  token_valid w ->
  get_access_token json_loads w = (Ok (_access_token (tokens w)), w).
Proof.
  intros (Hr & Ha & Ht). apply get_access_token_cached; [exact Hr|].
  apply authenticated_cases; assumption.
Qed.

Lemma after_api_frame (c : DimplexControl.Env) (w : World) :
  tokens (after_api c w) = tokens w /\ sent (after_api c w) = sent w
  /\ pending (after_api c w) = pending w /\ logged (after_api c w) = logged w
  /\ files (after_api c w) = files w.
Proof.
  unfold after_api. destruct (DimplexControl.api_pending c); repeat split.
Qed.

(** X15.  With a valid token, [_request] makes exactly one request, to
    [BASE_URL] followed by the endpoint, with the method it was given and
    the stored access token as bearer token, whatever headers the caller
    passed and whatever the API answers.  The token endpoint is not
    contacted and the stored tokens stay as they are. *)
Theorem request_carries_token (m e : string) (kw : DimplexControl.Kwargs)
        (c : DimplexControl.Env) :
  token_valid (DimplexControl.auth c) ->
  let token := _access_token (tokens (DimplexControl.auth c)) in
  let q := api_request py_repr token m e kw in
  exists out c',
    DimplexControl._request json_loads py_repr str_exc m e kw c = (out, c')
    /\ DimplexControl.api_sent c' = (DimplexControl.api_sent c ++ [q])%list
    /\ DimplexControl.method q = m
    /\ DimplexControl.url q = BASE_URL ++ e
    /\ dict_lookup (DimplexControl.headers q) "Authorization"
       = Some (PStr ("Bearer " ++ py_str py_repr token))
    /\ sent (DimplexControl.auth c') = sent (DimplexControl.auth c)
    /\ tokens (DimplexControl.auth c') = tokens (DimplexControl.auth c).
Proof.
  intros Hv token q.
  destruct (request_sends m e kw c token _ (valid_token_returned _ Hv))
    as (out & c' & E & Hs & Ha & _).
  exists out, c'. split; [exact E|]. split; [exact Hs|].
  split; [reflexivity|]. split; [reflexivity|].
  split; [apply own_headers_win|].
  rewrite Ha.
  destruct (after_api_frame c (DimplexControl.auth c)) as (Ht & Hsent & _).
  auto.
Qed.

(** A status other than 200. *)
Lemma request_rejected (m e : string) (kw : DimplexControl.Kwargs)
        (c : DimplexControl.Env) (T : Z) (r : DimplexControl.Response)
        (rest : list DimplexControl.Exchange) :
  token_valid (DimplexControl.auth c) ->
  DimplexControl.api_pending c = api_answer T r :: rest ->
  DimplexControl.status r <> 200 ->
  exists c',
    DimplexControl._request json_loads py_repr str_exc m e kw c =
      (DimplexControl.Raises
         (DimplexControl.DimplexApiError (DimplexControl.status r)
            (DimplexControl.text r)), c')
    /\ DimplexControl.api_logged c' =
         (DimplexControl.api_logged c ++ [api_error_record r])%list
    /\ tokens (DimplexControl.auth c') = tokens (DimplexControl.auth c)
    /\ DimplexControl.api_pending c' = rest.
Proof.
  intros Hv Hp Hs.
  rewrite (request_unfold m e kw c _ _ (valid_token_returned _ Hv)).
  cbv zeta. rewrite Hp. cbn [api_answer DimplexControl.reply].
  replace (DimplexControl.status r =? HTTP_OK) with false
    by (symmetry; apply Z.eqb_neq; exact Hs).
  cbn [negb]. eexists. split; [reflexivity|]. cbn. rewrite Hp. cbn. auto.
Qed.

(** X17.  Which failures are reported as [DimplexConnectionError].  With a
    valid token, a failure of the transport on the request to the API is
    caught, logged and raised again as [DimplexConnectionError]; so is a
    200 answer with a body whose Content-Type does not declare JSON.  A
    failure of the transport while the token is being refreshed is outside
    the [try]: it comes out as aiohttp's [ClientError], the API has not
    been asked and the client has logged nothing. *)
Theorem connection_errors (m e : string) (kw : DimplexControl.Kwargs)
        (c : DimplexControl.Env) :
  let reported x c' :=
    DimplexControl._request json_loads py_repr str_exc m e kw c =
      (DimplexControl.Raises
         (DimplexControl.DimplexConnectionError
            ("Connection error: " ++ str_exc x)), c')
    /\ DimplexControl.api_logged c' =
         (DimplexControl.api_logged c ++ [connection_error_record x])%list in
  (token_valid (DimplexControl.auth c) ->
   api_fails c = true ->
   exists c', reported (DimplexControl.Below ClientError) c')
  /\ (token_valid (DimplexControl.auth c) ->
      forall T r rest,
        DimplexControl.api_pending c = api_answer T r :: rest ->
        DimplexControl.status r = 200 ->
        DimplexControl.is_zero (DimplexControl.content_length r) = false ->
        DimplexControl.declares_json r = false ->
        exists c', reported DimplexControl.ContentTypeError c')
  /\ (truthy (_refresh_token (tokens (DimplexControl.auth c))) = true ->
      _access_token (tokens (DimplexControl.auth c)) = PNone
      \/ _expires_at (tokens (DimplexControl.auth c))
         <= now (DimplexControl.auth c) ->
      transport_fails (DimplexControl.auth c) = true ->
      exists c',
        DimplexControl._request json_loads py_repr str_exc m e kw c =
          (DimplexControl.Raises (DimplexControl.Below ClientError), c')
        /\ DimplexControl.api_sent c' = DimplexControl.api_sent c
        /\ DimplexControl.api_logged c' = DimplexControl.api_logged c).
Proof.
  intros reported. split; [|split].
  - intros Hv Hf. unfold reported.
    rewrite (request_unfold m e kw c _ _ (valid_token_returned _ Hv)).
    cbv zeta. unfold api_fails in Hf.
    destruct (DimplexControl.api_pending c) as [|[T [r|]] rest];
      [|discriminate|]; eexists; split; reflexivity.
  - intros Hv T r rest Hp Hs Hz Hj. unfold reported.
    rewrite (request_unfold m e kw c _ _ (valid_token_returned _ Hv)).
    cbv zeta. rewrite Hp. cbn [api_answer DimplexControl.reply].
    rewrite Hs, Hz. cbn [negb Z.eqb HTTP_OK Pos.eqb].
    unfold DimplexControl.resp_json. rewrite Hj. cbn [negb].
    eexists. split; reflexivity.
  - intros Hr Hc Hf.
    assert (E : exists w',
               get_access_token json_loads (DimplexControl.auth c)
               = (Raise ClientError, w')).
    { apply not_authenticated_cases in Hc.
      rewrite (get_access_token_refreshes json_loads _ Hr Hc).
      unfold refresh_tokens. rewrite bind_log.
      unfold bind at 1, get_self at 1. unfold bind at 1.
      rewrite http_fails by exact Hf. eauto. }
    destruct E as (w' & E). rewrite (request_refused m e kw c _ _ E).
    eexists. split; [reflexivity|]. split; reflexivity.
Qed.


Context {Hub Zone UserContext ApplianceStatus ApplianceModeSettings : Type}.
Context `{BaseModel Hub} `{BaseModel Zone} `{BaseModel UserContext}
        `{BaseModel ApplianceStatus} `{BaseModel TimerModeSettings}.
Variable ApplianceModeSettings_dict : ApplianceModeSettings -> pyval.


(** X14.  Without a stored refresh token no method of the client reaches
    the network: [_request] and the ten methods built on it raise
    [DimplexAuthError] and leave everything as it was, no request sent to
    the API or to the token endpoint and nothing logged. *)
Theorem no_request_without_refresh_token (c : DimplexControl.Env)
        (m e : string) (kw : DimplexControl.Kwargs)
        (hub_id zone_id appliance_id : string) (appliance_ids : list string)
        (mode : Z) (enable : bool) (mode_settings : ApplianceModeSettings) :
  truthy (_refresh_token (tokens (DimplexControl.auth c))) = false ->
  let refused (A : Type) (call : DimplexControl.C A) :=
    call c =
      (DimplexControl.Raises
         (DimplexControl.Below
            (DimplexAuthError
               "No refresh token available. User must authenticate first.")),
       c) in
  refused _ (DimplexControl._request json_loads py_repr str_exc m e kw)
  /\ refused _ (DimplexControl.get_hubs json_loads py_repr str_exc (Hub := Hub))
  /\ refused _ (DimplexControl.get_hub_zones json_loads py_repr str_exc
                  (Zone := Zone) hub_id)
  /\ refused _ (DimplexControl.get_zone json_loads py_repr str_exc
                  (Zone := Zone) hub_id zone_id)
  /\ refused _ (DimplexControl.get_appliance_overview json_loads py_repr str_exc
                  (ApplianceStatus := ApplianceStatus) hub_id appliance_ids)
  /\ refused _ (DimplexControl.get_user_context json_loads py_repr str_exc
                  (UserContext := UserContext))
  /\ refused _ (DimplexControl.get_appliance_features json_loads py_repr str_exc
                  hub_id appliance_id)
  /\ refused _ (DimplexControl.set_mode json_loads py_repr str_exc
                  hub_id appliance_id mode)
  /\ refused _ (DimplexControl.set_appliance_mode json_loads py_repr str_exc
                  ApplianceModeSettings_dict hub_id appliance_ids mode_settings)
  /\ refused _ (DimplexControl.set_eco_start json_loads py_repr str_exc
                  hub_id appliance_ids enable)
  /\ refused _ (DimplexControl.set_open_window_detection json_loads py_repr
                  str_exc hub_id appliance_ids enable).
Proof.
  intros Hr refused.
  assert (R : forall m e kw,
             DimplexControl._request json_loads py_repr str_exc m e kw c =
               (DimplexControl.Raises
                  (DimplexControl.Below
                     (DimplexAuthError
                        "No refresh token available. User must authenticate first.")),
                c)).
  { intros m0 e0 kw0.
    rewrite (request_refused m0 e0 kw0 c _ _
               (get_access_token_guard json_loads _ Hr)).
    now rewrite set_auth_same. }
  unfold refused.
  repeat split; try apply R;
    unfold DimplexControl.set_mode, DimplexControl.get_hubs,
      DimplexControl.get_hub_zones,
      DimplexControl.get_zone, DimplexControl.get_appliance_overview,
      DimplexControl.get_user_context, DimplexControl.get_appliance_features,
      DimplexControl.set_appliance_mode,
      DimplexControl.set_eco_start, DimplexControl.set_open_window_detection;
    repeat (erewrite client_bind_raises; [reflexivity|]);
    try apply R.
Qed.

(** X16.  When the API answers with a status other than 200, [_request]
    raises [DimplexApiError] with that status and the body of the answer,
    after logging one ERROR record with both; the one request has been
    made and the stored tokens stay as they are.  A method built on
    [_request] passes the error on as it is: so does [get_hubs]. *)
Theorem api_error_status (m e : string) (kw : DimplexControl.Kwargs)
        (c : DimplexControl.Env) (T : Z) (r : DimplexControl.Response)
        (rest : list DimplexControl.Exchange) :
  token_valid (DimplexControl.auth c) ->
  DimplexControl.api_pending c = api_answer T r :: rest ->
  DimplexControl.status r <> 200 ->
  (exists c',
      DimplexControl._request json_loads py_repr str_exc m e kw c =
        (DimplexControl.Raises
           (DimplexControl.DimplexApiError (DimplexControl.status r)
              (DimplexControl.text r)), c')
      /\ DimplexControl.api_logged c' =
           (DimplexControl.api_logged c ++ [api_error_record r])%list
      /\ DimplexControl.api_sent c' =
           (DimplexControl.api_sent c
            ++ [api_request py_repr
                  (_access_token (tokens (DimplexControl.auth c))) m e kw])%list
      /\ tokens (DimplexControl.auth c') = tokens (DimplexControl.auth c))
  /\ fst (DimplexControl.get_hubs json_loads py_repr str_exc (Hub := Hub) c)
     = DimplexControl.Raises
         (DimplexControl.DimplexApiError (DimplexControl.status r)
            (DimplexControl.text r)).
Proof.
  intros Hv Hp Hs. split.
  - destruct (request_rejected m e kw c T r rest Hv Hp Hs)
      as (c' & E & Hl & Ht & _).
    destruct (request_sends m e kw c _ _ (valid_token_returned _ Hv))
      as (out & c2 & E2 & Hsent & _).
    rewrite E in E2. injection E2 as <- <-.
    exists c'. auto.
  - destruct (request_rejected "GET" "/Hubs/GetUserHubs"
                DimplexControl.no_kwargs c T r rest Hv Hp Hs) as (c' & E & _).
    unfold DimplexControl.get_hubs.
    rewrite (client_bind_raises _ _ _ _ _ E). reflexivity.
Qed.


(** *** Answers without a body *)

Lemma request_empty (m e : string) (kw : DimplexControl.Kwargs)
      (c : DimplexControl.Env) (T : Z) (r : DimplexControl.Response)
      (rest : list DimplexControl.Exchange) :
  token_valid (DimplexControl.auth c) ->
  DimplexControl.api_pending c = api_answer T r :: rest ->
  DimplexControl.status r = 200 ->
  DimplexControl.is_zero (DimplexControl.content_length r) = true ->
  exists c',
    DimplexControl._request json_loads py_repr str_exc m e kw c =
      (DimplexControl.Returns (PDict []), c').
Proof.
  intros Hv Hp Hs Hz.
  rewrite (request_unfold m e kw c _ _ (valid_token_returned _ Hv)).
  cbv zeta. rewrite Hp. cbn [api_answer DimplexControl.reply].
  rewrite Hs, Hz. cbn [negb Z.eqb HTTP_OK Pos.eqb]. eauto.
Qed.

Lemma request_decoded (m e : string) (kw : DimplexControl.Kwargs)
      (c : DimplexControl.Env) (T : Z) (r : DimplexControl.Response)
      (rest : list DimplexControl.Exchange) :
  token_valid (DimplexControl.auth c) ->
  DimplexControl.api_pending c = api_answer T r :: rest ->
  DimplexControl.status r = 200 ->
  DimplexControl.is_zero (DimplexControl.content_length r) = false ->
  DimplexControl.declares_json r = true ->
  exists c',
    DimplexControl._request json_loads py_repr str_exc m e kw c =
      (if (strip (DimplexControl.text r) =? "")%string
       then DimplexControl.Returns PNone
       else match json_loads (strip (DimplexControl.text r)) with
            | Some v => DimplexControl.Returns v
            | None => DimplexControl.Raises (DimplexControl.Below JSONDecodeError)
            end, c')
    /\ DimplexControl.api_sent c' =
         (DimplexControl.api_sent c
          ++ [api_request py_repr
                (_access_token (tokens (DimplexControl.auth c))) m e kw])%list
    /\ DimplexControl.auth c' = set_now T (DimplexControl.auth c)
    /\ DimplexControl.api_pending c' = rest.
Proof.
  intros Hv Hp Hs Hz Hj.
  rewrite (request_unfold m e kw c _ _ (valid_token_returned _ Hv)).
  cbv zeta. rewrite Hp. cbn [api_answer DimplexControl.reply].
  rewrite Hs, Hz. cbn [negb Z.eqb HTTP_OK Pos.eqb].
  unfold DimplexControl.resp_json. rewrite Hj. cbn [negb].
  destruct (strip (DimplexControl.text r) =? "")%string.
  - eexists. split; [reflexivity|]. cbn. rewrite Hp. auto.
  - destruct (json_loads (strip (DimplexControl.text r)));
      (eexists; split; [reflexivity|]); cbn; rewrite Hp; auto.
Qed.

(** X19.  Answers without a body.  A 200 answer whose Content-Length is
    0 is taken as the empty dict without its body or Content-Type being
    looked at: [get_hubs], [get_hub_zones] and [get_appliance_overview]
    return the empty list, and [get_user_context] builds its model from no
    fields.  A 200 answer declared as JSON whose body is white space, with
    another Content-Length or none, is decoded to [None]: [get_hubs] and
    [get_user_context] then raise [TypeError]. *)
Theorem answers_without_body (m e : string) (kw : DimplexControl.Kwargs)
        (c : DimplexControl.Env) (T : Z) (r : DimplexControl.Response)
        (rest : list DimplexControl.Exchange) (hub_id : string)
        (appliance_ids : list string) :
  token_valid (DimplexControl.auth c) ->
  DimplexControl.api_pending c = api_answer T r :: rest ->
  DimplexControl.status r = 200 ->
  (DimplexControl.is_zero (DimplexControl.content_length r) = true ->
   fst (DimplexControl._request json_loads py_repr str_exc m e kw c)
   = DimplexControl.Returns (PDict [])
   /\ fst (DimplexControl.get_hubs json_loads py_repr str_exc (Hub := Hub) c)
      = DimplexControl.Returns []
   /\ fst (DimplexControl.get_hub_zones json_loads py_repr str_exc
             (Zone := Zone) hub_id c)
      = DimplexControl.Returns []
   /\ fst (DimplexControl.get_appliance_overview json_loads py_repr str_exc
             (ApplianceStatus := ApplianceStatus) hub_id appliance_ids c)
      = DimplexControl.Returns []
   /\ fst (DimplexControl.get_user_context json_loads py_repr str_exc
             (UserContext := UserContext) c)
      = match model_validate [] with
        | Some u => DimplexControl.Returns u
        | None => DimplexControl.Raises DimplexControl.ValidationError
        end)
  /\ (DimplexControl.is_zero (DimplexControl.content_length r) = false ->
      DimplexControl.declares_json r = true ->
      strip (DimplexControl.text r) = "" ->
      fst (DimplexControl._request json_loads py_repr str_exc m e kw c)
      = DimplexControl.Returns PNone
      /\ fst (DimplexControl.get_hubs json_loads py_repr str_exc (Hub := Hub) c)
         = DimplexControl.Raises (DimplexControl.Below TypeError)
      /\ fst (DimplexControl.get_user_context json_loads py_repr str_exc
                (UserContext := UserContext) c)
         = DimplexControl.Raises (DimplexControl.Below TypeError)).
Proof.
  intros Hv Hp Hs. split.
  - intros Hz.
    assert (R : forall m e kw,
               exists c',
                 DimplexControl._request json_loads py_repr str_exc m e kw c =
                   (DimplexControl.Returns (PDict []), c'))
      by (intros; eapply request_empty; eassumption).
    split; [destruct (R m e kw) as (c' & ->); reflexivity|].
    unfold DimplexControl.get_hubs, DimplexControl.get_hub_zones,
      DimplexControl.get_appliance_overview, DimplexControl.get_user_context.
    repeat split;
      match goal with
      | |- context [DimplexControl.bind
                      (DimplexControl._request _ _ _ ?m ?e ?kw) _ c] =>
          destruct (R m e kw) as (c' & E);
          rewrite (client_bind_returns _ _ _ _ _ E)
      end; try reflexivity.
    unfold DimplexControl.construct. destruct (model_validate []); reflexivity.
  - intros Hz Hj Hb.
    assert (R : forall m e kw,
               exists c',
                 DimplexControl._request json_loads py_repr str_exc m e kw c =
                   (DimplexControl.Returns PNone, c')).
    { intros m0 e0 kw0.
      destruct (request_decoded m0 e0 kw0 c T r rest Hv Hp Hs Hz Hj)
        as (c' & E & _).
      rewrite Hb in E. eauto. }
    split; [destruct (R m e kw) as (c' & ->); reflexivity|].
    unfold DimplexControl.get_hubs, DimplexControl.get_user_context.
    split;
      match goal with
      | |- context [DimplexControl.bind
                      (DimplexControl._request _ _ _ ?m ?e ?kw) _ c] =>
          destruct (R m e kw) as (c' & E);
          rewrite (client_bind_returns _ _ _ _ _ E)
      end; reflexivity.
Qed.

(** *** Lists of models *)

Lemma construct_env {T} `{BaseModel T} (v : pyval) (c : DimplexControl.Env) :
  exists out, DimplexControl.construct (T := T) v c = (out, c).
Proof.
  destruct v as [| | | | |d]; try (eexists; reflexivity).
  unfold DimplexControl.construct. destruct (model_validate d);
    eexists; reflexivity.
Qed.

Lemma for_each_all {T} `{BaseModel T} (items : list pyval) (objs : list T)
      (c : DimplexControl.Env) :
  Forall2 (fun item obj => exists d, item = PDict d /\ model_validate d = Some obj)
    items objs ->
  DimplexControl.for_each (DimplexControl.construct (T := T)) items c
  = (DimplexControl.Returns objs, c).
Proof.
  induction 1 as [|item obj items objs (d & -> & Hd) _ IH]; [reflexivity|].
  cbn [DimplexControl.for_each].
  erewrite client_bind_returns;
    [|unfold DimplexControl.construct; rewrite Hd; reflexivity].
  erewrite client_bind_returns; [|exact IH]. reflexivity.
Qed.

Lemma for_each_one_bad {T} `{BaseModel T} (items : list pyval)
      (c : DimplexControl.Env) :
  Exists (fun item => forall d, item = PDict d -> model_validate (T := T) d = None)
    items ->
  exists x,
    DimplexControl.for_each (DimplexControl.construct (T := T)) items c
    = (DimplexControl.Raises x, c).
Proof.
  induction items as [|item items IH]; intros Hex;
    [inversion Hex|].
  cbn [DimplexControl.for_each].
  destruct (construct_env (T := T) item c) as ([obj|x] & E).
  - rewrite (client_bind_returns _ _ _ _ _ E).
    assert (Hrest : Exists
                      (fun item =>
                         forall d, item = PDict d -> model_validate (T := T) d = None)
                      items).
    { inversion Hex as [? ? Hbad|? ? Hrest]; subst; [|exact Hrest].
      exfalso. revert E. destruct item as [| | | | |d]; try discriminate.
      unfold DimplexControl.construct. rewrite (Hbad d eq_refl). discriminate. }
    destruct (IH Hrest) as (x & Ex).
    rewrite (client_bind_raises _ _ _ _ _ Ex). eauto.
  - rewrite (client_bind_raises _ _ _ _ _ E). eauto.
Qed.

(** X24.  The methods that list are all or nothing.  When the API answers
    with a JSON list, [get_hubs], [get_hub_zones] and
    [get_appliance_overview] build one model from each item, in order: if
    every item is an object that validates, the result is the list of
    those models; if one item is not an object or does not validate, the
    call raises and no part of the list is returned. *)
Theorem listing_is_all_or_nothing (c : DimplexControl.Env) (T : Z)
        (r : DimplexControl.Response) (rest : list DimplexControl.Exchange)
        (items : list pyval) (hub_id : string) (appliance_ids : list string) :
  token_valid (DimplexControl.auth c) ->
  DimplexControl.api_pending c = api_answer T r :: rest ->
  DimplexControl.status r = 200 ->
  DimplexControl.is_zero (DimplexControl.content_length r) = false ->
  DimplexControl.declares_json r = true ->
  strip (DimplexControl.text r) <> "" ->
  json_loads (strip (DimplexControl.text r)) = Some (PList items) ->
  let listed (M : Type) (V : BaseModel M) (call : DimplexControl.C (list M)) :=
    (forall objs,
        Forall2
          (fun item obj => exists d, item = PDict d /\ model_validate d = Some obj)
          items objs ->
        fst (call c) = DimplexControl.Returns objs)
    /\ (Exists (fun item => forall d, item = PDict d -> model_validate (T := M) d = None)
          items ->
        exists x, fst (call c) = DimplexControl.Raises x) in
  listed Hub _ (DimplexControl.get_hubs json_loads py_repr str_exc)
  /\ listed Zone _ (DimplexControl.get_hub_zones json_loads py_repr str_exc hub_id)
  /\ listed ApplianceStatus _
       (DimplexControl.get_appliance_overview json_loads py_repr str_exc
          hub_id appliance_ids).
Proof.
  intros Hv Hp Hs Hz Hj Hb Hl listed.
  assert (R : forall m e kw,
             exists c',
               DimplexControl._request json_loads py_repr str_exc m e kw c =
                 (DimplexControl.Returns (PList items), c')).
  { intros m e kw.
    destruct (request_decoded m e kw c T r rest Hv Hp Hs Hz Hj) as (c' & E & _).
    apply String.eqb_neq in Hb. rewrite Hb, Hl in E. eauto. }
  assert (L : forall (M : Type) (V : BaseModel M) m e kw,
             listed M V
               (DimplexControl.bind
                  (DimplexControl._request json_loads py_repr str_exc m e kw)
                  (fun data =>
                     DimplexControl.bind (DimplexControl.iterate data)
                       (fun xs =>
                          DimplexControl.for_each
                            (DimplexControl.construct (T := M)) xs)))).
  { intros M V m e kw. destruct (R m e kw) as (c' & E). split.
    - intros objs Hall. rewrite (client_bind_returns _ _ _ _ _ E).
      cbn [DimplexControl.iterate]. unfold DimplexControl.bind at 1.
      cbn [DimplexControl.ret].
      rewrite (for_each_all items objs c' Hall). reflexivity.
    - intros Hex. rewrite (client_bind_returns _ _ _ _ _ E).
      cbn [DimplexControl.iterate]. unfold DimplexControl.bind at 1.
      cbn [DimplexControl.ret].
      destruct (for_each_one_bad (T := M) items c' Hex) as (x & ->). eauto. }
  split; [apply L|]. split; apply L.
Qed.



(** *** What the methods ask of the API *)

Lemma asks_weaken {A} (n n' : nat) (m : DimplexControl.C A) :
  (n <= n')%nat -> asks_at_most n m -> asks_at_most n' m.
Proof.
  intros Hle Hm c out c' E. destruct (Hm c out c' E) as (new & Hs & Hl & Hf).
  exists new. split; [exact Hs|]. split; [lia | exact Hf].
Qed.

Lemma asks_nothing {A} (m : DimplexControl.C A) :
  (forall c out c',
      m c = (out, c') -> DimplexControl.api_sent c' = DimplexControl.api_sent c) ->
  asks_at_most 0 m.
Proof.
  intros Hm c out c' E. exists []. rewrite (Hm c out c' E), app_nil_r.
  split; [reflexivity|]. split; [cbn; lia | constructor].
Qed.

Lemma asks_ret {A} (a : A) : asks_at_most 0 (DimplexControl.ret a).
Proof. apply asks_nothing. intros c out c' [= _ <-]. reflexivity. Qed.

Lemma asks_raise {A} (x : DimplexControl.error) :
  asks_at_most 0 (@DimplexControl.raise A x).
Proof. apply asks_nothing. intros c out c' [= _ <-]. reflexivity. Qed.

Lemma asks_log (l : DimplexControl.Level) (msg : string)
      (a : list DimplexControl.LogArg) :
  asks_at_most 0 (DimplexControl.log l msg a).
Proof. apply asks_nothing. intros c out c' [= _ <-]. reflexivity. Qed.

Lemma asks_bind {A B} (n1 n2 : nat) (m : DimplexControl.C A)
      (k : A -> DimplexControl.C B) :
  asks_at_most n1 m ->
  (forall a, asks_at_most n2 (k a)) ->
  asks_at_most (n1 + n2) (DimplexControl.bind m k).
Proof.
  intros Hm Hk c out c'. unfold DimplexControl.bind.
  destruct (m c) as [[a|x] c1] eqn:E;
    destruct (Hm _ _ _ E) as (new1 & Hs1 & Hl1 & Hf1).
  - intros E2. destruct (Hk a _ _ _ E2) as (new2 & Hs2 & Hl2 & Hf2).
    exists (new1 ++ new2)%list. rewrite Hs2, Hs1, <- app_assoc, length_app.
    split; [reflexivity|]. split; [lia | apply Forall_app; auto].
  - intros [= _ <-]. exists new1. split; [exact Hs1|]. split; [lia | exact Hf1].
Qed.

Lemma asks_after {A B} (n : nat) (m : DimplexControl.C A)
      (k : A -> DimplexControl.C B) :
  asks_at_most n m ->
  (forall a, asks_at_most 0 (k a)) ->
  asks_at_most n (DimplexControl.bind m k).
Proof.
  intros Hm Hk. rewrite <- (Nat.add_0_r n). exact (asks_bind n 0 m k Hm Hk).
Qed.

Lemma asks_iterate (v : pyval) : asks_at_most 0 (DimplexControl.iterate v).
Proof. destruct v; first [apply asks_ret | apply asks_raise]. Qed.

Lemma asks_construct {T} `{BaseModel T} (v : pyval) :
  asks_at_most 0 (DimplexControl.construct (T := T) v).
Proof.
  destruct v as [| | | | |d]; try apply asks_raise.
  unfold DimplexControl.construct. destruct (model_validate d);
    [apply asks_ret | apply asks_raise].
Qed.

Lemma asks_for_each {A B} (f : A -> DimplexControl.C B) (items : list A) :
  (forall x, asks_at_most 0 (f x)) ->
  asks_at_most 0 (DimplexControl.for_each f items).
Proof.
  intros Hf. induction items as [|x items IH]; [apply asks_ret|].
  cbn [DimplexControl.for_each].
  apply asks_after; [apply Hf | intros y].
  apply asks_after; [exact IH | intros ys; apply asks_ret].
Qed.

Lemma asks_request (m e : string) (kw : DimplexControl.Kwargs) :
  asks_at_most 1 (DimplexControl._request json_loads py_repr str_exc m e kw).
Proof.
  intros c out c' E.
  destruct (get_access_token json_loads (DimplexControl.auth c))
    as [[token|x] w1] eqn:Et.
  - destruct (request_sends m e kw c token w1 Et) as (out0 & c0 & E0 & Hs & _).
    rewrite E in E0. injection E0 as <- <-.
    exists [api_request py_repr token m e kw]. split; [exact Hs|].
    split; [cbn; lia|].
    constructor; [apply api_request_is_client_request | constructor].
  - rewrite (request_refused m e kw c x w1 Et) in E. injection E as <- <-.
    exists []. rewrite app_nil_r.
    split; [reflexivity|]. split; [cbn; lia | constructor].
Qed.

(** X21.  What the client asks of the API, whatever the state and
    whatever is answered: every method makes at most one request,
    [set_mode] at most two and [set_target_temperature] none; the requests
    made before are kept; and every request goes to a URL under
    [BASE_URL] with a bearer token in its Authorization header and
    api_version 1.0. *)
Theorem client_asks_little (hub_id zone_id appliance_id : string)
        (appliance_ids : list string) (mode : Z) (enable : bool)
        (temp : pyval) (mode_settings : ApplianceModeSettings) :
  asks_at_most 1 (DimplexControl.get_hubs json_loads py_repr str_exc (Hub := Hub))
  /\ asks_at_most 1 (DimplexControl.get_hub_zones json_loads py_repr str_exc
                       (Zone := Zone) hub_id)
  /\ asks_at_most 1 (DimplexControl.get_zone json_loads py_repr str_exc
                       (Zone := Zone) hub_id zone_id)
  /\ asks_at_most 1 (DimplexControl.get_appliance_overview json_loads py_repr
                       str_exc (ApplianceStatus := ApplianceStatus)
                       hub_id appliance_ids)
  /\ asks_at_most 1 (DimplexControl.get_user_context json_loads py_repr str_exc
                       (UserContext := UserContext))
  /\ asks_at_most 1 (DimplexControl.get_appliance_features json_loads py_repr
                       str_exc hub_id appliance_id)
  /\ asks_at_most 2 (DimplexControl.set_mode json_loads py_repr str_exc
                       hub_id appliance_id mode)
  /\ asks_at_most 0 (DimplexControl.set_target_temperature
                       hub_id appliance_id temp)
  /\ asks_at_most 1 (DimplexControl.set_appliance_mode json_loads py_repr
                       str_exc ApplianceModeSettings_dict hub_id appliance_ids
                       mode_settings)
  /\ asks_at_most 1 (DimplexControl.set_eco_start json_loads py_repr str_exc
                       hub_id appliance_ids enable)
  /\ asks_at_most 1 (DimplexControl.set_open_window_detection json_loads
                       py_repr str_exc hub_id appliance_ids enable).
Proof.
  assert (L : forall (T : Type) (V : BaseModel T) m e kw,
             asks_at_most 1
               (DimplexControl.bind
                  (DimplexControl._request json_loads py_repr str_exc m e kw)
                  (fun data =>
                     DimplexControl.bind (DimplexControl.iterate data)
                       (fun items =>
                          DimplexControl.for_each
                            (DimplexControl.construct (T := T)) items)))).
  { intros T V m e kw. apply asks_after; [apply asks_request | intros data].
    apply asks_after; [apply asks_iterate | intros items].
    apply asks_for_each. intros x. apply asks_construct. }
  assert (O : forall (T : Type) (V : BaseModel T) m e kw,
             asks_at_most 1
               (DimplexControl.bind
                  (DimplexControl._request json_loads py_repr str_exc m e kw)
                  (fun data => DimplexControl.construct (T := T) data))).
  { intros T V m e kw. apply asks_after; [apply asks_request | intros data].
    apply asks_construct. }
  assert (W : forall m e kw,
             asks_at_most 1
               (DimplexControl.bind
                  (DimplexControl._request json_loads py_repr str_exc m e kw)
                  (fun _ => DimplexControl.ret tt))).
  { intros m e kw. apply asks_after; [apply asks_request | intros _].
    apply asks_ret. }
  split; [apply L|]. split; [apply L|]. split; [apply O|].
  split; [apply L|]. split; [apply O|]. split; [apply O|].
  split.
  { unfold DimplexControl.set_mode.
    apply (asks_bind 1 1); [apply O | intros current]. apply W. }
  split; [apply asks_log|].
  split; [apply W|]. split; apply W.
Qed.

End ClientProperties.

(** X13.  [DimplexControl(session, refresh_token, access_token,
    expires_at)] never raises, and keeps of its arguments those that are
    true: an empty token is stored as [None] and so is a missing one, so
    that a stored token is either [None] or not empty.  A client made
    without access token is not authenticated, and one made without
    refresh token has none. *)
Theorem client_construction (refresh_token access_token expires_at : pyval) :
  exists a,
    DimplexControl.__init__ refresh_token access_token expires_at = Ok a
    /\ attr_refresh_token a = (if truthy refresh_token then refresh_token else PNone)
    /\ attr_access_token a = (if truthy access_token then access_token else PNone)
    /\ attr_expires_at a = (if truthy expires_at then expires_at else PNum 0)
    /\ (attr_refresh_token a = PNone \/ truthy (attr_refresh_token a) = true)
    /\ (attr_access_token a = PNone \/ truthy (attr_access_token a) = true)
    /\ (forall s w,
           as_state a = Some s -> tokens w = s ->
           (truthy access_token = false -> is_authenticated w = (Ok false, w))
           /\ (truthy refresh_token = false ->
               truthy (_refresh_token (tokens w)) = false)).
Proof.
  exists {| attr_access_token := if truthy access_token then access_token else PNone;
            attr_refresh_token := if truthy refresh_token then refresh_token else PNone;
            attr_expires_at := if truthy expires_at then expires_at else PNum 0 |}.
  split.
  { unfold DimplexControl.__init__.
    destruct (truthy refresh_token), (truthy access_token), (truthy expires_at);
      reflexivity. }
  cbn [attr_access_token attr_refresh_token attr_expires_at].
  split; [reflexivity|]. split; [reflexivity|]. split; [reflexivity|].
  split; [destruct (truthy refresh_token) eqn:E; auto|].
  split; [destruct (truthy access_token) eqn:E; auto|].
  intros s w Hs <-. unfold as_state in Hs.
  cbn [attr_access_token attr_refresh_token attr_expires_at] in Hs.
  destruct (if truthy expires_at then expires_at else PNum 0);
    try discriminate Hs.
  injection Hs as Hs. split; intros Hx.
  - rewrite is_authenticated_eq, <- Hs. cbn. rewrite Hx. reflexivity.
  - rewrite <- Hs. cbn. rewrite Hx. reflexivity.
Qed.

(** ** These properties at work *)

Lemma code_is_url_decoded_witness :
  query_code Urllib.urlparse_query Urllib.parse_qs
    (REDIRECT_URI ++ "?"
     ++ urlencode [("code", "a b&c=d/e"); ("state", "xyz")])
  = Ok "a b&c=d/e"
  /\ exists out w',
      capture_code_and_exchange Json.loads Urllib.urlparse_query Urllib.parse_qs
        authorize_url world_escaped_code = (out, w')
      /\ sent w' = [GET authorize_url false; exchange_request "a b&c=d/e"].
Proof.
  assert (Hall : Forall (fun kv : string * string =>
                           all_chars below_128 (fst kv) = true
                           /\ all_chars below_128 (snd kv) = true
                           /\ snd kv <> "")
                   [("code", "a b&c=d/e"); ("state", "xyz")])
    by (repeat constructor; discriminate).
  destruct (code_is_url_decoded Json.loads authorize_url world_escaped_code
              1006 _ _ _ eq_refl eq_refl eq_refl Hall) as (A & _ & C & _).
  split; [exact A|]. apply C. discriminate.
Defined.

Lemma built_urls_decode_back_witness :
  parse_qsl
    (url_query
       ((DEFAULT_BASE_URL ++ "/SelfAsserted") ++ "?"
        ++ urlencode [("tx", "StateProperties=a b&c"); ("p", POLICY)]))
  = [("tx", "StateProperties=a b&c"); ("p", POLICY)].
Proof.
  apply (proj2 (built_urls_decode_back DEFAULT_BASE_URL "StateProperties=a b&c"));
    [vm_compute; reflexivity | vm_compute; reflexivity | discriminate].
Defined.

Lemma time_of_day_parsed_witness :
  start_time_obj period_0830 = Some {| hour := 8; minute := 30; second := 45 |}
  /\ end_time_obj period_0830 = Some {| hour := 22; minute := 15; second := 0 |}.
Proof.
  destruct (time_of_day_parsed period_0830) as (A & B & _). split.
  - apply (A 8 30 45)%nat; [lia | lia | lia | reflexivity].
  - apply (B 22 15 0)%nat; [lia | lia | lia | reflexivity].
Defined.

Lemma client_construction_witness :
  exists a,
    DimplexControl.__init__ (PStr "fake_refresh") (PStr "") (PNum 0) = Ok a
    /\ attr_refresh_token a = PStr "fake_refresh"
    /\ attr_access_token a = PNone
    /\ attr_expires_at a = PNum 0.
Proof.
  destruct (client_construction (PStr "fake_refresh") (PStr "") (PNum 0))
    as (a & E & Hr & Ha & He & _).
  exists a. split; [exact E|]. split; [exact Hr|]. split; [exact Ha | exact He].
Defined.

Lemma no_request_without_refresh_token_witness :
  @DimplexControl.get_hubs Json.loads repr_any str_any _ any_fields
    client_no_tokens =
    (DimplexControl.Raises
       (DimplexControl.Below
          (DimplexAuthError
             "No refresh token available. User must authenticate first.")),
     client_no_tokens)
  /\ @DimplexControl.set_mode Json.loads repr_any str_any settings_of_fields
       "123" "a1" 2 client_no_tokens =
       (DimplexControl.Raises
          (DimplexControl.Below
             (DimplexAuthError
                "No refresh token available. User must authenticate first.")),
        client_no_tokens).
Proof.
  destruct (@no_request_without_refresh_token Json.loads repr_any str_any
              _ _ _ _ pyval any_fields any_fields any_fields any_fields
              settings_of_fields (fun x => x) client_no_tokens
              "GET" "/Hubs/GetUserHubs" DimplexControl.no_kwargs
              "123" "z1" "a1" ["a1"] 2 true PNone eq_refl)
    as (_ & A & _ & _ & _ & _ & _ & B & _).
  split; [exact A | exact B].
Defined.

Lemma fake_token_valid (script : list Exchange)
      (api : list DimplexControl.Exchange) :
  token_valid (DimplexControl.auth (client_of state_fake script api)).
Proof. split; [reflexivity | split; [discriminate | cbn; lia]]. Qed.

Lemma request_carries_token_witness :
  exists out c',
    DimplexControl._request Json.loads repr_any str_any
      "GET" "/Hubs/GetUserHubs" DimplexControl.no_kwargs client_hubs = (out, c')
    /\ DimplexControl.api_sent c' =
         [api_request repr_any (PStr "fake_access") "GET" "/Hubs/GetUserHubs"
            DimplexControl.no_kwargs]
    /\ dict_lookup
         (DimplexControl.headers
            (api_request repr_any (PStr "fake_access") "GET" "/Hubs/GetUserHubs"
               DimplexControl.no_kwargs)) "Authorization"
       = Some (PStr "Bearer fake_access")
    /\ sent (DimplexControl.auth c') = [].
Proof.
  destruct (request_carries_token Json.loads repr_any str_any
              "GET" "/Hubs/GetUserHubs" DimplexControl.no_kwargs client_hubs
              (fake_token_valid _ _))
    as (out & c' & E & Hs & _ & _ & Ha & Hsent & _).
  exists out, c'. split; [exact E|]. split; [exact Hs|].
  split; [exact Ha | exact Hsent].
Defined.

Lemma api_error_status_witness :
  (exists c',
      DimplexControl._request Json.loads repr_any str_any
        "GET" "/Hubs/GetUserHubs" DimplexControl.no_kwargs client_500 =
        (DimplexControl.Raises
           (DimplexControl.DimplexApiError 500 "Internal Server Error"), c')
      /\ DimplexControl.api_logged c' =
           [api_error_record (api_response 500 "Internal Server Error" false)]
      /\ DimplexControl.api_sent c' =
           [api_request repr_any (PStr "fake_access") "GET" "/Hubs/GetUserHubs"
              DimplexControl.no_kwargs]
      /\ tokens (DimplexControl.auth c') = state_fake)
  /\ fst (@DimplexControl.get_hubs Json.loads repr_any str_any _ any_fields
            client_500)
     = DimplexControl.Raises
         (DimplexControl.DimplexApiError 500 "Internal Server Error").
Proof.
  assert (Hs : DimplexControl.status
                 (api_response 500 "Internal Server Error" false) <> 200)
    by discriminate.
  exact (@api_error_status Json.loads repr_any str_any _ any_fields
           "GET" "/Hubs/GetUserHubs" DimplexControl.no_kwargs client_500 1001
           (api_response 500 "Internal Server Error" false) []
           (fake_token_valid _ _) eq_refl Hs).
Defined.

Lemma connection_errors_witness :
  (exists c',
      DimplexControl._request Json.loads repr_any str_any
        "GET" "/Hubs/GetUserHubs" DimplexControl.no_kwargs client_offline =
        (DimplexControl.Raises
           (DimplexControl.DimplexConnectionError "Connection error: <error>"),
         c')
      /\ DimplexControl.api_logged c' =
           [connection_error_record (DimplexControl.Below ClientError)])
  /\ (exists c',
         DimplexControl._request Json.loads repr_any str_any
           "GET" "/Hubs/GetUserHubs" DimplexControl.no_kwargs client_page =
           (DimplexControl.Raises
              (DimplexControl.DimplexConnectionError "Connection error: <error>"),
            c')
         /\ DimplexControl.api_logged c' =
              [connection_error_record DimplexControl.ContentTypeError])
  /\ (exists c',
         DimplexControl._request Json.loads repr_any str_any
           "GET" "/Hubs/GetUserHubs" DimplexControl.no_kwargs
           client_refresh_offline =
           (DimplexControl.Raises (DimplexControl.Below ClientError), c')
         /\ DimplexControl.api_sent c' = []
         /\ DimplexControl.api_logged c' = []).
Proof.
  split; [|split].
  - exact (proj1 (connection_errors Json.loads repr_any str_any
                    "GET" "/Hubs/GetUserHubs" DimplexControl.no_kwargs
                    client_offline) (fake_token_valid _ _) eq_refl).
  - exact (proj1 (proj2 (connection_errors Json.loads repr_any str_any
                           "GET" "/Hubs/GetUserHubs" DimplexControl.no_kwargs
                           client_page))
             (fake_token_valid _ _) 1001 (api_response 200 "<html></html>" false)
             [] eq_refl eq_refl eq_refl eq_refl).
  - apply (proj2 (proj2 (connection_errors Json.loads repr_any str_any
                           "GET" "/Hubs/GetUserHubs" DimplexControl.no_kwargs
                           client_refresh_offline)));
      [reflexivity | right; cbn; lia | reflexivity].
Defined.


Lemma answers_without_body_witness :
  fst (@DimplexControl.get_hubs Json.loads repr_any str_any _ any_fields
         client_empty) = DimplexControl.Returns []
  /\ fst (@DimplexControl.get_hubs Json.loads repr_any str_any _ any_fields
            client_blank)
     = DimplexControl.Raises (DimplexControl.Below TypeError).
Proof.
  split.
  - exact (proj1 (proj2
             (proj1 (@answers_without_body Json.loads repr_any str_any
                       _ _ _ _ any_fields any_fields any_fields any_fields
                       "GET" "/Hubs/GetUserHubs" DimplexControl.no_kwargs
                       client_empty 1001 (api_response 200 "" false) []
                       "123" ["a1"] (fake_token_valid _ _) eq_refl eq_refl)
                eq_refl))).
  - exact (proj1 (proj2
             (proj2 (@answers_without_body Json.loads repr_any str_any
                       _ _ _ _ any_fields any_fields any_fields any_fields
                       "GET" "/Hubs/GetUserHubs" DimplexControl.no_kwargs
                       client_blank 1001 (chunked_response 200 "  ") []
                       "123" ["a1"] (fake_token_valid _ _) eq_refl eq_refl)
                eq_refl eq_refl eq_refl))).
Defined.


Lemma listing_is_all_or_nothing_witness :
  fst (@DimplexControl.get_hubs Json.loads repr_any str_any _ any_fields
         client_hubs)
  = DimplexControl.Returns
      [[("HubId", PStr "123"); ("HubName", PStr "Test Hub")]]
  /\ exists x,
      fst (@DimplexControl.get_hubs Json.loads repr_any str_any _ any_fields
             client_hubs_and_number)
      = DimplexControl.Raises x.
Proof.
  assert (Z1 : DimplexControl.is_zero
                 (DimplexControl.content_length (api_response 200 body_hubs true))
               = false) by (vm_compute; reflexivity).
  assert (B1 : strip (DimplexControl.text (api_response 200 body_hubs true))
               <> "") by (vm_compute; discriminate).
  assert (J1 : Json.loads
                 (strip (DimplexControl.text (api_response 200 body_hubs true)))
               = Some (PList [PDict [("HubId", PStr "123");
                                     ("HubName", PStr "Test Hub")]]))
    by (vm_compute; reflexivity).
  assert (Z2 : DimplexControl.is_zero
                 (DimplexControl.content_length
                    (api_response 200 body_hubs_and_number true))
               = false) by (vm_compute; reflexivity).
  assert (B2 : strip (DimplexControl.text
                        (api_response 200 body_hubs_and_number true))
               <> "") by (vm_compute; discriminate).
  assert (J2 : Json.loads
                 (strip (DimplexControl.text
                           (api_response 200 body_hubs_and_number true)))
               = Some (PList [PDict [("HubId", PStr "123")]; PNum 5]))
    by (vm_compute; reflexivity).
  split.
  - apply (proj1 (proj1
                    (@listing_is_all_or_nothing Json.loads repr_any str_any
                       _ _ _ any_fields any_fields any_fields
                       client_hubs 1001 (api_response 200 body_hubs true) []
                       _ "123" ["a1"] (fake_token_valid _ _) eq_refl eq_refl
                       Z1 eq_refl B1 J1))).
    constructor; [|constructor]. eexists. split; reflexivity.
  - apply (proj2 (proj1
                    (@listing_is_all_or_nothing Json.loads repr_any str_any
                       _ _ _ any_fields any_fields any_fields
                       client_hubs_and_number 1001
                       (api_response 200 body_hubs_and_number true) []
                       _ "123" ["a1"] (fake_token_valid _ _) eq_refl eq_refl
                       Z2 eq_refl B2 J2))).
    apply Exists_cons_tl, Exists_cons_hd. intros d Hd. discriminate Hd.
Defined.

(** The tests of the repository, [tests/test_client.py] and
    [tests/test_models.py], on the model. *)
Example test_get_hubs :
  fst (@DimplexControl.get_hubs Json.loads repr_any str_any _ any_fields
         client_hubs)
  = DimplexControl.Returns
      [[("HubId", PStr "123"); ("HubName", PStr "Test Hub")]].
Proof. vm_compute. reflexivity. Qed.

Example test_api_error :
  fst (@DimplexControl.get_hubs Json.loads repr_any str_any _ any_fields
         client_500)
  = DimplexControl.Raises
      (DimplexControl.DimplexApiError 500 "Internal Server Error").
Proof. vm_compute. reflexivity. Qed.

Example test_is_authenticated :
  fst (DimplexControl.is_authenticated client_no_tokens)
  = DimplexControl.Returns false
  /\ fst (DimplexControl.is_authenticated client_hubs)
     = DimplexControl.Returns true.
Proof. split; reflexivity. Qed.

Example test_timer_period_time_properties :
  start_time_obj period_0830 = Some {| hour := 8; minute := 30; second := 45 |}
  /\ strptime_HMS "24:00:00" = None
  /\ strptime_HMS "23:59:60" = None
  /\ strptime_HMS "8:5:7" = Some {| hour := 8; minute := 5; second := 7 |}.
Proof. repeat split. Qed.


Lemma login_refusal_message_witness :
  (exists w' q,
      headless_login Json.loads repr_any no_form_inputs
        Urllib.urlparse_query Urllib.parse_qs
        (PStr "user@example.org") (PStr "secret") world_login_refused =
        (Raise (DimplexAuthError "Login failed: 400 - Bad password"), w')
      /\ sent w' = [GET authorize_url true; q]
      /\ tokens w' = state_old)
  /\ (exists w' q,
         headless_login Json.loads repr_any no_form_inputs
           Urllib.urlparse_query Urllib.parse_qs
           (PStr "user@example.org") (PStr "secret") world_login_status_number =
           (Raise (DimplexAuthError "Login failed: 200 - Unknown reason"), w')
         /\ sent w' = [GET authorize_url true; q]
         /\ tokens w' = state_old).
Proof.
  assert (H1 : Json.loads (text login_refused)
               = Some (PDict [("status", PStr "400");
                              ("message", PStr "Bad password")]))
    by (vm_compute; reflexivity).
  assert (H2 : Json.loads (text login_status_number)
               = Some (PDict [("status", PNum 200)]))
    by (vm_compute; reflexivity).
  split.
  - exact (proj2 (login_refusal_message Json.loads repr_any no_form_inputs
                    Urllib.urlparse_query Urllib.parse_qs
                    (PStr "user@example.org") (PStr "secret")
                    world_login_refused 1001 1002 login_page login_refused []
                    eq_refl login_page_is_good) _ H1 eq_refl).
  - exact (proj2 (login_refusal_message Json.loads repr_any no_form_inputs
                    Urllib.urlparse_query Urllib.parse_qs
                    (PStr "user@example.org") (PStr "secret")
                    world_login_status_number 1001 1002 login_page
                    login_status_number [] eq_refl login_page_is_good)
             _ H2 eq_refl).
Defined.

(** * What a login posts *)

Section LoginRequest.

#[local] Set Default Proof Using "Type".

Variable json_loads : string -> option pyval.
Variable py_repr : pyval -> string.
Variable soup_form_inputs : string -> list (option string * string).
Variable urlparse_query : string -> option string.
Variable parse_qs : string -> list (string * list string).

Arguments capture_code_and_exchange : simpl never.
Arguments check_login_response : simpl never.
Arguments headless_login : simpl never.
Arguments authorize_url : simpl never.
Arguments urlencode : simpl never.
Arguments py_str : simpl never.
Arguments collect_inputs : simpl never.
Arguments dict_update : simpl never.

(** Steps 1 to 3 on a good page, with the request of step 4. *)
Lemma headless_login_posts (email password : pyval) (w : World) (T : Z)
      (page : Response) (rest : list Exchange) (group : string)
      (settings : list (string * pyval)) :
  pending w = answer T page :: rest ->
  re_search_settings (text page) = Some group ->
  json_loads group = Some (PDict settings) ->
  truthy (dict_get settings "csrf" PNone) = true ->
  truthy (dict_get settings "transId" PNone) = true ->
  exists w1,
    headless_login json_loads py_repr soup_form_inputs urlparse_query parse_qs
      email password w =
      (let* resp :=
         http (credentials_request py_repr soup_form_inputs page
                 (dict_get settings "csrf" PNone)
                 (dict_get settings "transId" PNone) email password) in
       check_login_response json_loads py_repr resp ;;
       log DEBUG "Credentials accepted. Fetching authorize URL again to get code." [] ;;
       try_except (http (GET authorize_url true) ;; ret tt)
         (fun _ => Some (ret tt)) ;;
       capture_code_and_exchange json_loads urlparse_query parse_qs
         authorize_url) w1
    /\ sent w1 = (sent w ++ [GET authorize_url true])%list.
Proof.
  intros Hp Hre Hj Hc Ht.
  unfold headless_login. cbv zeta.
  rewrite bind_log. cbv beta.
  erewrite bind_http_answer; [|cbn; exact Hp]. cbv beta.
  rewrite Hre.
  erewrite bind_ok; [|unfold try_except, loads; rewrite Hj; reflexivity].
  cbv beta. cbn [py_get]. repeat (rewrite bind_ret; cbv beta).
  rewrite Hc, Ht. cbn [negb orb]. rewrite bind_log. cbv beta.
  eexists. split; [reflexivity|]. reflexivity.
Qed.

(** X25.  What is posted, and where.  On a login page that holds its
    SETTINGS with [csrf] and [transId], the second request of
    [headless_login] is the post of the credentials: to the SelfAsserted
    URL next to the page (or to the default one), with the [csrf] of the
    page as X-CSRF-TOKEN.  Its form holds the email and the password that
    were given and [request_type] RESPONSE, whatever inputs the form of
    the page has under those names; every other named input of the form is
    posted as the page has it. *)
Theorem credentials_posted (email password : pyval) (w : World) (T : Z)
        (page : Response) (rest : list Exchange) (group : string)
        (settings : list (string * pyval)) :
  pending w = answer T page :: rest ->
  re_search_settings (text page) = Some group ->
  json_loads group = Some (PDict settings) ->
  truthy (dict_get settings "csrf" PNone) = true ->
  truthy (dict_get settings "transId" PNone) = true ->
  exists out w' address form headers later,
    headless_login json_loads py_repr soup_form_inputs urlparse_query parse_qs
      email password w =
      (out, w')
    /\ sent w' =
         (sent w ++ GET authorize_url true :: POST address form headers :: later)%list
    /\ POST address form headers =
         credentials_request py_repr soup_form_inputs page
           (dict_get settings "csrf" PNone) (dict_get settings "transId" PNone)
           email password
    /\ dict_lookup form "email" = Some email
    /\ dict_lookup form "password" = Some password
    /\ dict_lookup form "request_type" = Some (PStr "RESPONSE")
    /\ (forall name,
           name <> "email" -> name <> "password" -> name <> "request_type" ->
           dict_lookup form name =
             dict_lookup (collect_inputs (soup_form_inputs (text page))) name)
    /\ dict_lookup headers "X-CSRF-TOKEN" = Some (dict_get settings "csrf" PNone).
Proof.
  intros Hp Hre Hj Hc Ht.
  destruct (headless_login_posts email password w T page rest group settings
              Hp Hre Hj Hc Ht) as (w1 & E & Hs1).
  set (q := credentials_request py_repr soup_form_inputs page
              (dict_get settings "csrf" PNone)
              (dict_get settings "transId" PNone) email password) in *.
  assert (Hlater : exists out w' later,
             headless_login json_loads py_repr soup_form_inputs
               urlparse_query parse_qs email password w
             = (out, w')
             /\ sent w' = (sent w ++ GET authorize_url true :: q :: later)%list).
  { rewrite E. unfold bind at 1.
    destruct (http_sends q w1) as (out & ->).
    destruct out as [resp|x].
    - match goal with
      | |- exists out w' later, ?K ?W = _ /\ _ =>
          assert (HK : sends_at_most 12 K)
      end.
      { apply (sends_bind 0 12);
          [apply sends_check_login_response | intros _].
        apply (sends_bind 0 12); [apply sends_log | intros _].
        apply (sends_bind 1 11); [|intros _; apply sends_capture].
        apply (sends_try_except 1 0).
        - apply (sends_bind 1 0); [apply sends_http | intros _; apply sends_ret].
        - intros x k [= <-]. apply sends_ret. }
      match goal with
      | |- exists out w' later, ?K ?W = _ /\ _ =>
          destruct (K W) as [out w'] eqn:EK;
          destruct (HK W out w' EK) as (new & Hnew & _)
      end.
      exists out, w', new. split; [reflexivity|].
      rewrite Hnew. cbn. rewrite Hs1, <- !app_assoc. reflexivity.
    - exists (Raise x), (exchange q w1), []. split; [reflexivity|].
      cbn. rewrite Hs1, <- app_assoc. reflexivity. }
  destruct Hlater as (out & w' & later & E' & Hsent).
  exists out, w'. unfold q in Hsent. unfold credentials_request in *.
  eexists _, _, _, later. split; [exact E'|]. split; [exact Hsent|].
  split; [reflexivity|].
  unfold dict_update. cbn [fold_left fst snd].
  split; [rewrite dict_lookup_set_ne by congruence; apply dict_lookup_set_eq|].
  split; [apply dict_lookup_set_eq|].
  split; [rewrite !dict_lookup_set_ne by congruence; apply dict_lookup_set_eq|].
  split; [|reflexivity].
  intros name He Hpw Hr. rewrite !dict_lookup_set_ne by congruence. reflexivity.
Qed.

End LoginRequest.

Lemma credentials_posted_witness :
  exists out w' address form headers later,
    headless_login Json.loads repr_any inputs_named_like_credentials
      Urllib.urlparse_query Urllib.parse_qs
      (PStr "user@example.org") (PStr "secret") world_login = (out, w')
    /\ sent w' =
         GET authorize_url true :: POST address form headers :: later
    /\ dict_lookup form "email" = Some (PStr "user@example.org")
    /\ dict_lookup form "password" = Some (PStr "secret")
    /\ dict_lookup form "flow" = Some (PStr "signin")
    /\ dict_lookup headers "X-CSRF-TOKEN" = Some (PStr "tok").
Proof.
  assert (Hre : re_search_settings (text login_page)
                = Some (Json.dumps (PDict [("csrf", PStr "tok");
                                           ("transId", PStr "StateProperties=abc")])))
    by (vm_compute; reflexivity).
  assert (Hj : Json.loads (Json.dumps (PDict [("csrf", PStr "tok");
                                              ("transId", PStr "StateProperties=abc")]))
               = Some (PDict [("csrf", PStr "tok");
                              ("transId", PStr "StateProperties=abc")]))
    by (vm_compute; reflexivity).
  destruct (credentials_posted Json.loads repr_any inputs_named_like_credentials
                    Urllib.urlparse_query Urllib.parse_qs
              (PStr "user@example.org") (PStr "secret") world_login 1001
              login_page _ _ _ eq_refl Hre Hj eq_refl eq_refl)
    as (out & w' & address & form & headers & later
        & E & Hs & _ & He & Hp & _ & Ho & Hh).
  exists out, w', address, form, headers, later.
  split; [exact E|]. split; [exact Hs|]. split; [exact He|].
  split; [exact Hp|]. split; [|exact Hh].
  rewrite Ho by discriminate. vm_compute. reflexivity.
Defined.
